(** * Kagi tool adapters and the Postmark webhook handler

    A shallow embedding of
      - src/agents/tools/kagi-summarize.ts  (the summarize tool),
      - the FastGPT tool and the Postmark webhook handler,
      - the Postmark hook transform,
    with the properties their specification states about them.

    Conventions of the embedding.
      - A JavaScript string is a [string] of ASCII characters, one character
        a code unit.  [trim], [toLowerCase] and [toUpperCase] are the ASCII
        ones; a character outside that range is left alone.
      - A JavaScript number is an integer ([Z]), printed in decimal (as
        JavaScript prints an integer below 10^21); a configuration number may
        also be NaN or infinite ([number]).  The time-to-live of the cache
        and the expiry of an entry are computed as the runtime computes them,
        in double precision ([Number.mul], [Number.add]): a result is rounded
        to 53 significant bits and is an infinity beyond the largest double.
      - An object holds each property name once.
      - The body of a request arrives in chunks of bytes ([Buffer]); the
        text a chunk decodes to is the runtime's to say ([Buffer_toString]).
      - [undefined] in an optional field or parameter is [None].
      - Asynchronous code is run to completion: a promise that rejects is a
        thrown error ([Throw]), one that resolves is a returned value.
      - Effects (the module-level caches, the clock, the upstream requests)
        are threaded through a state-and-exception monad [M]. *)

From Stdlib Require Import ZArith String Ascii List Bool Lia.
From stdpp Require Import base option gmap strings pretty.

Local Open Scope string_scope.
Local Open Scope Z_scope.
Local Open Scope stdpp_scope.
Local Open Scope list_scope.

(* ================================================================== *)
(** ** JavaScript strings *)
(* ================================================================== *)

Module Js.

(** Truthiness of a string: every string but the empty one. *)
Definition truthyS (s : string) : bool :=
  match s with EmptyString => false | String _ _ => true end.

(** Truthiness of [string | undefined]. *)
Definition truthyO (o : option string) : bool :=
  match o with Some s => truthyS s | None => false end.

(** [o || d] for [o : string | undefined]. *)
Definition orS (o : option string) (d : string) : string :=
  match o with
  | Some s => if truthyS s then s else d
  | None => d
  end.

(** White space removed by [String.prototype.trim], ASCII range. *)
Definition isSpace (c : ascii) : bool :=
  let n := nat_of_ascii c in
  ((9 <=? n) && (n <=? 13) || (n =? 32))%nat.

Fixpoint trimStart (s : string) : string :=
  match s with
  | EmptyString => EmptyString
  | String c r => if isSpace c then trimStart r else s
  end.

(** Drops the trailing white space: a character is kept when it is not
    white space or something is kept after it. *)
Fixpoint trimEnd (s : string) : string :=
  match s with
  | EmptyString => EmptyString
  | String c r =>
      match trimEnd r with
      | EmptyString => if isSpace c then EmptyString else String c EmptyString
      | r' => String c r'
      end
  end.

Definition trim (s : string) : string := trimEnd (trimStart s).

Definition lowerAscii (c : ascii) : ascii :=
  let n := nat_of_ascii c in
  if ((65 <=? n) && (n <=? 90))%nat then ascii_of_nat (n + 32) else c.

Definition upperAscii (c : ascii) : ascii :=
  let n := nat_of_ascii c in
  if ((97 <=? n) && (n <=? 122))%nat then ascii_of_nat (n - 32) else c.

Fixpoint mapS (f : ascii -> ascii) (s : string) : string :=
  match s with
  | EmptyString => EmptyString
  | String c r => String (f c) (mapS f r)
  end.

Definition toLowerCase : string -> string := mapS lowerAscii.
Definition toUpperCase : string -> string := mapS upperAscii.

(** [xs.includes(s)] on an array of strings. *)
Definition includes (xs : list string) (s : string) : bool :=
  existsb (String.eqb s) xs.

(** [s.slice(0, n)] and [s.substring(0, n)] for [0 <= n]. *)
Definition prefix (n : nat) (s : string) : string := String.substring 0 n s.

(** The line feed of ["\n"]. *)
Definition LF : string := String (ascii_of_nat 10) EmptyString.

(** [parts.join(sep)] on an array of strings. *)
Fixpoint join (sep : string) (parts : list string) : string :=
  match parts with
  | [] => ""
  | [p] => p
  | p :: rest => p +:+ sep +:+ join sep rest
  end.

(** [String(b)] of a boolean. *)
Definition ofBool (b : bool) : string := if b then "true" else "false".

End Js.

(* ================================================================== *)
(** ** SHA-256 (node:crypto's [createHash("sha256")]), FIPS 180-4 *)
(* ================================================================== *)

Module Sha256.

Definition w32 (x : Z) : Z := x mod 4294967296.
Definition add32 (x y : Z) : Z := w32 (x + y).
Definition rotr (n x : Z) : Z :=
  w32 (Z.lor (Z.shiftr x n) (Z.shiftl x (32 - n))).
Definition shr (n x : Z) : Z := Z.shiftr x n.
Definition not32 (x : Z) : Z := Z.lxor x 4294967295.

Definition Ch (x y z : Z) : Z := Z.lxor (Z.land x y) (Z.land (not32 x) z).
Definition Maj (x y z : Z) : Z :=
  Z.lxor (Z.lxor (Z.land x y) (Z.land x z)) (Z.land y z).
Definition Sigma0 (x : Z) : Z := Z.lxor (Z.lxor (rotr 2 x) (rotr 13 x)) (rotr 22 x).
Definition Sigma1 (x : Z) : Z := Z.lxor (Z.lxor (rotr 6 x) (rotr 11 x)) (rotr 25 x).
Definition sigma0 (x : Z) : Z := Z.lxor (Z.lxor (rotr 7 x) (rotr 18 x)) (shr 3 x).
Definition sigma1 (x : Z) : Z := Z.lxor (Z.lxor (rotr 17 x) (rotr 19 x)) (shr 10 x).

(** The constants are defined as the standard defines them: from the first
    primes, the leading thirty-two bits of the fractional part of a cube root
    (the round constants) and of a square root (the initial hash value). *)
Definition isPrime (n : Z) : bool :=
  (1 <? n) && forallb (fun d => negb (n mod d =? 0))
                      (map Z.of_nat (seq 2 (Z.to_nat n - 2))).

Definition primes : list Z :=
  Eval vm_compute in filter isPrime (map Z.of_nat (seq 2 310)).

(** The integer cube root below [2 ^ bits], found bit by bit. *)
Fixpoint cbrtBits (bits : nat) (n r : Z) : Z :=
  match bits with
  | O => r
  | S k =>
      let r' := r + Z.shiftl 1 (Z.of_nat k) in
      cbrtBits k n (if r' * r' * r' <=? n then r' else r)
  end.

Definition fracCbrt32 (p : Z) : Z := w32 (cbrtBits 40 (Z.shiftl p 96) 0).
Definition fracSqrt32 (p : Z) : Z := w32 (Z.sqrt (Z.shiftl p 64)).

Definition K : list Z := Eval vm_compute in map fracCbrt32 primes.

(** The eight working variables, and the chaining value, as one record. *)
Record state := St { ha : Z; hb : Z; hc : Z; hd : Z; he : Z; hf : Z; hg : Z; hh : Z }.

Definition H0 : state :=
  Eval vm_compute in
    St (fracSqrt32 2) (fracSqrt32 3) (fracSqrt32 5) (fracSqrt32 7)
       (fracSqrt32 11) (fracSqrt32 13) (fracSqrt32 17) (fracSqrt32 19).

(** The bytes of a string (its UTF-8 encoding in the ASCII range). *)
Fixpoint bytesOf (s : string) : list Z :=
  match s with
  | EmptyString => []
  | String c r => Z.of_nat (nat_of_ascii c) :: bytesOf r
  end.

(** Big-endian bytes of the low [8 * n] bits of [x]. *)
Fixpoint be (n : nat) (x : Z) : list Z :=
  match n with
  | O => []
  | S k => Z.land (Z.shiftr x (8 * Z.of_nat k)) 255 :: be k x
  end.

(** Padding: a one bit, zeros up to 56 modulo 64, the bit length on 64 bits. *)
Definition pad (msg : list Z) : list Z :=
  let len := Z.of_nat (length msg) in
  let zeros := Z.to_nat ((55 - len) mod 64) in
  msg ++ [128] ++ repeat 0 zeros ++ be 8 (8 * len).

(** Big-endian 32-bit words of a byte list (a trailing partial word is dropped). *)
Fixpoint words (fuel : nat) (bs : list Z) : list Z :=
  match fuel, bs with
  | S k, b0 :: b1 :: b2 :: b3 :: rest =>
      (((b0 * 256 + b1) * 256 + b2) * 256 + b3) :: words k rest
  | _, _ => []
  end.

(** The message schedule: [win] holds the last sixteen words, newest first. *)
Fixpoint schedule (n : nat) (win : list Z) : list Z :=
  match n with
  | O => []
  | S k =>
      let w := add32 (add32 (sigma1 (nth 1 win 0)) (nth 6 win 0))
                     (add32 (sigma0 (nth 14 win 0)) (nth 15 win 0)) in
      w :: schedule k (w :: firstn 15 win)
  end.

Definition round (s : state) (kw : Z * Z) : state :=
  let t1 := add32 (add32 (add32 (hh s) (Sigma1 (he s)))
                         (add32 (Ch (he s) (hf s) (hg s)) (fst kw))) (snd kw) in
  let t2 := add32 (Sigma0 (ha s)) (Maj (ha s) (hb s) (hc s)) in
  St (add32 t1 t2) (ha s) (hb s) (hc s) (add32 (hd s) t1) (he s) (hf s) (hg s).

Definition compress (h : state) (block : list Z) : state :=
  let w := block ++ schedule 48 (rev block) in
  let s := fold_left round (combine K w) h in
  St (add32 (ha h) (ha s)) (add32 (hb h) (hb s)) (add32 (hc h) (hc s))
     (add32 (hd h) (hd s)) (add32 (he h) (he s)) (add32 (hf h) (hf s))
     (add32 (hg h) (hg s)) (add32 (hh h) (hh s)).

Fixpoint blocks (fuel : nat) (h : state) (ws : list Z) : state :=
  match fuel, ws with
  | S k, _ :: _ => blocks k (compress h (firstn 16 ws)) (skipn 16 ws)
  | _, _ => h
  end.

Definition hash (msg : list Z) : state :=
  let p := pad msg in
  blocks (length p) H0 (words (length p) p).

Definition hexDigit (d : Z) : ascii :=
  if d <? 10 then ascii_of_nat (Z.to_nat (48 + d)) else ascii_of_nat (Z.to_nat (87 + d)).

Definition nib (k x : Z) : ascii := hexDigit (Z.land (Z.shiftr x (4 * k)) 15).

Definition hexWord (x : Z) (tail : string) : string :=
  String (nib 7 x) (String (nib 6 x) (String (nib 5 x) (String (nib 4 x)
  (String (nib 3 x) (String (nib 2 x) (String (nib 1 x) (String (nib 0 x) tail))))))).

Definition hexState (s : state) : string :=
  hexWord (ha s) (hexWord (hb s) (hexWord (hc s) (hexWord (hd s)
  (hexWord (he s) (hexWord (hf s) (hexWord (hg s) (hexWord (hh s) ""))))))).

(** [createHash("sha256").update(s).digest("hex")]. *)
Definition digestHex (s : string) : string := hexState (hash (bytesOf s)).

End Sha256.

(* ================================================================== *)
(** ** JSON values, errors and the effect monad *)
(* ================================================================== *)

#[local] Set Warnings "-register-all".

(** A value of type [unknown]: what [JSON.parse] and [res.json()] produce,
    and what an object literal of the code holds ([JUndefined] for a
    property whose value is [undefined]).  An object is the list of its own
    properties in insertion order. *)
Inductive Json : Type :=
| JUndefined
| JNull
| JBool (b : bool)
| JNum (n : Z)
| JStr (s : string)
| JArr (items : list Json)
| JObj (fields : list (string * Json)).

(** What a [throw] carries: an [Error] the code constructs, with its message,
    or an error of the runtime, by its class (the message is the engine's). *)
Inductive JsError : Type :=
| Error (message : string)
| TypeError
| SyntaxError
| AbortError.

(** How a call ends: it returns, or it throws (an [async] function: its
    promise resolves or rejects). *)
Inductive Outcome (A : Type) : Type :=
| Return (a : A)
| Throw (e : JsError).
Arguments Return {A} a.
Arguments Throw {A} e.

(** State and exceptions: a thrown error keeps the state reached so far. *)
Definition M (S A : Type) : Type := S -> Outcome A * S.

Definition ret {S A} (a : A) : M S A := fun s => (Return a, s).
Definition throw {S A} (e : JsError) : M S A := fun s => (Throw e, s).
Definition bind {S A B} (c : M S A) (k : A -> M S B) : M S B :=
  fun s => match c s with
           | (Return a, s') => k a s'
           | (Throw e, s') => (Throw e, s')
           end.
Definition lift {S A} (o : Outcome A) : M S A := fun s => (o, s).
Definition gets {S A} (f : S -> A) : M S A := fun s => (Return (f s), s).
Definition modify {S} (f : S -> S) : M S unit := fun s => (Return tt, f s).
(** [try { body } catch (err) { handler }]. *)
Definition tryCatch {S A} (body : M S A) (handler : JsError -> M S A) : M S A :=
  fun s => match body s with
           | (Return a, s') => (Return a, s')
           | (Throw e, s') => handler e s'
           end.

Declare Scope js_scope.
Notation "x <- c ;; k" := (bind c (fun x => k))
  (at level 100, c at next level, k at level 200, right associativity) : js_scope.
Notation "c ;; k" := (bind c (fun _ => k))
  (at level 100, k at level 200, right associativity) : js_scope.
Local Open Scope js_scope.

Module Value.

(** Truthiness of a value. *)
Definition truthy (v : Json) : bool :=
  match v with
  | JUndefined | JNull => false
  | JBool b => b
  | JNum n => negb (n =? 0)
  | JStr s => Js.truthyS s
  | JArr _ | JObj _ => true
  end.

Definition nullish (v : Json) : bool :=
  match v with JUndefined | JNull => true | _ => false end.

(** [a || b] and [a ?? b]. *)
Definition or (a b : Json) : Json := if truthy a then a else b.
Definition coalesce (a b : Json) : Json := if nullish a then b else a.

Fixpoint lookup (k : string) (fields : list (string * Json)) : option Json :=
  match fields with
  | [] => None
  | (k', v) :: rest => if String.eqb k k' then Some v else lookup k rest
  end.

(** [v.k] for the property names the code reads (none of them a built-in
    property of strings, arrays, numbers or [Object.prototype]): the own
    property of an object, [undefined] on any other value, and a TypeError on
    [null] and [undefined]. *)
Definition get (v : Json) (k : string) : Outcome Json :=
  match v with
  | JUndefined | JNull => Throw TypeError
  | JObj fields => Return (default JUndefined (lookup k fields))
  | _ => Return JUndefined
  end.

(** [v?.k]. *)
Definition getOpt (v : Json) (k : string) : Json :=
  match get v k with Return x => x | Throw _ => JUndefined end.

(** [{ ...o, k: x }] seen from [o]'s property list: [k] keeps its place when
    [o] has it, and is added last otherwise. *)
Fixpoint setField (k : string) (x : Json) (fields : list (string * Json))
  : list (string * Json) :=
  match fields with
  | [] => [(k, x)]
  | (k', v) :: rest =>
      if String.eqb k k' then (k', x) :: rest else (k', v) :: setField k x rest
  end.

(** [{ ...v, k: x }]: the own properties of [v] (none for a value that is not
    an object; arrays, which spread their indices, do not occur). *)
Definition spreadSet (v : Json) (k : string) (x : Json) : Json :=
  match v with
  | JObj fields => JObj (setField k x fields)
  | _ => JObj [(k, x)]
  end.

(** [String(v)], as a template literal applies it.  An object from JSON is
    ["[object Object]"] unless it has an own property [toString], which is
    never callable: then the conversion throws.  An array joins its elements
    with commas, [null] and [undefined] as empty strings. *)
Fixpoint toString (v : Json) : Outcome string :=
  match v with
  | JUndefined => Return "undefined"
  | JNull => Return "null"
  | JBool b => Return (Js.ofBool b)
  | JNum n => Return (pretty n)
  | JStr s => Return s
  | JArr items =>
      let fix go (l : list Json) : Outcome (list string) :=
        match l with
        | [] => Return []
        | x :: rest =>
            match (if nullish x then Return "" else toString x) with
            | Throw e => Throw e
            | Return sx =>
                match go rest with
                | Throw e => Throw e
                | Return ss => Return (sx :: ss)
                end
            end
        end in
      match go items with
      | Throw e => Throw e
      | Return ss => Return (Js.join "," ss)
      end
  | JObj fields =>
      match lookup "toString" fields with
      | Some _ => Throw TypeError
      | None => Return "[object Object]"
      end
  end.

End Value.

(* ================================================================== *)
(** ** Numbers *)
(* ================================================================== *)

(** A number that holds an integer, NaN or an infinity. *)
Inductive number : Type :=
| Finite (z : Z)
| NaN
| Infinity (negative : bool).

(** [typeof val === "number" && Number.isFinite(val)]. *)
Definition finite (v : option number) : option Z :=
  match v with Some (Finite z) => Some z | _ => None end.

Module Number.

(** The largest integer below which every integer is a double, and the
    bound of the doubles. *)
Definition exact : Z := 2 ^ 53.
Definition huge : Z := 2 ^ 1024.

(** [a >= 0] rounded to 53 significant bits: the low bits beyond them are
    dropped, and the result goes up when they are more than half a unit of
    the last kept bit, or exactly half and the last kept bit is odd. *)
Definition round53 (a : Z) : Z :=
  let drop := Z.log2 a - 52 in
  if drop <=? 0 then a
  else
    let kept := Z.shiftr a drop in
    let low := a - Z.shiftl kept drop in
    let half := Z.shiftl 1 (drop - 1) in
    let up := (half <? low) || ((low =? half) && Z.odd kept) in
    Z.shiftl (if up then kept + 1 else kept) drop.

(** The double an integer result is stored as. *)
Definition ofZ (z : Z) : number :=
  let r := round53 (Z.abs z) in
  if huge <=? r then Infinity (z <? 0) else Finite (Z.sgn z * r).

(** [a * b]. *)
Definition mul (a b : number) : number :=
  match a, b with
  | NaN, _ | _, NaN => NaN
  | Finite x, Finite y => ofZ (x * y)
  | Infinity s, Finite y | Finite y, Infinity s =>
      if y =? 0 then NaN else Infinity (xorb s (y <? 0))
  | Infinity s, Infinity s' => Infinity (xorb s s')
  end.

(** [a + b]. *)
Definition add (a b : number) : number :=
  match a, b with
  | NaN, _ | _, NaN => NaN
  | Finite x, Finite y => ofZ (x + y)
  | Infinity s, Finite _ | Finite _, Infinity s => Infinity s
  | Infinity s, Infinity s' => if Bool.eqb s s' then Infinity s else NaN
  end.

(** [a < b]; a comparison with NaN is false. *)
Definition ltb (a b : number) : bool :=
  match a, b with
  | NaN, _ | _, NaN => false
  | Finite x, Finite y => x <? y
  | Infinity s, Finite _ => s
  | Finite _, Infinity s => negb s
  | Infinity s, Infinity s' => s && negb s'
  end.

(** [a > b] and [a <= b]. *)
Definition gtb (a b : number) : bool := ltb b a.

Definition leb (a b : number) : bool :=
  match a, b with
  | NaN, _ | _, NaN => false
  | Finite x, Finite y => x <=? y
  | Infinity s, Finite _ => s
  | Finite _, Infinity s => negb s
  | Infinity s, Infinity s' => s || negb s'
  end.

End Number.

(* ================================================================== *)
(** ** web-shared.js: the cache store *)
(* ================================================================== *)

Record CacheEntry : Type := { value : Json; expiresAt : number }.

(** Modelled from the spec: [readCache] of web-shared.js, which is not among
    the sources.  "Returns absent if no entry exists for key, or if an entry
    exists but now > expiresAtEpochMs (in which case implementations should
    evict the stale entry as a side effect)".  [now] is the clock reading the
    read takes when the key holds an entry. *)
Definition readCache (now : Z) (store : gmap string CacheEntry) (key : string)
  : option CacheEntry * gmap string CacheEntry :=
  match store !! key with
  | None => (None, store)
  | Some e =>
      if Number.gtb (Finite now) (expiresAt e) then (None, delete key store)
      else (Some e, store)
  end.

(** Modelled from the spec: [writeCache] of web-shared.js, which is not among
    the sources.  "Unconditionally inserts or overwrites the entry for key
    with expiresAtEpochMs = now + ttlMs.  ttlMs <= 0 is permitted and must
    yield immediate-expiry semantics (an entry that is a miss on the very
    next read)".  An entry written with a zero time-to-live would still be
    live at the clock reading of its write, where [now > expiresAtEpochMs]
    does not hold; so that the second sentence holds there, a write with
    [ttlMs <= 0] stores no entry and leaves the store as it is. *)
Definition writeCache (now : Z) (store : gmap string CacheEntry) (key : string)
    (v : Json) (ttlMs : number) : gmap string CacheEntry :=
  if Number.leb ttlMs (Finite 0) then store
  else <[key := {| value := v; expiresAt := Number.add (Finite now) ttlMs |}]> store.

(* ================================================================== *)
(** ** The world of a tool call *)
(* ================================================================== *)

(** The response [fetch] resolves to: [text] is what [res.text()] gives and
    [json] what [res.json()] gives (a body that is no JSON throws). *)
Record Response : Type := {
  status : Z;
  statusText : string;
  text : string;
  json : Outcome Json
}.

(** [res.ok]. *)
Definition ok (res : Response) : bool := (200 <=? status res) && (status res <=? 299).

(** One [fetch] call: a POST with the JSON headers of the source; [timeoutMs]
    is the delay given to [withTimeout] for the abort signal. *)
Record FetchRequest : Type := {
  endpoint : string;
  authorization : string;
  requestBody : Json;
  timeoutMs : Z
}.

Inductive FetchOutcome : Type :=
| Responds (res : Response)
| Rejects (e : JsError).

(** What a call cannot decide: the readings of [Date.now()], by how many were
    taken before; what the upstream answers to the n-th request (an abort by
    the timeout signal is a rejection); and [process.env.KAGI_API_KEY]. *)
Record Env : Type := {
  clock : nat -> Z;
  upstream : nat -> FetchRequest -> FetchOutcome;
  KAGI_API_KEY : option string
}.

(** The module-level state: both caches, the requests sent so far (oldest
    first) and the number of clock readings taken. *)
Record World : Type := {
  ticks : nat;
  requests : list FetchRequest;
  SUMMARIZE_CACHE : gmap string CacheEntry;
  FASTGPT_CACHE : gmap string CacheEntry
}.

Definition DateNow (env : Env) : M World Z :=
  fun w => (Return (clock env (ticks w)),
            {| ticks := S (ticks w); requests := requests w;
               SUMMARIZE_CACHE := SUMMARIZE_CACHE w; FASTGPT_CACHE := FASTGPT_CACHE w |}).

Definition fetch (env : Env) (req : FetchRequest) : M World Response :=
  fun w =>
    let w' := {| ticks := ticks w; requests := requests w ++ [req];
                 SUMMARIZE_CACHE := SUMMARIZE_CACHE w; FASTGPT_CACHE := FASTGPT_CACHE w |} in
    match upstream env (length (requests w)) req with
    | Responds res => (Return res, w')
    | Rejects e => (Throw e, w')
    end.

(** The helpers of web-shared.js that the sources import and do not contain,
    and the constant they share. *)
Class WebShared : Type := {
  DEFAULT_CACHE_TTL_MINUTES : Z;
  normalizeCacheKey : string -> string;
  readResponseText : Response -> string
}.

(** The helpers of common.js that the sources import and do not contain.
    [readStringParam] without options is typed [string | undefined] and
    [readBoolParam] [boolean | undefined] by their call sites; with
    [{ required: true }] the string reader returns a string or throws. *)
Class Common : Type := {
  ToolResult : Type;
  jsonResult : Json -> ToolResult;
  readStringParam : Json -> string -> option string;
  readRequiredStringParam : Json -> string -> Outcome string;
  readBoolParam : Json -> string -> option bool
}.

(** The tool object handed to the dispatcher ([parameters], the schema, and
    the description play no part in a call). *)
Record AnyAgentTool `{Common} : Type := {
  label : string;
  name : string;
  execute : Env -> Json -> M World ToolResult
}.

(* ================================================================== *)
(** ** src/agents/tools/kagi-summarize.ts *)
(* ================================================================== *)

Module Summarize.

Definition KAGI_SUMMARIZE_ENDPOINT : string := "https://kagi.com/api/v0/summarize".
Definition DEFAULT_TIMEOUT_SECONDS : Z := 60.

Definition SUMMARIZER_ENGINES : list string := ["cecil"; "agnes"; "muriel"].
Definition SUMMARY_TYPES : list string := ["summary"; "takeaway"].
Definition TARGET_LANGUAGES : list string :=
  [ "BG"; "CS"; "DA"; "DE"; "EL"; "EN"; "ES"; "ET"; "FI"; "FR"; "HU"; "ID";
    "IT"; "JA"; "KO"; "LT"; "LV"; "NB"; "NL"; "PL"; "PT"; "RO"; "RU"; "SK";
    "SL"; "SV"; "TR"; "UK"; "ZH"; "ZH-HANT" ].

(** [tools.web.summarizer] of the configuration: the fields the tool reads. *)
Module Config.
Record t : Type := {
  enabled : option bool;
  apiKey : option string;
  timeoutSeconds : option number;
  cacheTtlMinutes : option number;
  cache : option bool;
  engine : option string;
  summaryType : option string;
  targetLanguage : option string
}.
End Config.

(** [ClawdbotConfig], down to the summarizer's section. *)
Record WebConfig : Type := { summarizer : option Config.t }.
Record ToolsConfig : Type := { web : option WebConfig }.
Record ClawdbotConfig : Type := { tools : option ToolsConfig }.

Definition resolveSummarizerConfig (cfg : option ClawdbotConfig) : option Config.t :=
  c ← cfg; t ← tools c; w ← web t; summarizer w.

Definition resolveSummarizerEnabled (config : option Config.t) : bool :=
  match config ≫= Config.enabled with
  | Some b => b
  | None => true
  end.

Definition resolveKagiApiKey (env : Env) (config : option Config.t) : option string :=
  let fromConfig := Js.trim <$> (config ≫= Config.apiKey) in
  if Js.truthyO fromConfig then fromConfig
  else
    let fromEnv := Js.trim (default "" (KAGI_API_KEY env)) in
    if Js.truthyS fromEnv then Some fromEnv else None.

Definition resolveTimeoutSeconds (config : option Config.t) : Z :=
  match finite (config ≫= Config.timeoutSeconds) with
  | Some val => if 0 <? val then val else DEFAULT_TIMEOUT_SECONDS
  | None => DEFAULT_TIMEOUT_SECONDS
  end.

Definition resolveCacheTtlMs `{WebShared} (config : option Config.t) : number :=
  let default :=
    Number.mul (Number.mul (Finite DEFAULT_CACHE_TTL_MINUTES) (Finite 60)) (Finite 1000) in
  match finite (config ≫= Config.cacheTtlMinutes) with
  | Some minutes =>
      if 0 <=? minutes then Number.mul (Number.mul (Finite minutes) (Finite 60)) (Finite 1000)
      else default
  | None => default
  end.

Definition resolveDefaultCache (config : option Config.t) : bool :=
  match config ≫= Config.cache with
  | Some b => b
  | None => true
  end.

Definition resolveDefaultEngine (config : option Config.t) : string :=
  match config ≫= Config.engine with
  | Some engine =>
      if Js.truthyS engine && Js.includes SUMMARIZER_ENGINES engine then engine
      else "cecil"
  | None => "cecil"
  end.

Definition resolveDefaultSummaryType (config : option Config.t) : string :=
  match config ≫= Config.summaryType with
  | Some summaryType =>
      if Js.truthyS summaryType && Js.includes SUMMARY_TYPES summaryType then summaryType
      else "summary"
  | None => "summary"
  end.

Definition resolveDefaultTargetLanguage (config : option Config.t) : option string :=
  match config ≫= Config.targetLanguage with
  | Some raw =>
      let lang := Js.toUpperCase (Js.trim raw) in
      if Js.truthyS lang && Js.includes TARGET_LANGUAGES lang then Some lang else None
  | None => None
  end.

Definition validateEngine (engine : option string) : option string :=
  match engine with
  | None => None
  | Some e =>
      if negb (Js.truthyS e) then None
      else
        let normalized := Js.toLowerCase (Js.trim e) in
        if Js.includes SUMMARIZER_ENGINES normalized then Some normalized else None
  end.

Definition validateSummaryType (summaryType : option string) : option string :=
  match summaryType with
  | None => None
  | Some t =>
      if negb (Js.truthyS t) then None
      else
        let normalized := Js.toLowerCase (Js.trim t) in
        if Js.includes SUMMARY_TYPES normalized then Some normalized else None
  end.

Definition validateTargetLanguage (lang : option string) : option string :=
  match lang with
  | None => None
  | Some l =>
      if negb (Js.truthyS l) then None
      else
        let normalized := Js.toUpperCase (Js.trim l) in
        if Js.includes TARGET_LANGUAGES normalized then Some normalized
        else if String.eqb normalized "ZH-HANT" || String.eqb normalized "ZHHANT"
             then Some "ZH-HANT"
        else None
  end.

(** The argument of [runSummarize]. *)
Module Params.
Record t : Type := {
  url : option string;
  text : option string;
  engine : string;
  summaryType : string;
  targetLanguage : option string;
  apiKey : string;
  cache : bool;
  timeoutSeconds : Z;
  cacheTtlMs : number
}.
End Params.

Definition setCache (store : gmap string CacheEntry) (w : World) : World :=
  {| ticks := ticks w; requests := requests w;
     SUMMARIZE_CACHE := store; FASTGPT_CACHE := FASTGPT_CACHE w |}.

(** [readCache(SUMMARIZE_CACHE, key)]: the clock is read when the key holds
    an entry, and only then. *)
Definition readSummarizeCache (env : Env) (key : string) : M World (option CacheEntry) :=
  store <- gets SUMMARIZE_CACHE ;;
  match store !! key with
  | None => ret None
  | Some _ =>
      now <- DateNow env ;;
      fun w => let (hit, store') := readCache now (SUMMARIZE_CACHE w) key in
               (Return hit, setCache store' w)
  end.

(** [writeCache(SUMMARIZE_CACHE, key, payload, ttlMs)]: the clock is read
    when an entry is stored, and only then. *)
Definition writeSummarizeCache (env : Env) (key : string) (payload : Json)
    (ttlMs : number) : M World unit :=
  if Number.leb ttlMs (Finite 0) then ret tt
  else
    now <- DateNow env ;;
    modify (fun w => setCache (writeCache now (SUMMARIZE_CACHE w) key payload ttlMs) w).

(** The part of the key that names the source: the URL itself, or the first
    sixteen hexadecimal digits of the SHA-256 of the text. *)
Definition sourceKey (p : Params.t) : string :=
  if Js.truthyO (Params.url p) then default "" (Params.url p)
  else Js.prefix 16 (Sha256.digestHex (Js.orS (Params.text p) "")).

(** The template literal given to [normalizeCacheKey]. *)
Definition cacheKeyInput (p : Params.t) : string :=
  "kagi-summarize:" +:+ sourceKey p +:+ ":" +:+ Params.engine p +:+ ":" +:+
  Params.summaryType p +:+ ":" +:+ Js.orS (Params.targetLanguage p) "auto" +:+ ":" +:+
  Js.ofBool (Params.cache p).

(** The request body, before [JSON.stringify]. *)
Definition requestBodyOf (p : Params.t) : Json :=
  JObj ([ ("engine", JStr (Params.engine p));
          ("summary_type", JStr (Params.summaryType p));
          ("cache", JBool (Params.cache p)) ]
        ++ (if Js.truthyO (Params.url p) then [("url", JStr (default "" (Params.url p)))]
            else if Js.truthyO (Params.text p) then [("text", JStr (default "" (Params.text p)))]
            else [])
        ++ (if Js.truthyO (Params.targetLanguage p)
            then [("target_language", JStr (default "" (Params.targetLanguage p)))]
            else [])).

Definition requestOf (p : Params.t) : FetchRequest :=
  {| endpoint := KAGI_SUMMARIZE_ENDPOINT;
     authorization := "Bot " +:+ Params.apiKey p;
     requestBody := requestBodyOf p;
     timeoutMs := Params.timeoutSeconds p * 1000 |}.

(** The normalized result record. *)
Definition payloadOf (p : Params.t) (tookMs : Z) (data : Json) : Json :=
  JObj [ ("provider", JStr "kagi-summarizer");
         ("source", JStr (Js.orS (Params.url p) "(text input)"));
         ("engine", JStr (Params.engine p));
         ("summaryType", JStr (Params.summaryType p));
         ("targetLanguage", JStr (Js.orS (Params.targetLanguage p) "auto"));
         ("tookMs", JNum tookMs);
         ("summary", Value.coalesce (Value.getOpt (Value.getOpt data "data") "output") (JStr ""));
         ("tokens", Value.getOpt (Value.getOpt data "data") "tokens");
         ("apiBalance", Value.getOpt (Value.getOpt data "meta") "api_balance") ].

(** The message of the error thrown for a response that is not 2xx. *)
Definition statusErrorMessage `{WebShared} (res : Response) : string :=
  let detail := readResponseText res in
  "Kagi Summarizer API error (" +:+ pretty (status res) +:+ "): " +:+
  (if Js.truthyS detail then detail else statusText res).

(** What follows a cache miss (or a call with the cache off), from
    [const start = Date.now()] to the end of the function. *)
Definition callUpstream `{WebShared} (env : Env) (p : Params.t) (cacheKey : string)
  : M World Json :=
  start <- DateNow env ;;
  res <- fetch env (requestOf p) ;;
  if negb (ok res) then throw (Error (statusErrorMessage res))
  else
    data <- lift (json res) ;;
    err <- lift (Value.get data "error") ;;
    if Value.truthy err then
      msg <- lift (Value.toString (Value.or (Value.getOpt err "msg") (JStr "Unknown error"))) ;;
      throw (Error ("Kagi Summarizer API error: " +:+ msg))
    else
      finish <- DateNow env ;;
      let payload := payloadOf p (finish - start) data in
      (if Params.cache p
       then writeSummarizeCache env cacheKey payload (Params.cacheTtlMs p)
       else ret tt) ;;
      ret payload.

Definition runSummarize `{WebShared} (env : Env) (p : Params.t) : M World Json :=
  let cacheKey := normalizeCacheKey (cacheKeyInput p) in
  cached <- (if Params.cache p then readSummarizeCache env cacheKey else ret None) ;;
  match cached with
  | Some entry => ret (Value.spreadSet (value entry) "cached" (JBool true))
  | None => callUpstream env p cacheKey
  end.

Definition docs : string := "https://help.kagi.com/kagi/api/summarizer.html".

Definition errorResult (code message : string) : Json :=
  JObj [("error", JStr code); ("message", JStr message); ("docs", JStr docs)].

Definition missingKeyResult : Json :=
  errorResult "missing_kagi_api_key"
    "kagi_summarize needs an API key. Set KAGI_API_KEY in the Gateway environment, or configure tools.web.summarizer.apiKey.".

Definition missingInputResult : Json :=
  errorResult "missing_input" "Either 'url' or 'text' parameter is required.".

Definition conflictingInputResult : Json :=
  errorResult "conflicting_input"
    "Parameters 'url' and 'text' are mutually exclusive. Provide only one.".

(** The parameters [execute] hands to [runSummarize] once the key is resolved
    and the input is valid. *)
Definition paramsOf `{WebShared} `{Common} (config : option Config.t)
    (resolvedApiKey : string) (args : Json) : Params.t :=
  {| Params.url := readStringParam args "url";
     Params.text := readStringParam args "text";
     Params.engine :=
       default (resolveDefaultEngine config) (validateEngine (readStringParam args "engine"));
     Params.summaryType :=
       default (resolveDefaultSummaryType config)
               (validateSummaryType (readStringParam args "summary_type"));
     Params.targetLanguage :=
       match validateTargetLanguage (readStringParam args "target_language") with
       | Some l => Some l
       | None => resolveDefaultTargetLanguage config
       end;
     Params.apiKey := resolvedApiKey;
     Params.cache := default (resolveDefaultCache config) (readBoolParam args "cache");
     Params.timeoutSeconds := resolveTimeoutSeconds config;
     Params.cacheTtlMs := resolveCacheTtlMs config |}.

(** The [execute] of the tool; [config] is the one captured at construction,
    [env] the environment at the time of the call. *)
Definition executeSummarize `{WebShared} `{Common} (config : option Config.t)
    (env : Env) (args : Json) : M World ToolResult :=
  match resolveKagiApiKey env config with
  | None => ret (jsonResult missingKeyResult)
  | Some resolvedApiKey =>
      let url := readStringParam args "url" in
      let text := readStringParam args "text" in
      if negb (Js.truthyO url) && negb (Js.truthyO text) then
        ret (jsonResult missingInputResult)
      else if Js.truthyO url && Js.truthyO text then
        ret (jsonResult conflictingInputResult)
      else
        result <- runSummarize env (paramsOf config resolvedApiKey args) ;;
        ret (jsonResult result)
  end.

(** [options] of the constructor. *)
Record Options : Type := { config : option ClawdbotConfig; sandboxed : option bool }.

Definition createKagiSummarizeTool `{WebShared} `{Common} (env : Env)
    (options : option Options) : option AnyAgentTool :=
  let config := resolveSummarizerConfig (options ≫= config) in
  if negb (resolveSummarizerEnabled config) then None
  else
    let apiKey := resolveKagiApiKey env config in
    if negb (Js.truthyO apiKey) && negb (default false (options ≫= sandboxed)) then None
    else Some {| label := "Kagi Summarizer";
                 name := "kagi_summarize";
                 execute := executeSummarize config |}.

End Summarize.

(* ================================================================== *)
(** ** The FastGPT tool (kagi-fastgpt) *)
(* ================================================================== *)

Module FastGPT.

Definition KAGI_FASTGPT_ENDPOINT : string := "https://kagi.com/api/v0/fastgpt".
Definition DEFAULT_TIMEOUT_SECONDS : Z := 30.

(** [tools.web.fastgpt] of the configuration: the fields the tool reads. *)
Module Config.
Record t : Type := {
  enabled : option bool;
  apiKey : option string;
  timeoutSeconds : option number;
  cacheTtlMinutes : option number;
  cache : option bool
}.
End Config.

Record WebConfig : Type := { fastgpt : option Config.t }.
Record ToolsConfig : Type := { web : option WebConfig }.
Record ClawdbotConfig : Type := { tools : option ToolsConfig }.

Definition resolveFastGPTConfig (cfg : option ClawdbotConfig) : option Config.t :=
  c ← cfg; t ← tools c; w ← web t; fastgpt w.

Definition resolveFastGPTEnabled (config : option Config.t) : bool :=
  match config ≫= Config.enabled with
  | Some b => b
  | None => true
  end.

Definition resolveKagiApiKey (env : Env) (config : option Config.t) : option string :=
  let fromConfig := Js.trim <$> (config ≫= Config.apiKey) in
  if Js.truthyO fromConfig then fromConfig
  else
    let fromEnv := Js.trim (default "" (KAGI_API_KEY env)) in
    if Js.truthyS fromEnv then Some fromEnv else None.

Definition resolveTimeoutSeconds (config : option Config.t) : Z :=
  match finite (config ≫= Config.timeoutSeconds) with
  | Some val => if 0 <? val then val else DEFAULT_TIMEOUT_SECONDS
  | None => DEFAULT_TIMEOUT_SECONDS
  end.

Definition resolveCacheTtlMs `{WebShared} (config : option Config.t) : number :=
  let default :=
    Number.mul (Number.mul (Finite DEFAULT_CACHE_TTL_MINUTES) (Finite 60)) (Finite 1000) in
  match finite (config ≫= Config.cacheTtlMinutes) with
  | Some minutes =>
      if 0 <=? minutes then Number.mul (Number.mul (Finite minutes) (Finite 60)) (Finite 1000)
      else default
  | None => default
  end.

Definition resolveDefaultCache (config : option Config.t) : bool :=
  match config ≫= Config.cache with
  | Some b => b
  | None => true
  end.

(** The argument of [runFastGPT]. *)
Module Params.
Record t : Type := {
  query : string;
  apiKey : string;
  cache : bool;
  timeoutSeconds : Z;
  cacheTtlMs : number
}.
End Params.

Definition setCache (store : gmap string CacheEntry) (w : World) : World :=
  {| ticks := ticks w; requests := requests w;
     SUMMARIZE_CACHE := SUMMARIZE_CACHE w; FASTGPT_CACHE := store |}.

(** [readCache(FASTGPT_CACHE, key)]: the clock is read when the key holds an
    entry, and only then. *)
Definition readFastGPTCache (env : Env) (key : string) : M World (option CacheEntry) :=
  store <- gets FASTGPT_CACHE ;;
  match store !! key with
  | None => ret None
  | Some _ =>
      now <- DateNow env ;;
      fun w => let (hit, store') := readCache now (FASTGPT_CACHE w) key in
               (Return hit, setCache store' w)
  end.

(** [writeCache(FASTGPT_CACHE, key, payload, ttlMs)]: the clock is read when
    an entry is stored, and only then. *)
Definition writeFastGPTCache (env : Env) (key : string) (payload : Json)
    (ttlMs : number) : M World unit :=
  if Number.leb ttlMs (Finite 0) then ret tt
  else
    now <- DateNow env ;;
    modify (fun w => setCache (writeCache now (FASTGPT_CACHE w) key payload ttlMs) w).

(** The template literal given to [normalizeCacheKey]. *)
Definition cacheKeyInput (p : Params.t) : string :=
  "kagi-fastgpt:" +:+ Params.query p +:+ ":" +:+ Js.ofBool (Params.cache p).

Definition requestOf (p : Params.t) : FetchRequest :=
  {| endpoint := KAGI_FASTGPT_ENDPOINT;
     authorization := "Bot " +:+ Params.apiKey p;
     requestBody := JObj [ ("query", JStr (Params.query p));
                           ("cache", JBool (Params.cache p));
                           ("web_search", JBool true) ];
     timeoutMs := Params.timeoutSeconds p * 1000 |}.

(** The arrow function mapped over the references. *)
Definition referenceOf (ref : Json) : Outcome Json :=
  match Value.get ref "title", Value.get ref "url", Value.get ref "snippet" with
  | Return title, Return url, Return snippet =>
      Return (JObj [ ("title", Value.coalesce title (JStr ""));
                     ("url", Value.coalesce url (JStr ""));
                     ("snippet", Value.coalesce snippet (JStr "")) ])
  | _, _, _ => Throw TypeError
  end.

Fixpoint mapOutcome {A B} (f : A -> Outcome B) (l : list A) : Outcome (list B) :=
  match l with
  | [] => Return []
  | x :: rest =>
      match f x with
      | Throw e => Throw e
      | Return y =>
          match mapOutcome f rest with
          | Throw e => Throw e
          | Return ys => Return (y :: ys)
          end
      end
  end.

(** [(data.data?.references ?? []).map(...)]: a value that is neither
    nullish nor an array has no [map] to call. *)
Definition referencesOf (data : Json) : Outcome Json :=
  match Value.coalesce (Value.getOpt (Value.getOpt data "data") "references") (JArr []) with
  | JArr refs =>
      match mapOutcome referenceOf refs with
      | Return rs => Return (JArr rs)
      | Throw e => Throw e
      end
  | _ => Throw TypeError
  end.

(** The normalized result record. *)
Definition payloadOf (p : Params.t) (tookMs : Z) (references data : Json) : Json :=
  JObj [ ("query", JStr (Params.query p));
         ("provider", JStr "kagi-fastgpt");
         ("tookMs", JNum tookMs);
         ("answer", Value.coalesce (Value.getOpt (Value.getOpt data "data") "output") (JStr ""));
         ("tokens", Value.getOpt (Value.getOpt data "data") "tokens");
         ("references", references);
         ("apiBalance", Value.getOpt (Value.getOpt data "meta") "api_balance") ].

(** The message of the error thrown for a response that is not 2xx. *)
Definition statusErrorMessage `{WebShared} (res : Response) : string :=
  let detail := readResponseText res in
  "Kagi FastGPT API error (" +:+ pretty (status res) +:+ "): " +:+
  (if Js.truthyS detail then detail else statusText res).

(** What follows a cache miss (or a call with the cache off), from
    [const start = Date.now()] to the end of the function. *)
Definition callUpstream `{WebShared} (env : Env) (p : Params.t) (cacheKey : string)
  : M World Json :=
  start <- DateNow env ;;
  res <- fetch env (requestOf p) ;;
  if negb (ok res) then throw (Error (statusErrorMessage res))
  else
    data <- lift (json res) ;;
    err <- lift (Value.get data "error") ;;
    if Value.truthy err then
      msg <- lift (Value.toString (Value.or (Value.getOpt err "msg") (JStr "Unknown error"))) ;;
      throw (Error ("Kagi FastGPT API error: " +:+ msg))
    else
      references <- lift (referencesOf data) ;;
      finish <- DateNow env ;;
      let payload := payloadOf p (finish - start) references data in
      (if Params.cache p
       then writeFastGPTCache env cacheKey payload (Params.cacheTtlMs p)
       else ret tt) ;;
      ret payload.

Definition runFastGPT `{WebShared} (env : Env) (p : Params.t) : M World Json :=
  let cacheKey := normalizeCacheKey (cacheKeyInput p) in
  cached <- (if Params.cache p then readFastGPTCache env cacheKey else ret None) ;;
  match cached with
  | Some entry => ret (Value.spreadSet (value entry) "cached" (JBool true))
  | None => callUpstream env p cacheKey
  end.

Definition missingKeyResult : Json :=
  JObj [ ("error", JStr "missing_kagi_api_key");
         ("message", JStr "kagi_fastgpt needs an API key. Set KAGI_API_KEY in the Gateway environment, or configure tools.web.fastgpt.apiKey.");
         ("docs", JStr "https://help.kagi.com/kagi/api/fastgpt.html") ].

(** The [execute] of the tool; [config] is the one captured at construction,
    [env] the environment at the time of the call. *)
Definition executeFastGPT `{WebShared} `{Common} (config : option Config.t)
    (env : Env) (args : Json) : M World ToolResult :=
  match resolveKagiApiKey env config with
  | None => ret (jsonResult missingKeyResult)
  | Some resolvedApiKey =>
      query <- lift (readRequiredStringParam args "query") ;;
      let cache := default (resolveDefaultCache config) (readBoolParam args "cache") in
      result <- runFastGPT env {| Params.query := query;
                                  Params.apiKey := resolvedApiKey;
                                  Params.cache := cache;
                                  Params.timeoutSeconds := resolveTimeoutSeconds config;
                                  Params.cacheTtlMs := resolveCacheTtlMs config |} ;;
      ret (jsonResult result)
  end.

(** [options] of the constructor. *)
Record Options : Type := { config : option ClawdbotConfig; sandboxed : option bool }.

Definition createKagiFastGPTTool `{WebShared} `{Common} (env : Env)
    (options : option Options) : option AnyAgentTool :=
  let config := resolveFastGPTConfig (options ≫= config) in
  if negb (resolveFastGPTEnabled config) then None
  else
    let apiKey := resolveKagiApiKey env config in
    if negb (Js.truthyO apiKey) && negb (default false (options ≫= sandboxed)) then None
    else Some {| label := "Kagi FastGPT";
                 name := "kagi_fastgpt";
                 execute := executeFastGPT config |}.

End FastGPT.

(* ================================================================== *)
(** ** The Postmark webhook handler and the hook transform *)
(* ================================================================== *)

(** A chunk of a request body as the stream emits it: a [Buffer], the bytes
    received. *)
Definition Buffer : Type := list Z.

(** The built-ins of the runtime the handler calls:
    [JSON.parse] ([None]: it throws a SyntaxError),
    [new URL(u, "http://localhost").pathname] ([None]: the constructor throws
    a TypeError), and [chunk.toString()], the text the bytes of one chunk
    decode to. *)
Class JsRuntime : Type := {
  JSON_parse : string -> option Json;
  URL_pathname : string -> option string;
  Buffer_toString : Buffer -> string
}.

Module Postmark.

(** The request as the handler reads it: [req.url], [req.method], and the
    events of the body stream: the chunks, then [end] or an [error]. *)
Record IncomingMessage : Type := {
  url : option string;
  method : option string;
  chunks : list Buffer;
  streamError : option JsError
}.

(** The response object: [ended] is the value whose [JSON.stringify] was
    written by [res.end], once it was. *)
Record ServerResponse : Type := {
  statusCode : Z;
  headers : list (string * string);
  ended : option Json
}.

(** What a request can change: the response, and the messages handed to the
    messaging sink [opts.sendToTelegram] (newest last).  The calls of the
    logger are left out; the expressions they evaluate are kept where
    evaluating them can throw. *)
Record HandlerState : Type := {
  res : ServerResponse;
  sentToTelegram : list string
}.

(** [body += chunk.toString()] at each chunk, each decoded on its own, and
    [JSON.parse(body)] at the end of the stream. *)
Definition readJsonBody `{JsRuntime} (req : IncomingMessage) : Outcome Json :=
  match streamError req with
  | Some err => Throw err
  | None =>
      match JSON_parse (fold_left (fun body chunk => body +:+ Buffer_toString chunk)
                                  (chunks req) "") with
      | Some v => Return v
      | None => Throw SyntaxError
      end
  end.

(** [res.setHeader(name, v)]: the header replaces one of that name. *)
Fixpoint setHeader (name v : string) (hs : list (string * string)) : list (string * string) :=
  match hs with
  | [] => [(name, v)]
  | (n, x) :: rest =>
      if String.eqb n name then (n, v) :: rest else (n, x) :: setHeader name v rest
  end.

Definition sendJson (status : Z) (body : Json) : M HandlerState unit :=
  modify (fun st =>
    {| res := {| statusCode := status;
                 headers := setHeader "Content-Type" "application/json; charset=utf-8"
                                      (headers (res st));
                 ended := Some body |};
       sentToTelegram := sentToTelegram st |}).

(** The text chosen for the body: [email.StrippedTextReply || email.TextBody || ""]. *)
Definition textBodyOf (email : Json) : Json :=
  Value.or (Value.or (Value.getOpt email "StrippedTextReply") (Value.getOpt email "TextBody"))
           (JStr "").

(** [textBody.substring(0, 1000) + (textBody.length > 1000 ? "..." : "")]. *)
Definition excerpt (textBody : string) : string :=
  Js.prefix 1000 textBody +:+
  (if (1000 <? String.length textBody)%nat then "..." else "").

(** Lines 83 to 97 of the handler: the message built from the email.  Each
    step is in the order of the source; [Throw] is a TypeError raised on the
    way. *)
Definition formatMessage (email : Json) : Outcome string :=
  match Value.get email "Subject" with
  | Throw e => Throw e
  | Return subject =>
  match Value.toString subject with
  | Throw e => Throw e
  | Return subjectText =>
  match Value.toString (Value.getOpt email "From") with
  | Throw e => Throw e
  | Return _ =>
  match Value.toString (Value.or (Value.getOpt (Value.getOpt email "FromFull") "Name")
                                 (Value.getOpt email "From")) with
  | Throw e => Throw e
  | Return sender =>
  match textBodyOf email with
  | JStr textBody =>
      Return (Js.join Js.LF
        [ "📧 **New Email**";
          "";
          "**From:** " +:+ sender;
          "**Subject:** " +:+ subjectText;
          "";
          excerpt textBody ])
  | _ => Throw TypeError
  end end end end end.

(** The handler returned by [createPostmarkWebhookHandler(opts)].  Nothing
    of [opts] but the logger is used. *)
Definition handler `{JsRuntime} (req : IncomingMessage) : M HandlerState bool :=
  match URL_pathname (default "/" (url req)) with
  | None => throw TypeError
  | Some pathname =>
      if negb (String.eqb pathname "/webhooks/postmark") then ret false
      else if negb (bool_decide (method req = Some "POST")) then
        sendJson 405 (JObj [("error", JStr "Method not allowed")]) ;;
        ret true
      else
        tryCatch
          (email <- lift (readJsonBody req) ;;
           message <- lift (formatMessage email) ;;
           sendJson 200 (JObj [("ok", JBool true);
                               ("messageId", Value.getOpt email "MessageID")]) ;;
           ret true)
          (fun err =>
             sendJson 400 (JObj [("error", JStr "Invalid payload")]) ;;
             ret true)
  end.

(** The hook transform: it returns the raw payload as a debug dump.
    [stringify2] is [JSON.stringify(_, null, 2)]. *)
Definition transform (stringify2 : Json -> string) (payload : Json) : Json :=
  JObj [ ("message",
          JStr ("🔍 **DEBUG: Raw Postmark Payload**" +:+ Js.LF +:+ Js.LF +:+
                "```json" +:+ Js.LF +:+ stringify2 payload +:+ Js.LF +:+ "```")) ].

End Postmark.

(* ================================================================== *)
(** ** Sample inputs *)
(* ================================================================== *)

Module Sample.

(** Modelled from the spec: an instance of the helpers of web-shared.js that
    are not among the sources, for the examples below.  The key normalizer
    makes keys insensitive to "incidental formatting differences (e.g. case
    of a language code)"; the response text is the body of the response. *)
Definition webShared : WebShared :=
  {| DEFAULT_CACHE_TTL_MINUTES := 15;
     normalizeCacheKey := fun s => Js.toLowerCase (Js.trim s);
     readResponseText := text |}.

(** Modelled from the spec: an instance of the helpers of common.js that are
    not among the sources, for the examples below.  A result is the "JSON-
    serializable record returned to the caller"; a parameter is read from
    the argument bag when it is "present and correctly typed". *)
Definition common : Common :=
  {| ToolResult := Json;
     jsonResult := fun payload => payload;
     readStringParam := fun args key =>
       match Value.getOpt args key with
       | JStr s => if Js.truthyS (Js.trim s) then Some (Js.trim s) else None
       | _ => None
       end;
     readRequiredStringParam := fun args key =>
       match Value.getOpt args key with
       | JStr s => if Js.truthyS (Js.trim s) then Return (Js.trim s)
                   else Throw (Error (key +:+ " required"))
       | _ => Throw (Error (key +:+ " required"))
       end;
     readBoolParam := fun args key =>
       match Value.getOpt args key with
       | JBool b => Some b
       | _ => None
       end |}.

(** An inbound email. *)
Definition email : Json :=
  JObj [ ("MessageID", JStr "b7bc2f4a-e38e-4336-af7d-e6c392c2f817");
         ("From", JStr "ann@example.com");
         ("FromFull", JObj [("Email", JStr "ann@example.com"); ("Name", JStr "Ann")]);
         ("Subject", JStr "Hello");
         ("TextBody", JStr "Hi there, full body");
         ("StrippedTextReply", JStr "Hi there") ].

(** [s] between double quotes. *)
Definition quoted (s : string) : string :=
  String (ascii_of_nat 34) (s +:+ String (ascii_of_nat 34) "").

(** The JSON text of [email]. *)
Definition emailText : string :=
  "{" +:+ quoted "MessageID" +:+ ":" +:+ quoted "b7bc2f4a-e38e-4336-af7d-e6c392c2f817" +:+ "," +:+
  quoted "From" +:+ ":" +:+ quoted "ann@example.com" +:+ "," +:+
  quoted "FromFull" +:+ ":{" +:+ quoted "Email" +:+ ":" +:+ quoted "ann@example.com" +:+ "," +:+
                                quoted "Name" +:+ ":" +:+ quoted "Ann" +:+ "}," +:+
  quoted "Subject" +:+ ":" +:+ quoted "Hello" +:+ "," +:+
  quoted "TextBody" +:+ ":" +:+ quoted "Hi there, full body" +:+ "," +:+
  quoted "StrippedTextReply" +:+ ":" +:+ quoted "Hi there" +:+ "}".

(** The bytes of an ASCII text, and the text of a buffer of ASCII bytes. *)
Definition bytes (s : string) : Buffer :=
  map (fun c => Z.of_nat (nat_of_ascii c)) (list_ascii_of_string s).

Definition decode (b : Buffer) : string :=
  string_of_list_ascii (map (fun n => ascii_of_nat (Z.to_nat n)) b).

(** The runtime on the texts of the examples below: [JSON.parse] of the
    literal [null] and of the text of [email], any other text taken as no
    JSON; the pathname of a URL that is a bare path; the chunks hold ASCII
    text. *)
Definition runtime : JsRuntime :=
  {| JSON_parse := fun s =>
       if String.eqb s "null" then Some JNull
       else if String.eqb s emailText then Some email
       else None;
     URL_pathname := fun u => Some u;
     Buffer_toString := decode |}.

Definition world0 : World :=
  {| ticks := 0; requests := []; SUMMARIZE_CACHE := ∅; FASTGPT_CACHE := ∅ |}.

(** An upstream that answers the n-th request with [answer n], whatever
    the request, and a clock that advances by five milliseconds a reading. *)
Definition envWith (key : option string) (answer : nat -> FetchOutcome) : Env :=
  {| clock := fun n => 1700000000000 + 5 * Z.of_nat n;
     upstream := fun n _ => answer n;
     KAGI_API_KEY := key |}.

Definition okResponse (output : string) : Response :=
  {| status := 200; statusText := "OK"; text := "";
     json := Return (JObj [("data", JObj [("output", JStr output); ("tokens", JNum 12)])]) |}.

Definition errorResponse : Response :=
  {| status := 500; statusText := "Internal Server Error"; text := "";
     json := Throw SyntaxError |}.

Definition logicalErrorResponse : Response :=
  {| status := 200; statusText := "OK"; text := "";
     json := Return (JObj [("error", JObj [("code", JNum 1); ("msg", JStr "Insufficient credit")])]) |}.

End Sample.

(* ================================================================== *)
(** ** The vocabulary of the statements *)
(* ================================================================== *)

(** No credential: neither the configured key nor the environment variable
    is anything but white space. *)
Definition credentialless (configured : option string) (env : Env) : Prop :=
  Js.trim (default "" configured) = "" /\ Js.trim (default "" (KAGI_API_KEY env)) = "".

(** The section that configures a tool: [options.config.tools.web.summarizer]
    and [options.config.tools.web.fastgpt], when every step of the path is
    there. *)
Definition summarizerSection (so : option Summarize.Options)
    (section : Summarize.Config.t) : Prop :=
  exists o c t w,
    so = Some o /\ Summarize.config o = Some c /\ Summarize.tools c = Some t /\
    Summarize.web t = Some w /\ Summarize.summarizer w = Some section.

Definition fastgptSection (fo : option FastGPT.Options)
    (section : FastGPT.Config.t) : Prop :=
  exists o c t w,
    fo = Some o /\ FastGPT.config o = Some c /\ FastGPT.tools c = Some t /\
    FastGPT.web t = Some w /\ FastGPT.fastgpt w = Some section.

Ltac unfold_m :=
  unfold bind, ret, throw, lift, modify, gets, DateNow, fetch in *.

(** The caches a world holds. *)
Definition caches (w : World) : gmap string CacheEntry * gmap string CacheEntry :=
  (SUMMARIZE_CACHE w, FASTGPT_CACHE w).

(** The same world with other caches. *)
Definition withCaches (c : gmap string CacheEntry * gmap string CacheEntry) (w : World)
  : World :=
  {| ticks := ticks w; requests := requests w;
     SUMMARIZE_CACHE := fst c; FASTGPT_CACHE := snd c |}.

(** How the summarize tool reads a response: the error it throws, or the
    decoded body it shapes into the result. *)
Definition summarizeVerdict `{WebShared} (res : Response) : Outcome Json :=
  if negb (ok res) then Throw (Error (Summarize.statusErrorMessage res))
  else
    match json res with
    | Throw e => Throw e
    | Return data =>
        match Value.get data "error" with
        | Throw e => Throw e
        | Return err =>
            if Value.truthy err then
              match Value.toString (Value.or (Value.getOpt err "msg") (JStr "Unknown error")) with
              | Throw e => Throw e
              | Return msg => Throw (Error ("Kagi Summarizer API error: " +:+ msg))
              end
            else Return data
        end
    end.

(** How the FastGPT tool reads a response: the error it throws, or the
    decoded body and the references it shapes into the result. *)
Definition fastgptVerdict `{WebShared} (res : Response) : Outcome (Json * Json) :=
  if negb (ok res) then Throw (Error (FastGPT.statusErrorMessage res))
  else
    match json res with
    | Throw e => Throw e
    | Return data =>
        match Value.get data "error" with
        | Throw e => Throw e
        | Return err =>
            if Value.truthy err then
              match Value.toString (Value.or (Value.getOpt err "msg") (JStr "Unknown error")) with
              | Throw e => Throw e
              | Return msg => Throw (Error ("Kagi FastGPT API error: " +:+ msg))
              end
            else
              match FastGPT.referencesOf data with
              | Throw e => Throw e
              | Return references => Return (data, references)
              end
        end
    end.

(** The world after the request of an upstream call was sent. *)
Definition sent (req : FetchRequest) (w : World) : World :=
  {| ticks := S (ticks w); requests := requests w ++ [req];
     SUMMARIZE_CACHE := SUMMARIZE_CACHE w; FASTGPT_CACHE := FASTGPT_CACHE w |}.

(** The summary a decoded body carries, as the result records it. *)
Definition summaryOf (data : Json) : Json :=
  Value.coalesce (Value.getOpt (Value.getOpt data "data") "output") (JStr "").

(** The answer a decoded body carries, as the FastGPT result records it. *)
Definition answerOf (data : Json) : Json :=
  Value.coalesce (Value.getOpt (Value.getOpt data "data") "output") (JStr "").

(** The parameters [execute] of the FastGPT tool hands to [runFastGPT]. *)
Definition fastgptParamsOf `{WebShared} `{Common} (config : option FastGPT.Config.t)
    (key query : string) (args : Json) : FastGPT.Params.t :=
  {| FastGPT.Params.query := query;
     FastGPT.Params.apiKey := key;
     FastGPT.Params.cache :=
       default (FastGPT.resolveDefaultCache config) (readBoolParam args "cache");
     FastGPT.Params.timeoutSeconds := FastGPT.resolveTimeoutSeconds config;
     FastGPT.Params.cacheTtlMs := FastGPT.resolveCacheTtlMs config |}.

(** The first step of [runSummarize] and of [runFastGPT]: the cache lookup,
    when the cache is on. *)
Definition summarizeLookup `{WebShared} (env : Env) (p : Summarize.Params.t)
  : M World (option CacheEntry) :=
  if Summarize.Params.cache p
  then Summarize.readSummarizeCache env (normalizeCacheKey (Summarize.cacheKeyInput p))
  else ret None.

Definition fastgptLookup `{WebShared} (env : Env) (p : FastGPT.Params.t)
  : M World (option CacheEntry) :=
  if FastGPT.Params.cache p
  then FastGPT.readFastGPTCache env (normalizeCacheKey (FastGPT.cacheKeyInput p))
  else ret None.

(** The world after [n] more readings of the clock. *)
Definition later (n : nat) (w : World) : World :=
  {| ticks := (n + ticks w)%nat; requests := requests w;
     SUMMARIZE_CACHE := SUMMARIZE_CACHE w; FASTGPT_CACHE := FASTGPT_CACHE w |}.

(** The state after [sendJson(res, status, body)]. *)
Definition responded (status : Z) (body : Json) (st : Postmark.HandlerState)
  : Postmark.HandlerState :=
  snd (Postmark.sendJson status body st).

(** A value that converts to a string without an object in the way. *)
Definition scalar (v : Json) : bool :=
  match v with JArr _ | JObj _ => false | _ => true end.

(** A string, or nothing. *)
Definition stringOrAbsent (v : Json) : bool :=
  match v with JStr _ | JUndefined | JNull => true | _ => false end.

(** An inbound email of the expected shape: an object whose subject, sender
    and sender name are scalars and whose text bodies are strings, where
    present. *)
Definition postmarkShaped (email : Json) : bool :=
  match email with
  | JObj _ =>
      scalar (Value.getOpt email "Subject") &&
      scalar (Value.getOpt email "From") &&
      scalar (Value.getOpt (Value.getOpt email "FromFull") "Name") &&
      stringOrAbsent (Value.getOpt email "StrippedTextReply") &&
      stringOrAbsent (Value.getOpt email "TextBody")
  | _ => false
  end.

(** The text of the request body, once the stream has ended. *)
Definition bodyText `{JsRuntime} (req : Postmark.IncomingMessage) : string :=
  fold_left (fun body chunk => body +:+ Buffer_toString chunk) (Postmark.chunks req) "".

Module Witness.

Definition sandboxedSummarize : option Summarize.Options :=
  Some {| Summarize.config := None; Summarize.sandboxed := Some true |}.
Definition sandboxedFastGPT : option FastGPT.Options :=
  Some {| FastGPT.config := None; FastGPT.sandboxed := Some true |}.

(** No key in the environment, no upstream to speak of. *)
Definition keyless : Env := Sample.envWith None (fun _ => Rejects AbortError).

(** A key in the environment; the upstream answers the first request with
    one summary and every later one with another. *)
Definition twoAnswers : Env :=
  Sample.envWith (Some "token")
    (fun n => match n with
              | O => Responds (Sample.okResponse "first answer")
              | _ => Responds (Sample.okResponse "second answer")
              end).

Definition failing : Env :=
  Sample.envWith (Some "token") (fun _ => Responds Sample.errorResponse).

(** A key in the environment; every request is aborted by its timeout. *)
Definition keylessUpstream : Env :=
  Sample.envWith (Some "token") (fun _ => Rejects AbortError).

Definition byText : Json := JObj [("text", JStr "abc"); ("cache", JBool false)].
Definition byQuery : Json := JObj [("query", JStr "what is rocq"); ("cache", JBool false)].

Definition agnesByDefault : option Summarize.Config.t :=
  Some {| Summarize.Config.enabled := None; Summarize.Config.apiKey := None;
          Summarize.Config.timeoutSeconds := None; Summarize.Config.cacheTtlMinutes := None;
          Summarize.Config.cache := None; Summarize.Config.engine := Some "agnes";
          Summarize.Config.summaryType := Some "takeaway";
          Summarize.Config.targetLanguage := Some "ja" |}.

Definition oddEnums : Json :=
  JObj [("url", JStr "https://example.com/a.pdf"); ("engine", JStr "gpt-9");
        ("summary_type", JStr "haiku"); ("target_language", JStr "klingon")].

Definition freshResponse : Postmark.HandlerState :=
  {| Postmark.res := {| Postmark.statusCode := 200; Postmark.headers := [];
                        Postmark.ended := None |};
     Postmark.sentToTelegram := [] |}.

Definition post (chunks : list string) : Postmark.IncomingMessage :=
  {| Postmark.url := Some "/webhooks/postmark"; Postmark.method := Some "POST";
     Postmark.chunks := map Sample.bytes chunks; Postmark.streamError := None |}.

End Witness.

(** [s] repeated [n] times. *)
Fixpoint times (n : nat) (s : string) : string :=
  match n with
  | O => ""
  | S k => s +:+ times k s
  end.

Definition summarizeText (t : string) : Summarize.Params.t :=
  {| Summarize.Params.url := None; Summarize.Params.text := Some t;
     Summarize.Params.engine := "cecil"; Summarize.Params.summaryType := "summary";
     Summarize.Params.targetLanguage := None; Summarize.Params.apiKey := "token";
     Summarize.Params.cache := true; Summarize.Params.timeoutSeconds := 60;
     Summarize.Params.cacheTtlMs := Finite 900000 |}.

Definition ask (q : string) : FastGPT.Params.t :=
  {| FastGPT.Params.query := q; FastGPT.Params.apiKey := "token";
     FastGPT.Params.cache := true; FastGPT.Params.timeoutSeconds := 30;
     FastGPT.Params.cacheTtlMs := Finite 900000 |}.

(** The text of a value that is a string, and the empty text of any other. *)
Definition textOf (v : Json) : string :=
  match v with JStr s => s | _ => "" end.

(** [a || b] on two texts. *)
Definition firstNonEmpty (a b : string) : string :=
  if Js.truthyS a then a else b.

(** Every character of [s] passes [f]. *)
Fixpoint allChars (f : ascii -> bool) (s : string) : bool :=
  match s with
  | EmptyString => true
  | String c r => f c && allChars f r
  end.

(** A digit, or a letter from [a] to [f]. *)
Definition isHexLower (c : ascii) : bool :=
  let n := nat_of_ascii c in
  ((48 <=? n) && (n <=? 57) || (97 <=? n) && (n <=? 102))%nat.

(** The three properties of a reference. *)
Definition referenceKeys : list string := ["title"; "url"; "snippet"].

(** No colon among the characters of [s]. *)
Definition noColon (s : string) : bool :=
  allChars (fun c => negb (Ascii.eqb c ":"%char)) s.

(** Further sample inputs. *)
Module Inputs.

Definition summarizer (key : option string) (timeout ttl : option number)
  : option Summarize.Config.t :=
  Some {| Summarize.Config.enabled := None; Summarize.Config.apiKey := key;
          Summarize.Config.timeoutSeconds := timeout;
          Summarize.Config.cacheTtlMinutes := ttl;
          Summarize.Config.cache := None; Summarize.Config.engine := None;
          Summarize.Config.summaryType := None;
          Summarize.Config.targetLanguage := None |}.

Definition fastgpt (key : option string) (timeout ttl : option number)
  : option FastGPT.Config.t :=
  Some {| FastGPT.Config.enabled := None; FastGPT.Config.apiKey := key;
          FastGPT.Config.timeoutSeconds := timeout;
          FastGPT.Config.cacheTtlMinutes := ttl;
          FastGPT.Config.cache := None |}.

(** The options of a construction whose configuration holds the section. *)
Definition summarizerOptions (section : option Summarize.Config.t) (sandboxed : option bool)
  : option Summarize.Options :=
  Some {| Summarize.config :=
            Some {| Summarize.tools :=
                      Some {| Summarize.web :=
                                Some {| Summarize.summarizer := section |} |} |};
          Summarize.sandboxed := sandboxed |}.

Definition fastgptOptions (section : option FastGPT.Config.t) (sandboxed : option bool)
  : option FastGPT.Options :=
  Some {| FastGPT.config :=
            Some {| FastGPT.tools :=
                      Some {| FastGPT.web := Some {| FastGPT.fastgpt := section |} |} |};
          FastGPT.sandboxed := sandboxed |}.

(** A section that disables the summarizer and holds a key. *)
Definition disabled : Summarize.Config.t :=
  {| Summarize.Config.enabled := Some false; Summarize.Config.apiKey := Some "cfg-key";
     Summarize.Config.timeoutSeconds := None; Summarize.Config.cacheTtlMinutes := None;
     Summarize.Config.cache := None; Summarize.Config.engine := None;
     Summarize.Config.summaryType := None; Summarize.Config.targetLanguage := None |}.

(** A key in the environment, padded with blanks; one upstream answer. *)
Definition answering : Env :=
  Sample.envWith (Some "  env-key ") (fun _ => Responds (Sample.okResponse "a summary")).

(** The body of an upstream answer with two references, one of them bare. *)
Definition withReferences : Json :=
  JObj [("data",
         JObj [("output", JStr "an answer");
               ("references",
                JArr [ JObj [("title", JStr "Rocq"); ("url", JStr "https://rocq-prover.org")];
                       JObj [("snippet", JNull)] ])])].

(** A summarize call by text with the cache on, and a FastGPT call. *)
Definition cachedText : Summarize.Params.t :=
  {| Summarize.Params.url := None; Summarize.Params.text := Some "abc";
     Summarize.Params.engine := "cecil"; Summarize.Params.summaryType := "summary";
     Summarize.Params.targetLanguage := None; Summarize.Params.apiKey := "token";
     Summarize.Params.cache := true; Summarize.Params.timeoutSeconds := 60;
     Summarize.Params.cacheTtlMs := Finite 900000 |}.

Definition cachedQuery : FastGPT.Params.t :=
  {| FastGPT.Params.query := "what is rocq"; FastGPT.Params.apiKey := "token";
     FastGPT.Params.cache := true; FastGPT.Params.timeoutSeconds := 30;
     FastGPT.Params.cacheTtlMs := Finite 900000 |}.

(** A stored result, live until the given clock reading. *)
Definition stored (until : Z) : CacheEntry :=
  {| value := JObj [("provider", JStr "kagi-summarizer"); ("summary", JStr "kept")];
     expiresAt := Finite until |}.

(** A world whose summarize cache holds [e] under the key of [cachedText],
    and whose FastGPT cache holds it under the key of [cachedQuery]. *)
Definition holding (e : CacheEntry) : World :=
  {| ticks := 0; requests := [];
     SUMMARIZE_CACHE :=
       {[ @normalizeCacheKey Sample.webShared (Summarize.cacheKeyInput cachedText) := e ]};
     FASTGPT_CACHE :=
       {[ @normalizeCacheKey Sample.webShared (FastGPT.cacheKeyInput cachedQuery) := e ]} |}.

End Inputs.

(* ================================================================== *)
(** ** Properties: construction, credentials and parameter validation *)
(* ================================================================== *)

Lemma truthyS_false (s : string) : Js.truthyS s = false <-> s = "".
Proof. destruct s; simpl; split; congruence. Qed.

Lemma truthyS_true (s : string) : Js.truthyS s = true <-> s <> "".
Proof. destruct s; simpl; split; congruence. Qed.

Lemma summarize_key_none (env : Env) (c : option Summarize.Config.t) :
  Summarize.resolveKagiApiKey env c = None <->
  credentialless (c ≫= Summarize.Config.apiKey) env.
Proof.
  unfold Summarize.resolveKagiApiKey, credentialless.
  destruct (c ≫= Summarize.Config.apiKey) as [k|]; simpl.
  - destruct (Js.truthyS (Js.trim k)) eqn:Hk.
    + apply truthyS_true in Hk. split; [discriminate | tauto].
    + apply truthyS_false in Hk.
      destruct (Js.truthyS (Js.trim (default "" (KAGI_API_KEY env)))) eqn:He.
      * apply truthyS_true in He. split; [discriminate | tauto].
      * apply truthyS_false in He. tauto.
  - destruct (Js.truthyS (Js.trim (default "" (KAGI_API_KEY env)))) eqn:He.
    + apply truthyS_true in He. split; [discriminate | tauto].
    + apply truthyS_false in He. tauto.
Qed.

Lemma fastgpt_key_none (env : Env) (c : option FastGPT.Config.t) :
  FastGPT.resolveKagiApiKey env c = None <->
  credentialless (c ≫= FastGPT.Config.apiKey) env.
Proof.
  unfold FastGPT.resolveKagiApiKey, credentialless.
  destruct (c ≫= FastGPT.Config.apiKey) as [k|]; simpl.
  - destruct (Js.truthyS (Js.trim k)) eqn:Hk.
    + apply truthyS_true in Hk. split; [discriminate | tauto].
    + apply truthyS_false in Hk.
      destruct (Js.truthyS (Js.trim (default "" (KAGI_API_KEY env)))) eqn:He.
      * apply truthyS_true in He. split; [discriminate | tauto].
      * apply truthyS_false in He. tauto.
  - destruct (Js.truthyS (Js.trim (default "" (KAGI_API_KEY env)))) eqn:He.
    + apply truthyS_true in He. split; [discriminate | tauto].
    + apply truthyS_false in He. tauto.
Qed.

(** A resolved key is never empty. *)
Lemma summarize_key_truthy (env : Env) (c : option Summarize.Config.t) (k : string) :
  Summarize.resolveKagiApiKey env c = Some k -> Js.truthyS k = true.
Proof.
  unfold Summarize.resolveKagiApiKey.
  destruct (c ≫= Summarize.Config.apiKey) as [a|]; simpl.
  - destruct (Js.truthyS (Js.trim a)) eqn:Ha; [congruence|].
    destruct (Js.truthyS (Js.trim (default "" (KAGI_API_KEY env)))) eqn:He; congruence.
  - destruct (Js.truthyS (Js.trim (default "" (KAGI_API_KEY env)))) eqn:He; congruence.
Qed.

Lemma fastgpt_key_truthy (env : Env) (c : option FastGPT.Config.t) (k : string) :
  FastGPT.resolveKagiApiKey env c = Some k -> Js.truthyS k = true.
Proof.
  unfold FastGPT.resolveKagiApiKey.
  destruct (c ≫= FastGPT.Config.apiKey) as [a|]; simpl.
  - destruct (Js.truthyS (Js.trim a)) eqn:Ha; [congruence|].
    destruct (Js.truthyS (Js.trim (default "" (KAGI_API_KEY env)))) eqn:He; congruence.
  - destruct (Js.truthyS (Js.trim (default "" (KAGI_API_KEY env)))) eqn:He; congruence.
Qed.

Lemma summarize_enabled_false (c : option Summarize.Config.t) :
  Summarize.resolveSummarizerEnabled c = false <-> c ≫= Summarize.Config.enabled = Some false.
Proof.
  unfold Summarize.resolveSummarizerEnabled.
  destruct (c ≫= Summarize.Config.enabled) as [[]|]; split; congruence.
Qed.

Lemma fastgpt_enabled_false (c : option FastGPT.Config.t) :
  FastGPT.resolveFastGPTEnabled c = false <-> c ≫= FastGPT.Config.enabled = Some false.
Proof.
  unfold FastGPT.resolveFastGPTEnabled.
  destruct (c ≫= FastGPT.Config.enabled) as [[]|]; split; congruence.
Qed.

Lemma not_sandboxed (o : option bool) : default false o = false <-> o <> Some true.
Proof. destruct o as [[]|]; simpl; split; congruence. Qed.

Lemma summarize_create_none `{WebShared} `{Common} (env : Env)
    (so : option Summarize.Options) :
  let sc := Summarize.resolveSummarizerConfig (so ≫= Summarize.config) in
  Summarize.createKagiSummarizeTool env so = None <->
  sc ≫= Summarize.Config.enabled = Some false \/
  (credentialless (sc ≫= Summarize.Config.apiKey) env /\
   so ≫= Summarize.sandboxed <> Some true).
Proof.
  intros sc. unfold Summarize.createKagiSummarizeTool. fold sc.
  rewrite <- summarize_enabled_false, <- summarize_key_none, <- not_sandboxed.
  destruct (Summarize.resolveSummarizerEnabled sc); simpl.
  - destruct (Summarize.resolveKagiApiKey env sc) as [k|] eqn:Hk; simpl.
    + rewrite (summarize_key_truthy _ _ _ Hk). simpl.
      split; [discriminate | intros [?|[? _]]; discriminate].
    + destruct (default false (so ≫= Summarize.sandboxed)); simpl.
      * split; [discriminate | intros [?|[_ ?]]; discriminate].
      * split; auto.
  - split; auto.
Qed.

Lemma fastgpt_create_none `{WebShared} `{Common} (env : Env)
    (fo : option FastGPT.Options) :
  let fc := FastGPT.resolveFastGPTConfig (fo ≫= FastGPT.config) in
  FastGPT.createKagiFastGPTTool env fo = None <->
  fc ≫= FastGPT.Config.enabled = Some false \/
  (credentialless (fc ≫= FastGPT.Config.apiKey) env /\
   fo ≫= FastGPT.sandboxed <> Some true).
Proof.
  intros fc. unfold FastGPT.createKagiFastGPTTool. fold fc.
  rewrite <- fastgpt_enabled_false, <- fastgpt_key_none, <- not_sandboxed.
  destruct (FastGPT.resolveFastGPTEnabled fc); simpl.
  - destruct (FastGPT.resolveKagiApiKey env fc) as [k|] eqn:Hk; simpl.
    + rewrite (fastgpt_key_truthy _ _ _ Hk). simpl.
      split; [discriminate | intros [?|[? _]]; discriminate].
    + destruct (default false (fo ≫= FastGPT.sandboxed)); simpl.
      * split; [discriminate | intros [?|[_ ?]]; discriminate].
      * split; auto.
  - split; auto.
Qed.

(** The configuration a constructor resolves is the section at the end of
    the path, and none when a step of the path is missing. *)
Lemma summarizerSection_resolved (so : option Summarize.Options)
    (section : Summarize.Config.t) :
  summarizerSection so section <->
  Summarize.resolveSummarizerConfig (so ≫= Summarize.config) = Some section.
Proof.
  unfold summarizerSection, Summarize.resolveSummarizerConfig. split.
  - intros (o & c & t & w & -> & Hc & Ht & Hw & Hs). simpl. rewrite Hc. simpl.
    rewrite Ht. simpl. rewrite Hw. simpl. exact Hs.
  - destruct so as [o|]; simpl; [|discriminate].
    destruct (Summarize.config o) as [c|] eqn:Hc; simpl; [|discriminate].
    destruct (Summarize.tools c) as [t|] eqn:Ht; simpl; [|discriminate].
    destruct (Summarize.web t) as [w|] eqn:Hw; simpl; [|discriminate].
    intros Hs. exists o, c, t, w. auto.
Qed.

Lemma fastgptSection_resolved (fo : option FastGPT.Options) (section : FastGPT.Config.t) :
  fastgptSection fo section <->
  FastGPT.resolveFastGPTConfig (fo ≫= FastGPT.config) = Some section.
Proof.
  unfold fastgptSection, FastGPT.resolveFastGPTConfig. split.
  - intros (o & c & t & w & -> & Hc & Ht & Hw & Hs). simpl. rewrite Hc. simpl.
    rewrite Ht. simpl. rewrite Hw. simpl. exact Hs.
  - destruct fo as [o|]; simpl; [|discriminate].
    destruct (FastGPT.config o) as [c|] eqn:Hc; simpl; [|discriminate].
    destruct (FastGPT.tools c) as [t|] eqn:Ht; simpl; [|discriminate].
    destruct (FastGPT.web t) as [w|] eqn:Hw; simpl; [|discriminate].
    intros Hs. exists o, c, t, w. auto.
Qed.

(** No tool is built exactly when the section at the path disables the
    adapter, or when neither the section nor the environment holds a key
    and the caller is not sandboxed. *)
Lemma summarize_create_none_at_path `{WebShared} `{Common} (env : Env)
    (so : option Summarize.Options) :
  Summarize.createKagiSummarizeTool env so = None <->
  (exists section, summarizerSection so section /\
                   Summarize.Config.enabled section = Some false) \/
  ((forall section, summarizerSection so section ->
      Js.trim (default "" (Summarize.Config.apiKey section)) = "") /\
   Js.trim (default "" (KAGI_API_KEY env)) = "" /\
   so ≫= Summarize.sandboxed <> Some true).
Proof.
  rewrite summarize_create_none. cbv zeta. unfold credentialless.
  destruct (Summarize.resolveSummarizerConfig (so ≫= Summarize.config)) as [s|] eqn:Hs.
  - apply summarizerSection_resolved in Hs. simpl. split.
    + intros [Hoff | ((Hblank & Henv) & Hsb)].
      * left. exists s. auto.
      * right. split; [|by auto].
        intros s' Hs'. apply summarizerSection_resolved in Hs, Hs'.
        rewrite Hs in Hs'. by inversion Hs'; subst.
    + intros [(s' & Hs' & Hoff) | (Hblank & Henv & Hsb)].
      * left. apply summarizerSection_resolved in Hs, Hs'.
        rewrite Hs in Hs'. by inversion Hs'; subst.
      * right. auto.
  - simpl. split.
    + intros [Hoff | ((_ & Henv) & Hsb)]; [discriminate|].
      right. split; [|by auto].
      intros s Hsec. apply summarizerSection_resolved in Hsec. congruence.
    + intros [(s & Hsec & _) | (_ & Henv & Hsb)].
      * apply summarizerSection_resolved in Hsec. congruence.
      * right. auto.
Qed.

Lemma fastgpt_create_none_at_path `{WebShared} `{Common} (env : Env)
    (fo : option FastGPT.Options) :
  FastGPT.createKagiFastGPTTool env fo = None <->
  (exists section, fastgptSection fo section /\
                   FastGPT.Config.enabled section = Some false) \/
  ((forall section, fastgptSection fo section ->
      Js.trim (default "" (FastGPT.Config.apiKey section)) = "") /\
   Js.trim (default "" (KAGI_API_KEY env)) = "" /\
   fo ≫= FastGPT.sandboxed <> Some true).
Proof.
  rewrite fastgpt_create_none. cbv zeta. unfold credentialless.
  destruct (FastGPT.resolveFastGPTConfig (fo ≫= FastGPT.config)) as [s|] eqn:Hs.
  - apply fastgptSection_resolved in Hs. simpl. split.
    + intros [Hoff | ((Hblank & Henv) & Hsb)].
      * left. exists s. auto.
      * right. split; [|by auto].
        intros s' Hs'. apply fastgptSection_resolved in Hs, Hs'.
        rewrite Hs in Hs'. by inversion Hs'; subst.
    + intros [(s' & Hs' & Hoff) | (Hblank & Henv & Hsb)].
      * left. apply fastgptSection_resolved in Hs, Hs'.
        rewrite Hs in Hs'. by inversion Hs'; subst.
      * right. auto.
  - simpl. split.
    + intros [Hoff | ((_ & Henv) & Hsb)]; [discriminate|].
      right. split; [|by auto].
      intros s Hsec. apply fastgptSection_resolved in Hsec. congruence.
    + intros [(s & Hsec & _) | (_ & Henv & Hsb)].
      * apply fastgptSection_resolved in Hsec. congruence.
      * right. auto.
Qed.

(** C9.  Construction returns no tool exactly when the adapter is configured
    disabled ([enabled: false] in the section [tools.web.summarizer], or
    [tools.web.fastgpt], of the configuration given in the options), or when
    no credential is resolvable (the [apiKey] of that section is absent or
    blank, and so is the KAGI_API_KEY environment variable) and the caller
    is not sandboxed; in every other case a tool is returned.  This holds of
    both tools. *)
Theorem create_tool_none_iff `{WebShared} `{Common} (env : Env)
    (so : option Summarize.Options) (fo : option FastGPT.Options) :
  (Summarize.createKagiSummarizeTool env so = None <->
     (exists section, summarizerSection so section /\
                      Summarize.Config.enabled section = Some false) \/
     ((forall section, summarizerSection so section ->
         Js.trim (default "" (Summarize.Config.apiKey section)) = "") /\
      Js.trim (default "" (KAGI_API_KEY env)) = "" /\
      so ≫= Summarize.sandboxed <> Some true)) /\
  (FastGPT.createKagiFastGPTTool env fo = None <->
     (exists section, fastgptSection fo section /\
                      FastGPT.Config.enabled section = Some false) \/
     ((forall section, fastgptSection fo section ->
         Js.trim (default "" (FastGPT.Config.apiKey section)) = "") /\
      Js.trim (default "" (KAGI_API_KEY env)) = "" /\
      fo ≫= FastGPT.sandboxed <> Some true)).
Proof.
  split.
  - apply summarize_create_none_at_path.
  - apply fastgpt_create_none_at_path.
Qed.

(** The tool a sandboxed construction returns runs [execute] of the module
    on the configuration it captured. *)
Lemma summarize_tool_execute `{WebShared} `{Common} (env0 : Env)
    (so : option Summarize.Options) (tool : AnyAgentTool) :
  Summarize.createKagiSummarizeTool env0 so = Some tool ->
  execute tool =
  Summarize.executeSummarize (Summarize.resolveSummarizerConfig (so ≫= Summarize.config)).
Proof.
  unfold Summarize.createKagiSummarizeTool.
  repeat match goal with |- context [if ?b then _ else _] => destruct b end;
    intros Heq; inversion Heq; reflexivity.
Qed.

Lemma fastgpt_tool_execute `{WebShared} `{Common} (env0 : Env)
    (fo : option FastGPT.Options) (tool : AnyAgentTool) :
  FastGPT.createKagiFastGPTTool env0 fo = Some tool ->
  execute tool =
  FastGPT.executeFastGPT (FastGPT.resolveFastGPTConfig (fo ≫= FastGPT.config)).
Proof.
  unfold FastGPT.createKagiFastGPTTool.
  repeat match goal with |- context [if ?b then _ else _] => destruct b end;
    intros Heq; inversion Heq; reflexivity.
Qed.

(** C10.  A tool constructed in sandboxed mode while no credential is
    resolvable exists, and each call of its [execute] resolves the credential
    again from the environment of the call: while none is resolvable there,
    the call returns, for any arguments, the structured result with error
    code [missing_kagi_api_key] and a remediation message, it does not throw,
    and it leaves the world as it was (no request is sent). *)
Theorem sandboxed_call_reports_missing_key `{WebShared} `{Common}
    (env0 env : Env) (so : option Summarize.Options) (fo : option FastGPT.Options)
    (args : Json) (w : World) :
  let sc := Summarize.resolveSummarizerConfig (so ≫= Summarize.config) in
  let fc := FastGPT.resolveFastGPTConfig (fo ≫= FastGPT.config) in
  (so ≫= Summarize.sandboxed = Some true ->
   sc ≫= Summarize.Config.enabled <> Some false ->
   credentialless (sc ≫= Summarize.Config.apiKey) env0 ->
   credentialless (sc ≫= Summarize.Config.apiKey) env ->
   exists tool,
     Summarize.createKagiSummarizeTool env0 so = Some tool /\
     execute tool env args w = (Return (jsonResult Summarize.missingKeyResult), w)) /\
  (fo ≫= FastGPT.sandboxed = Some true ->
   fc ≫= FastGPT.Config.enabled <> Some false ->
   credentialless (fc ≫= FastGPT.Config.apiKey) env0 ->
   credentialless (fc ≫= FastGPT.Config.apiKey) env ->
   exists tool,
     FastGPT.createKagiFastGPTTool env0 fo = Some tool /\
     execute tool env args w = (Return (jsonResult FastGPT.missingKeyResult), w)) /\
  Value.get Summarize.missingKeyResult "error" = Return (JStr "missing_kagi_api_key") /\
  Value.get FastGPT.missingKeyResult "error" = Return (JStr "missing_kagi_api_key") /\
  (exists m, Value.get Summarize.missingKeyResult "message" = Return (JStr m) /\ m <> "") /\
  (exists m, Value.get FastGPT.missingKeyResult "message" = Return (JStr m) /\ m <> "").
Proof.
  intros sc fc. repeat split.
  - intros Hsb Hen Hc0 Hc.
    destruct (Summarize.createKagiSummarizeTool env0 so) as [tool|] eqn:Hcreate.
    + exists tool. split; [reflexivity|].
      rewrite (summarize_tool_execute _ _ _ Hcreate). fold sc.
      unfold Summarize.executeSummarize.
      apply summarize_key_none in Hc. rewrite Hc. reflexivity.
    + exfalso.
      apply summarize_create_none in Hcreate. fold sc in Hcreate.
      destruct Hcreate as [Hd | [_ Hns]]; [exact (Hen Hd) | exact (Hns Hsb)].
  - intros Hsb Hen Hc0 Hc.
    destruct (FastGPT.createKagiFastGPTTool env0 fo) as [tool|] eqn:Hcreate.
    + exists tool. split; [reflexivity|].
      rewrite (fastgpt_tool_execute _ _ _ Hcreate). fold fc.
      unfold FastGPT.executeFastGPT.
      apply fastgpt_key_none in Hc. rewrite Hc. reflexivity.
    + exfalso.
      apply fastgpt_create_none in Hcreate. fold fc in Hcreate.
      destruct Hcreate as [Hd | [_ Hns]]; [exact (Hen Hd) | exact (Hns Hsb)].
  - eexists. split; [reflexivity | discriminate].
  - eexists. split; [reflexivity | discriminate].
Qed.

(** C5.  With the credential resolved, [execute] of the summarize tool called
    with neither [url] nor [text] returns the structured result with code
    [missing_input], and called with both returns the one with code
    [conflicting_input]; in both cases the world is left as it was: no
    request is sent upstream. *)
Theorem summarize_input_exclusivity `{WebShared} `{Common}
    (config : option Summarize.Config.t) (env : Env) (args : Json) (w : World)
    (key : string) :
  Summarize.resolveKagiApiKey env config = Some key ->
  (Js.truthyO (readStringParam args "url") = false ->
   Js.truthyO (readStringParam args "text") = false ->
   Summarize.executeSummarize config env args w =
   (Return (jsonResult Summarize.missingInputResult), w)) /\
  (Js.truthyO (readStringParam args "url") = true ->
   Js.truthyO (readStringParam args "text") = true ->
   Summarize.executeSummarize config env args w =
   (Return (jsonResult Summarize.conflictingInputResult), w)) /\
  Value.get Summarize.missingInputResult "error" = Return (JStr "missing_input") /\
  Value.get Summarize.conflictingInputResult "error" = Return (JStr "conflicting_input").
Proof.
  intros Hkey. unfold Summarize.executeSummarize. rewrite Hkey.
  repeat split.
  - intros Hu Ht. rewrite Hu, Ht. reflexivity.
  - intros Hu Ht. rewrite Hu, Ht. reflexivity.
Qed.

(** ** The enumerated parameters *)

Lemma includes_In (xs : list string) (s : string) :
  Js.includes xs s = true <-> In s xs.
Proof.
  unfold Js.includes. rewrite existsb_exists. split.
  - intros [x [Hin Heq]]. apply String.eqb_eq in Heq. subst. exact Hin.
  - intros Hin. exists s. split; [exact Hin | apply String.eqb_refl].
Qed.

Lemma resolveDefaultEngine_spec (config : option Summarize.Config.t) :
  In (Summarize.resolveDefaultEngine config) Summarize.SUMMARIZER_ENGINES /\
  (forall e, config ≫= Summarize.Config.engine = Some e ->
             In e Summarize.SUMMARIZER_ENGINES ->
             Summarize.resolveDefaultEngine config = e) /\
  ((forall e, config ≫= Summarize.Config.engine = Some e ->
              ~ In e Summarize.SUMMARIZER_ENGINES) ->
   Summarize.resolveDefaultEngine config = "cecil").
Proof.
  unfold Summarize.resolveDefaultEngine.
  destruct (config ≫= Summarize.Config.engine) as [e|].
  - destruct (Js.includes Summarize.SUMMARIZER_ENGINES e) eqn:Hin.
    + pose proof (proj1 (includes_In _ _) Hin) as HIn.
      assert (Ht : Js.truthyS e = true).
      { destruct e; [|reflexivity]. simpl in HIn.
        destruct HIn as [?|[?|[?|[]]]]; discriminate. }
      rewrite Ht. simpl. repeat split; auto.
      * intros e' He' _. congruence.
      * intros Hno. exfalso. exact (Hno e eq_refl HIn).
    + rewrite andb_false_r. repeat split.
      * simpl; auto.
      * intros e' He' HIn. inversion He'; subst.
        apply includes_In in HIn. congruence.
  - repeat split.
    + simpl; auto.
    + intros e He. discriminate.
Qed.

Lemma validateEngine_unrecognized (raw : option string) :
  (forall e, raw = Some e ->
     Js.includes Summarize.SUMMARIZER_ENGINES (Js.toLowerCase (Js.trim e)) = false) ->
  Summarize.validateEngine raw = None.
Proof.
  intros Hun. unfold Summarize.validateEngine. destruct raw as [e|]; [|reflexivity].
  rewrite (Hun e eq_refl). destruct (negb (Js.truthyS e)); reflexivity.
Qed.

Lemma validateSummaryType_unrecognized (raw : option string) :
  (forall t, raw = Some t ->
     Js.includes Summarize.SUMMARY_TYPES (Js.toLowerCase (Js.trim t)) = false) ->
  Summarize.validateSummaryType raw = None.
Proof.
  intros Hun. unfold Summarize.validateSummaryType. destruct raw as [t|]; [|reflexivity].
  rewrite (Hun t eq_refl). destruct (negb (Js.truthyS t)); reflexivity.
Qed.

Lemma validateTargetLanguage_unrecognized (raw : option string) :
  (forall l, raw = Some l ->
     Js.includes ("ZHHANT" :: Summarize.TARGET_LANGUAGES) (Js.toUpperCase (Js.trim l)) = false) ->
  Summarize.validateTargetLanguage raw = None.
Proof.
  intros Hun. unfold Summarize.validateTargetLanguage. destruct raw as [l|]; [|reflexivity].
  specialize (Hun l eq_refl).
  change (Js.includes ("ZHHANT" :: Summarize.TARGET_LANGUAGES) (Js.toUpperCase (Js.trim l)))
    with ((Js.toUpperCase (Js.trim l) =? "ZHHANT")%string
          || Js.includes Summarize.TARGET_LANGUAGES (Js.toUpperCase (Js.trim l))) in Hun.
  apply orb_false_elim in Hun as [Hz Hin]. rewrite Hin, Hz.
  destruct (negb (Js.truthyS l)); [reflexivity|].
  destruct (Js.toUpperCase (Js.trim l) =? "ZH-HANT")%string eqn:Hh; [|reflexivity].
  apply String.eqb_eq in Hh. rewrite Hh in Hin. vm_compute in Hin. discriminate.
Qed.

Lemma summary_type_not_empty (t : string) :
  In t Summarize.SUMMARY_TYPES -> Js.truthyS t = true.
Proof. intros [<-|[<-|[]]]; reflexivity. Qed.

Lemma language_not_empty (l : string) :
  In l Summarize.TARGET_LANGUAGES -> Js.truthyS l = true.
Proof.
  unfold Summarize.TARGET_LANGUAGES. intros Hin.
  repeat (destruct Hin as [<-|Hin]; [reflexivity|]). destruct Hin.
Qed.

(** The default summary type: the configured one when it is one of the two
    types, and ["summary"] otherwise. *)
Lemma resolveDefaultSummaryType_spec (config : option Summarize.Config.t) :
  In (Summarize.resolveDefaultSummaryType config) Summarize.SUMMARY_TYPES /\
  (forall t, config ≫= Summarize.Config.summaryType = Some t ->
             In t Summarize.SUMMARY_TYPES ->
             Summarize.resolveDefaultSummaryType config = t) /\
  ((forall t, config ≫= Summarize.Config.summaryType = Some t ->
              ~ In t Summarize.SUMMARY_TYPES) ->
   Summarize.resolveDefaultSummaryType config = "summary").
Proof.
  unfold Summarize.resolveDefaultSummaryType.
  destruct (config ≫= Summarize.Config.summaryType) as [t|].
  - destruct (Js.includes Summarize.SUMMARY_TYPES t) eqn:Hin.
    + pose proof (proj1 (includes_In _ _) Hin) as HIn.
      rewrite (summary_type_not_empty _ HIn). cbn [andb]. repeat split; auto.
      * intros t' Ht' _. congruence.
      * intros Hno. exfalso. exact (Hno t eq_refl HIn).
    + rewrite andb_false_r. repeat split.
      * simpl; auto.
      * intros t' Ht' HIn. inversion Ht'; subst.
        apply includes_In in HIn. congruence.
  - repeat split.
    + simpl; auto.
    + intros t Ht. discriminate.
Qed.

(** The default target language: the configured one, trimmed and in upper
    case, when that is one of the language codes, and none otherwise. *)
Lemma resolveDefaultTargetLanguage_spec (config : option Summarize.Config.t) :
  (forall l, Summarize.resolveDefaultTargetLanguage config = Some l ->
             In l Summarize.TARGET_LANGUAGES) /\
  (forall raw, config ≫= Summarize.Config.targetLanguage = Some raw ->
               In (Js.toUpperCase (Js.trim raw)) Summarize.TARGET_LANGUAGES ->
               Summarize.resolveDefaultTargetLanguage config =
               Some (Js.toUpperCase (Js.trim raw))) /\
  ((forall raw, config ≫= Summarize.Config.targetLanguage = Some raw ->
                ~ In (Js.toUpperCase (Js.trim raw)) Summarize.TARGET_LANGUAGES) ->
   Summarize.resolveDefaultTargetLanguage config = None).
Proof.
  unfold Summarize.resolveDefaultTargetLanguage.
  destruct (config ≫= Summarize.Config.targetLanguage) as [raw|].
  - cbv zeta.
    destruct (Js.includes Summarize.TARGET_LANGUAGES (Js.toUpperCase (Js.trim raw))) eqn:Hin.
    + pose proof (proj1 (includes_In _ _) Hin) as HIn.
      rewrite (language_not_empty _ HIn). cbn [andb]. repeat split.
      * intros l Hl. by inversion Hl; subst.
      * intros raw' Hraw _. by inversion Hraw; subst.
      * intros Hno. exfalso. exact (Hno raw eq_refl HIn).
    + rewrite andb_false_r. repeat split.
      * intros l Hl. discriminate.
      * intros raw' Hraw HIn. inversion Hraw; subst.
        apply includes_In in HIn. congruence.
  - repeat split.
    + intros l Hl. discriminate.
    + intros raw Hraw. discriminate.
Qed.

(** C6.  A summarize call with the credential resolved and exactly one of
    [url] and [text] goes on to [runSummarize] whatever the enumerated
    arguments are.  An [engine] that, trimmed and in lower case, is not one
    of the engine names is replaced by the default engine, which is the
    configured one when that is an engine name and ["cecil"] otherwise.  A
    [summary_type] that is not recognized is replaced by the configured
    summary type when that is one of the two types, and by ["summary"]
    otherwise.  A [target_language] that is not recognized is replaced by
    the configured language, trimmed and in upper case, when that is one of
    the language codes, and is left out otherwise. *)
Theorem summarize_enum_fallback `{WebShared} `{Common}
    (config : option Summarize.Config.t) (env : Env) (args : Json) (w : World)
    (key : string) :
  Summarize.resolveKagiApiKey env config = Some key ->
  Js.truthyO (readStringParam args "url") <> Js.truthyO (readStringParam args "text") ->
  let p := Summarize.paramsOf config key args in
  Summarize.executeSummarize config env args w =
    (result <- Summarize.runSummarize env p ;; ret (jsonResult result)) w /\
  ((forall e, readStringParam args "engine" = Some e ->
      Js.includes Summarize.SUMMARIZER_ENGINES (Js.toLowerCase (Js.trim e)) = false) ->
   Summarize.Params.engine p = Summarize.resolveDefaultEngine config /\
   In (Summarize.Params.engine p) Summarize.SUMMARIZER_ENGINES /\
   (forall e, config ≫= Summarize.Config.engine = Some e ->
      In e Summarize.SUMMARIZER_ENGINES -> Summarize.Params.engine p = e) /\
   ((forall e, config ≫= Summarize.Config.engine = Some e ->
       ~ In e Summarize.SUMMARIZER_ENGINES) -> Summarize.Params.engine p = "cecil")) /\
  ((forall t, readStringParam args "summary_type" = Some t ->
      Js.includes Summarize.SUMMARY_TYPES (Js.toLowerCase (Js.trim t)) = false) ->
   Summarize.Params.summaryType p = Summarize.resolveDefaultSummaryType config /\
   In (Summarize.Params.summaryType p) Summarize.SUMMARY_TYPES /\
   (forall t, config ≫= Summarize.Config.summaryType = Some t ->
      In t Summarize.SUMMARY_TYPES -> Summarize.Params.summaryType p = t) /\
   ((forall t, config ≫= Summarize.Config.summaryType = Some t ->
       ~ In t Summarize.SUMMARY_TYPES) -> Summarize.Params.summaryType p = "summary")) /\
  ((forall l, readStringParam args "target_language" = Some l ->
      Js.includes ("ZHHANT" :: Summarize.TARGET_LANGUAGES) (Js.toUpperCase (Js.trim l)) = false) ->
   Summarize.Params.targetLanguage p = Summarize.resolveDefaultTargetLanguage config /\
   (forall l, Summarize.Params.targetLanguage p = Some l ->
      In l Summarize.TARGET_LANGUAGES) /\
   (forall raw, config ≫= Summarize.Config.targetLanguage = Some raw ->
      In (Js.toUpperCase (Js.trim raw)) Summarize.TARGET_LANGUAGES ->
      Summarize.Params.targetLanguage p = Some (Js.toUpperCase (Js.trim raw))) /\
   ((forall raw, config ≫= Summarize.Config.targetLanguage = Some raw ->
       ~ In (Js.toUpperCase (Js.trim raw)) Summarize.TARGET_LANGUAGES) ->
    Summarize.Params.targetLanguage p = None)).
Proof.
  intros Hkey Hone p. split; [|split; [|split]].
  - unfold Summarize.executeSummarize. rewrite Hkey. fold p.
    destruct (Js.truthyO (readStringParam args "url")),
             (Js.truthyO (readStringParam args "text")); simpl; congruence.
  - intros Hun. subst p. simpl.
    rewrite (validateEngine_unrecognized _ Hun). simpl.
    destruct (resolveDefaultEngine_spec config) as (Hin & Hcfg & Hdef). auto.
  - intros Hun. subst p. simpl.
    rewrite (validateSummaryType_unrecognized _ Hun). simpl.
    destruct (resolveDefaultSummaryType_spec config) as (Hin & Hcfg & Hdef). auto.
  - intros Hun. subst p. simpl.
    rewrite (validateTargetLanguage_unrecognized _ Hun).
    destruct (resolveDefaultTargetLanguage_spec config) as (Hin & Hcfg & Hdef). auto.
Qed.

(* ================================================================== *)
(** ** Properties: the cache store *)
(* ================================================================== *)

(** An integer below 2^53 in absolute value is the double it is stored as. *)
Lemma ofZ_exact (z : Z) : Z.abs z < Number.exact -> Number.ofZ z = Finite z.
Proof.
  unfold Number.exact. intros Hz. unfold Number.ofZ, Number.round53.
  assert (Hlog : Z.log2 (Z.abs z) - 52 <= 0).
  { destruct (Z.eq_dec (Z.abs z) 0) as [-> | Hne]; [simpl; lia|].
    assert (Z.log2 (Z.abs z) < 53) by (apply Z.log2_lt_pow2; lia). lia. }
  destruct (Z.leb_spec (Z.log2 (Z.abs z) - 52) 0); [|lia].
  assert (Hhuge : 2 ^ 53 < Number.huge)
    by (unfold Number.huge; apply Z.pow_lt_mono_r; lia).
  destruct (Z.leb_spec Number.huge (Z.abs z)); [lia|].
  f_equal. lia.
Qed.

Lemma round53_nonneg (a : Z) : 0 <= a -> 0 <= Number.round53 a.
Proof.
  intros Ha. unfold Number.round53.
  destruct (Z.leb_spec (Z.log2 a - 52) 0); [exact Ha|].
  apply Z.shiftl_nonneg.
  assert (0 <= Z.shiftr a (Z.log2 a - 52)) by (apply Z.shiftr_nonneg; exact Ha).
  destruct (_ || _); lia.
Qed.

(** A result that is not negative is stored as a double that is not
    negative: a finite one, or the positive infinity. *)
Lemma ofZ_nonneg (z : Z) : 0 <= z -> Number.leb (Finite 0) (Number.ofZ z) = true.
Proof.
  intros Hz. unfold Number.ofZ.
  pose proof (round53_nonneg (Z.abs z) (Z.abs_nonneg z)) as Hr.
  destruct (Z.leb_spec Number.huge (Number.round53 (Z.abs z))); simpl.
  - destruct (Z.ltb_spec z 0); [lia | reflexivity].
  - apply Z.leb_le. nia.
Qed.


Section CacheStore.
Variables (store : gmap string CacheEntry) (k : string) (v : Json).







Lemma readCache_live_entry (now : Z) (e : CacheEntry) :
  store !! k = Some e -> Number.gtb (Finite now) (expiresAt e) = false ->
  readCache now store k = (Some e, store).
Proof. intros Hk Hlive. unfold readCache. by rewrite Hk, Hlive. Qed.


(** After a read that misses, the key holds nothing. *)
Lemma readCache_miss_absent (now : Z) :
  fst (readCache now store k) = None -> snd (readCache now store k) !! k = None.
Proof.
  unfold readCache. destruct (store !! k) as [e|] eqn:Hk; [|by intros _].
  destruct (Number.gtb (Finite now) (expiresAt e)); [|discriminate].
  intros _. apply lookup_delete_eq.
Qed.

End CacheStore.

(* ================================================================== *)
(** ** Properties: a call with the cache off *)
(* ================================================================== *)

Lemma summarize_run_cache_off `{WebShared} (env : Env) (p : Summarize.Params.t) (w : World) :
  Summarize.Params.cache p = false ->
  Summarize.runSummarize env p w =
  Summarize.callUpstream env p (normalizeCacheKey (Summarize.cacheKeyInput p)) w.
Proof. intros Hc. unfold Summarize.runSummarize. rewrite Hc. reflexivity. Qed.

Lemma fastgpt_run_cache_off `{WebShared} (env : Env) (p : FastGPT.Params.t) (w : World) :
  FastGPT.Params.cache p = false ->
  FastGPT.runFastGPT env p w =
  FastGPT.callUpstream env p (normalizeCacheKey (FastGPT.cacheKeyInput p)) w.
Proof. intros Hc. unfold FastGPT.runFastGPT. rewrite Hc. reflexivity. Qed.

(** The upstream call of the summarize tool, case by case: the request is
    sent after one clock reading; a rejection and an error verdict are
    thrown; a success reads the clock again and, with the cache on and a
    time-to-live above zero, a third time for the write. *)
Lemma summarize_callUpstream_cases `{WebShared} (env : Env) (p : Summarize.Params.t)
    (key : string) (w : World) :
  Summarize.callUpstream env p key w =
  let w1 := sent (Summarize.requestOf p) w in
  match upstream env (length (requests w)) (Summarize.requestOf p) with
  | Rejects e => (Throw e, w1)
  | Responds res =>
      match summarizeVerdict res with
      | Throw e => (Throw e, w1)
      | Return data =>
          let payload :=
            Summarize.payloadOf p (clock env (S (ticks w)) - clock env (ticks w)) data in
          (Return payload,
           if Summarize.Params.cache p then
             {| ticks := if Number.leb (Summarize.Params.cacheTtlMs p) (Finite 0)
                         then S (S (ticks w)) else S (S (S (ticks w)));
                requests := requests w1;
                SUMMARIZE_CACHE :=
                  writeCache (clock env (S (S (ticks w)))) (SUMMARIZE_CACHE w) key payload
                             (Summarize.Params.cacheTtlMs p);
                FASTGPT_CACHE := FASTGPT_CACHE w |}
           else
             {| ticks := S (S (ticks w)); requests := requests w1;
                SUMMARIZE_CACHE := SUMMARIZE_CACHE w;
                FASTGPT_CACHE := FASTGPT_CACHE w |})
      end
  end.
Proof.
  unfold Summarize.callUpstream, Summarize.writeSummarizeCache, summarizeVerdict, sent.
  unfold_m. simpl.
  destruct (upstream env (length (requests w)) (Summarize.requestOf p)) as [res|e];
    [|reflexivity].
  destruct (negb (ok res)); [reflexivity|].
  destruct (json res) as [data|e]; [|reflexivity].
  destruct (Value.get data "error") as [err|e]; [|reflexivity].
  destruct (Value.truthy err).
  - destruct (Value.toString _); reflexivity.
  - destruct (Summarize.Params.cache p); [|reflexivity].
    unfold writeCache.
    destruct (Number.leb (Summarize.Params.cacheTtlMs p) (Finite 0)); reflexivity.
Qed.

Lemma fastgpt_callUpstream_cases `{WebShared} (env : Env) (p : FastGPT.Params.t)
    (key : string) (w : World) :
  FastGPT.callUpstream env p key w =
  let w1 := sent (FastGPT.requestOf p) w in
  match upstream env (length (requests w)) (FastGPT.requestOf p) with
  | Rejects e => (Throw e, w1)
  | Responds res =>
      match fastgptVerdict res with
      | Throw e => (Throw e, w1)
      | Return (data, references) =>
          let payload :=
            FastGPT.payloadOf p (clock env (S (ticks w)) - clock env (ticks w))
                              references data in
          (Return payload,
           if FastGPT.Params.cache p then
             {| ticks := if Number.leb (FastGPT.Params.cacheTtlMs p) (Finite 0)
                         then S (S (ticks w)) else S (S (S (ticks w)));
                requests := requests w1;
                SUMMARIZE_CACHE := SUMMARIZE_CACHE w;
                FASTGPT_CACHE :=
                  writeCache (clock env (S (S (ticks w)))) (FASTGPT_CACHE w) key payload
                             (FastGPT.Params.cacheTtlMs p) |}
           else
             {| ticks := S (S (ticks w)); requests := requests w1;
                SUMMARIZE_CACHE := SUMMARIZE_CACHE w;
                FASTGPT_CACHE := FASTGPT_CACHE w |})
      end
  end.
Proof.
  unfold FastGPT.callUpstream, FastGPT.writeFastGPTCache, fastgptVerdict, sent.
  unfold_m. simpl.
  destruct (upstream env (length (requests w)) (FastGPT.requestOf p)) as [res|e];
    [|reflexivity].
  destruct (negb (ok res)); [reflexivity|].
  destruct (json res) as [data|e]; [|reflexivity].
  destruct (Value.get data "error") as [err|e]; [|reflexivity].
  destruct (Value.truthy err).
  - destruct (Value.toString _); reflexivity.
  - destruct (FastGPT.referencesOf data) as [references|e]; [|reflexivity].
    destruct (FastGPT.Params.cache p); [|reflexivity].
    unfold writeCache.
    destruct (Number.leb (FastGPT.Params.cacheTtlMs p) (Finite 0)); reflexivity.
Qed.

(** With the cache off, the upstream call leaves both caches alone, and what
    it returns does not depend on them. *)
Lemma summarize_upstream_frame `{WebShared} (env : Env) (p : Summarize.Params.t)
    (key : string) (w : World) (c : gmap string CacheEntry * gmap string CacheEntry) :
  Summarize.Params.cache p = false ->
  caches (snd (Summarize.callUpstream env p key w)) = caches w /\
  Summarize.callUpstream env p key (withCaches c w) =
  (fst (Summarize.callUpstream env p key w),
   withCaches c (snd (Summarize.callUpstream env p key w))).
Proof.
  intros Hc. rewrite !summarize_callUpstream_cases. rewrite Hc. simpl.
  destruct (upstream env (length (requests w)) (Summarize.requestOf p)) as [res|e];
    [|split; reflexivity].
  destruct (summarizeVerdict res); split; reflexivity.
Qed.

Lemma fastgpt_upstream_frame `{WebShared} (env : Env) (p : FastGPT.Params.t)
    (key : string) (w : World) (c : gmap string CacheEntry * gmap string CacheEntry) :
  FastGPT.Params.cache p = false ->
  caches (snd (FastGPT.callUpstream env p key w)) = caches w /\
  FastGPT.callUpstream env p key (withCaches c w) =
  (fst (FastGPT.callUpstream env p key w),
   withCaches c (snd (FastGPT.callUpstream env p key w))).
Proof.
  intros Hc. rewrite !fastgpt_callUpstream_cases. rewrite Hc. simpl.
  destruct (upstream env (length (requests w)) (FastGPT.requestOf p)) as [res|e];
    [|split; reflexivity].
  destruct (fastgptVerdict res) as [[data references]|e]; split; reflexivity.
Qed.

Lemma bind_ret_map {S A B} (c : M S A) (f : A -> B) (s : S) :
  (x <- c ;; ret (f x)) s =
  (match fst (c s) with Return a => Return (f a) | Throw e => Throw e end, snd (c s)).
Proof. unfold bind, ret. destruct (c s) as [[a|e] s']; reflexivity. Qed.

Lemma summarizeVerdict_success `{WebShared} (res : Response) (data err : Json) :
  ok res = true -> json res = Return data ->
  Value.get data "error" = Return err -> Value.truthy err = false ->
  summarizeVerdict res = Return data.
Proof.
  intros Hok Hjson Herr Hfalsy. unfold summarizeVerdict.
  rewrite Hok, Hjson, Herr, Hfalsy. reflexivity.
Qed.

Lemma fastgptVerdict_success `{WebShared} (res : Response) (data err references : Json) :
  ok res = true -> json res = Return data ->
  Value.get data "error" = Return err -> Value.truthy err = false ->
  FastGPT.referencesOf data = Return references ->
  fastgptVerdict res = Return (data, references).
Proof.
  intros Hok Hjson Herr Hfalsy Hrefs. unfold fastgptVerdict.
  rewrite Hok, Hjson, Herr, Hfalsy, Hrefs. reflexivity.
Qed.

(** [execute] of the summarize tool with the cache resolved to off. *)
Lemma summarize_execute_cache_off `{WebShared} `{Common}
    (config : option Summarize.Config.t) (env : Env) (args : Json) (w : World)
    (c : gmap string CacheEntry * gmap string CacheEntry) :
  default (Summarize.resolveDefaultCache config) (readBoolParam args "cache") = false ->
  caches (snd (Summarize.executeSummarize config env args w)) = caches w /\
  fst (Summarize.executeSummarize config env args (withCaches c w)) =
  fst (Summarize.executeSummarize config env args w).
Proof.
  intros Hoff. unfold Summarize.executeSummarize.
  destruct (Summarize.resolveKagiApiKey env config) as [key|]; [|split; reflexivity].
  destruct (negb _ && negb _); [split; reflexivity|].
  destruct (_ && _); [split; reflexivity|].
  rewrite !bind_ret_map.
  assert (Hc : Summarize.Params.cache (Summarize.paramsOf config key args) = false)
    by exact Hoff.
  rewrite !(summarize_run_cache_off _ _ _ Hc).
  destruct (summarize_upstream_frame env _
              (normalizeCacheKey (Summarize.cacheKeyInput (Summarize.paramsOf config key args)))
              w c Hc) as [Hframe Hindep].
  rewrite Hindep. split; [exact Hframe | reflexivity].
Qed.

(** [execute] of the FastGPT tool with the cache resolved to off. *)
Lemma fastgpt_execute_cache_off `{WebShared} `{Common}
    (config : option FastGPT.Config.t) (env : Env) (args : Json) (w : World)
    (c : gmap string CacheEntry * gmap string CacheEntry) :
  default (FastGPT.resolveDefaultCache config) (readBoolParam args "cache") = false ->
  caches (snd (FastGPT.executeFastGPT config env args w)) = caches w /\
  fst (FastGPT.executeFastGPT config env args (withCaches c w)) =
  fst (FastGPT.executeFastGPT config env args w).
Proof.
  intros Hoff. unfold FastGPT.executeFastGPT.
  destruct (FastGPT.resolveKagiApiKey env config) as [key|]; [|split; reflexivity].
  unfold bind at 1 3 5. unfold lift.
  destruct (readRequiredStringParam args "query") as [query|e]; [|split; reflexivity].
  rewrite Hoff. rewrite !bind_ret_map.
  set (p := {| FastGPT.Params.query := query; FastGPT.Params.apiKey := key;
               FastGPT.Params.cache := false;
               FastGPT.Params.timeoutSeconds := FastGPT.resolveTimeoutSeconds config;
               FastGPT.Params.cacheTtlMs := FastGPT.resolveCacheTtlMs config |}).
  assert (Hc : FastGPT.Params.cache p = false) by reflexivity.
  rewrite !(fastgpt_run_cache_off _ _ _ Hc).
  destruct (fastgpt_upstream_frame env p (normalizeCacheKey (FastGPT.cacheKeyInput p))
              w c Hc) as [Hframe Hindep].
  rewrite Hindep. split; [exact Hframe | reflexivity].
Qed.

(** Two calls in a row with the cache off, the upstream answering both. *)
Lemma summarize_two_calls_cache_off `{WebShared} (env : Env) (p : Summarize.Params.t)
    (w : World) (res1 res2 : Response) (d1 d2 : Json) :
  Summarize.Params.cache p = false ->
  upstream env (length (requests w)) (Summarize.requestOf p) = Responds res1 ->
  upstream env (S (length (requests w))) (Summarize.requestOf p) = Responds res2 ->
  summarizeVerdict res1 = Return d1 ->
  summarizeVerdict res2 = Return d2 ->
  let first := Summarize.runSummarize env p w in
  let second := Summarize.runSummarize env p (snd first) in
  fst first =
    Return (Summarize.payloadOf p (clock env (S (ticks w)) - clock env (ticks w)) d1) /\
  fst second =
    Return (Summarize.payloadOf p
              (clock env (S (S (S (ticks w)))) - clock env (S (S (ticks w)))) d2) /\
  caches (snd second) = caches w /\
  (summaryOf d1 <> summaryOf d2 -> fst first <> fst second).
Proof.
  intros Hc Hu1 Hu2 Hv1 Hv2 first second.
  assert (Hfirst : first =
    (Return (Summarize.payloadOf p (clock env (S (ticks w)) - clock env (ticks w)) d1),
     {| ticks := S (S (ticks w));
        requests := requests w ++ [Summarize.requestOf p];
        SUMMARIZE_CACHE := SUMMARIZE_CACHE w; FASTGPT_CACHE := FASTGPT_CACHE w |})).
  { subst first. rewrite (summarize_run_cache_off _ _ _ Hc).
    rewrite summarize_callUpstream_cases. simpl. rewrite Hu1, Hv1, Hc. reflexivity. }
  assert (Hsecond : second =
    (Return (Summarize.payloadOf p
               (clock env (S (S (S (ticks w)))) - clock env (S (S (ticks w)))) d2),
     {| ticks := S (S (S (S (ticks w))));
        requests := (requests w ++ [Summarize.requestOf p]) ++ [Summarize.requestOf p];
        SUMMARIZE_CACHE := SUMMARIZE_CACHE w; FASTGPT_CACHE := FASTGPT_CACHE w |})).
  { subst second. rewrite Hfirst. simpl. rewrite (summarize_run_cache_off _ _ _ Hc).
    rewrite summarize_callUpstream_cases. simpl.
    rewrite length_app. simpl. rewrite Nat.add_1_r. rewrite Hu2, Hv2, Hc. reflexivity. }
  rewrite Hfirst, Hsecond. simpl. repeat split.
  intros Hdiff Heq. apply Hdiff. unfold summaryOf.
  unfold Summarize.payloadOf in Heq. inversion Heq. reflexivity.
Qed.

Lemma fastgpt_two_calls_cache_off `{WebShared} (env : Env) (p : FastGPT.Params.t)
    (w : World) (res1 res2 : Response) (d1 d2 r1 r2 : Json) :
  FastGPT.Params.cache p = false ->
  upstream env (length (requests w)) (FastGPT.requestOf p) = Responds res1 ->
  upstream env (S (length (requests w))) (FastGPT.requestOf p) = Responds res2 ->
  fastgptVerdict res1 = Return (d1, r1) ->
  fastgptVerdict res2 = Return (d2, r2) ->
  let first := FastGPT.runFastGPT env p w in
  let second := FastGPT.runFastGPT env p (snd first) in
  fst first =
    Return (FastGPT.payloadOf p (clock env (S (ticks w)) - clock env (ticks w)) r1 d1) /\
  fst second =
    Return (FastGPT.payloadOf p
              (clock env (S (S (S (ticks w)))) - clock env (S (S (ticks w)))) r2 d2) /\
  caches (snd second) = caches w /\
  (answerOf d1 <> answerOf d2 -> fst first <> fst second).
Proof.
  intros Hc Hu1 Hu2 Hv1 Hv2 first second.
  assert (Hfirst : first =
    (Return (FastGPT.payloadOf p (clock env (S (ticks w)) - clock env (ticks w)) r1 d1),
     {| ticks := S (S (ticks w));
        requests := requests w ++ [FastGPT.requestOf p];
        SUMMARIZE_CACHE := SUMMARIZE_CACHE w; FASTGPT_CACHE := FASTGPT_CACHE w |})).
  { subst first. rewrite (fastgpt_run_cache_off _ _ _ Hc).
    rewrite fastgpt_callUpstream_cases. simpl. rewrite Hu1, Hv1, Hc. reflexivity. }
  assert (Hsecond : second =
    (Return (FastGPT.payloadOf p
               (clock env (S (S (S (ticks w)))) - clock env (S (S (ticks w)))) r2 d2),
     {| ticks := S (S (S (S (ticks w))));
        requests := (requests w ++ [FastGPT.requestOf p]) ++ [FastGPT.requestOf p];
        SUMMARIZE_CACHE := SUMMARIZE_CACHE w; FASTGPT_CACHE := FASTGPT_CACHE w |})).
  { subst second. rewrite Hfirst. simpl. rewrite (fastgpt_run_cache_off _ _ _ Hc).
    rewrite fastgpt_callUpstream_cases. simpl.
    rewrite length_app. simpl. rewrite Nat.add_1_r. rewrite Hu2, Hv2, Hc. reflexivity. }
  rewrite Hfirst, Hsecond. simpl. repeat split.
  intros Hdiff Heq. apply Hdiff. unfold answerOf.
  unfold FastGPT.payloadOf in Heq. inversion Heq. reflexivity.
Qed.

(** With the credential resolved and exactly one of [url] and [text],
    [execute] runs [runSummarize] and wraps its result. *)
Lemma summarize_execute_runs `{WebShared} `{Common}
    (config : option Summarize.Config.t) (env : Env) (args : Json) (w : World)
    (key : string) :
  Summarize.resolveKagiApiKey env config = Some key ->
  Js.truthyO (readStringParam args "url") <> Js.truthyO (readStringParam args "text") ->
  Summarize.executeSummarize config env args w =
  (result <- Summarize.runSummarize env (Summarize.paramsOf config key args) ;;
   ret (jsonResult result)) w.
Proof.
  intros Hkey Hone. unfold Summarize.executeSummarize. rewrite Hkey.
  destruct (Js.truthyO (readStringParam args "url")),
           (Js.truthyO (readStringParam args "text")); simpl; congruence.
Qed.

Lemma fastgpt_execute_runs `{WebShared} `{Common}
    (config : option FastGPT.Config.t) (env : Env) (args : Json) (w : World)
    (key query : string) :
  FastGPT.resolveKagiApiKey env config = Some key ->
  readRequiredStringParam args "query" = Return query ->
  FastGPT.executeFastGPT config env args w =
  (result <- FastGPT.runFastGPT env (fastgptParamsOf config key query args) ;;
   ret (jsonResult result)) w.
Proof.
  intros Hkey Hq. unfold FastGPT.executeFastGPT. rewrite Hkey, Hq. reflexivity.
Qed.

Lemma summarize_execute_two_calls `{WebShared} `{Common}
    (config : option Summarize.Config.t) (env : Env) (args : Json) (w : World)
    (key : string) (res1 res2 : Response) (d1 d2 e1 e2 : Json) :
  let p := Summarize.paramsOf config key args in
  Summarize.Params.cache p = false ->
  Summarize.resolveKagiApiKey env config = Some key ->
  Js.truthyO (readStringParam args "url") <> Js.truthyO (readStringParam args "text") ->
  upstream env (length (requests w)) (Summarize.requestOf p) = Responds res1 ->
  upstream env (S (length (requests w))) (Summarize.requestOf p) = Responds res2 ->
  ok res1 = true -> json res1 = Return d1 ->
  Value.get d1 "error" = Return e1 -> Value.truthy e1 = false ->
  ok res2 = true -> json res2 = Return d2 ->
  Value.get d2 "error" = Return e2 -> Value.truthy e2 = false ->
  let first := Summarize.executeSummarize config env args w in
  let second := Summarize.executeSummarize config env args (snd first) in
  exists pay1 pay2,
    fst first = Return (jsonResult pay1) /\
    fst second = Return (jsonResult pay2) /\
    Value.get pay1 "summary" = Return (summaryOf d1) /\
    Value.get pay2 "summary" = Return (summaryOf d2) /\
    Value.get pay1 "cached" = Return JUndefined /\
    Value.get pay2 "cached" = Return JUndefined /\
    caches (snd second) = caches w /\
    (summaryOf d1 <> summaryOf d2 -> pay1 <> pay2).
Proof.
  intros p Hc Hkey Hone Hu1 Hu2 Hok1 Hj1 He1 Hf1 Hok2 Hj2 He2 Hf2 first second.
  pose proof (summarizeVerdict_success _ _ _ Hok1 Hj1 He1 Hf1) as Hv1.
  pose proof (summarizeVerdict_success _ _ _ Hok2 Hj2 He2 Hf2) as Hv2.
  destruct (summarize_two_calls_cache_off env p w res1 res2 d1 d2 Hc Hu1 Hu2 Hv1 Hv2)
    as (Hr1 & Hr2 & Hframe & Hdiff).
  subst first second.
  rewrite (summarize_execute_runs _ _ _ w _ Hkey Hone).
  rewrite bind_ret_map. fold p. cbn [fst snd].
  rewrite (summarize_execute_runs _ _ _ _ _ Hkey Hone).
  rewrite bind_ret_map. fold p. cbn [fst snd].
  rewrite Hr1, Hr2.
  eexists _, _. repeat split; try reflexivity.
  - exact Hframe.
  - intros Hd Heq. apply Hd. unfold summaryOf.
    unfold Summarize.payloadOf in Heq. inversion Heq. reflexivity.
Qed.

Lemma fastgpt_execute_two_calls `{WebShared} `{Common}
    (config : option FastGPT.Config.t) (env : Env) (args : Json) (w : World)
    (key query : string) (res1 res2 : Response) (d1 d2 e1 e2 r1 r2 : Json) :
  let p := fastgptParamsOf config key query args in
  FastGPT.Params.cache p = false ->
  FastGPT.resolveKagiApiKey env config = Some key ->
  readRequiredStringParam args "query" = Return query ->
  upstream env (length (requests w)) (FastGPT.requestOf p) = Responds res1 ->
  upstream env (S (length (requests w))) (FastGPT.requestOf p) = Responds res2 ->
  ok res1 = true -> json res1 = Return d1 ->
  Value.get d1 "error" = Return e1 -> Value.truthy e1 = false ->
  FastGPT.referencesOf d1 = Return r1 ->
  ok res2 = true -> json res2 = Return d2 ->
  Value.get d2 "error" = Return e2 -> Value.truthy e2 = false ->
  FastGPT.referencesOf d2 = Return r2 ->
  let first := FastGPT.executeFastGPT config env args w in
  let second := FastGPT.executeFastGPT config env args (snd first) in
  exists pay1 pay2,
    fst first = Return (jsonResult pay1) /\
    fst second = Return (jsonResult pay2) /\
    Value.get pay1 "answer" = Return (answerOf d1) /\
    Value.get pay2 "answer" = Return (answerOf d2) /\
    Value.get pay1 "cached" = Return JUndefined /\
    Value.get pay2 "cached" = Return JUndefined /\
    caches (snd second) = caches w /\
    (answerOf d1 <> answerOf d2 -> pay1 <> pay2).
Proof.
  intros p Hc Hkey Hq Hu1 Hu2 Hok1 Hj1 He1 Hf1 Hrf1 Hok2 Hj2 He2 Hf2 Hrf2 first second.
  pose proof (fastgptVerdict_success _ _ _ _ Hok1 Hj1 He1 Hf1 Hrf1) as Hv1.
  pose proof (fastgptVerdict_success _ _ _ _ Hok2 Hj2 He2 Hf2 Hrf2) as Hv2.
  destruct (fastgpt_two_calls_cache_off env p w res1 res2 d1 d2 r1 r2 Hc Hu1 Hu2 Hv1 Hv2)
    as (Hr1 & Hr2 & Hframe & Hdiff).
  subst first second.
  rewrite (fastgpt_execute_runs _ _ _ w _ _ Hkey Hq).
  rewrite bind_ret_map. fold p. cbn [fst snd].
  rewrite (fastgpt_execute_runs _ _ _ _ _ _ Hkey Hq).
  rewrite bind_ret_map. fold p. cbn [fst snd].
  rewrite Hr1, Hr2.
  eexists _, _. repeat split; try reflexivity.
  - exact Hframe.
  - intros Hd Heq. apply Hd. unfold answerOf.
    unfold FastGPT.payloadOf in Heq. inversion Heq. reflexivity.
Qed.

(** C4.  A tool call whose cache flag resolves to false neither reads nor
    writes the store: both caches are the same after the call as before, and
    the outcome is the same whatever the caches hold.  Two such calls in a
    row, the upstream answering each, return the two upstream results, none
    marked [cached], and they differ when the upstream's outputs differ. *)
Theorem cache_disabled_bypasses_store `{WebShared} `{Common}
    (sc : option Summarize.Config.t) (fc : option FastGPT.Config.t)
    (env : Env) (args : Json) (w : World) :
  (default (Summarize.resolveDefaultCache sc) (readBoolParam args "cache") = false ->
   caches (snd (Summarize.executeSummarize sc env args w)) = caches w /\
   (forall c, fst (Summarize.executeSummarize sc env args (withCaches c w)) =
              fst (Summarize.executeSummarize sc env args w)) /\
   (forall key res1 res2 d1 d2 e1 e2,
      let p := Summarize.paramsOf sc key args in
      Summarize.resolveKagiApiKey env sc = Some key ->
      Js.truthyO (readStringParam args "url") <> Js.truthyO (readStringParam args "text") ->
      upstream env (length (requests w)) (Summarize.requestOf p) = Responds res1 ->
      upstream env (S (length (requests w))) (Summarize.requestOf p) = Responds res2 ->
      ok res1 = true -> json res1 = Return d1 ->
      Value.get d1 "error" = Return e1 -> Value.truthy e1 = false ->
      ok res2 = true -> json res2 = Return d2 ->
      Value.get d2 "error" = Return e2 -> Value.truthy e2 = false ->
      let first := Summarize.executeSummarize sc env args w in
      let second := Summarize.executeSummarize sc env args (snd first) in
      exists pay1 pay2,
        fst first = Return (jsonResult pay1) /\
        fst second = Return (jsonResult pay2) /\
        Value.get pay1 "summary" = Return (summaryOf d1) /\
        Value.get pay2 "summary" = Return (summaryOf d2) /\
        Value.get pay1 "cached" = Return JUndefined /\
        Value.get pay2 "cached" = Return JUndefined /\
        caches (snd second) = caches w /\
        (summaryOf d1 <> summaryOf d2 -> pay1 <> pay2))) /\
  (default (FastGPT.resolveDefaultCache fc) (readBoolParam args "cache") = false ->
   caches (snd (FastGPT.executeFastGPT fc env args w)) = caches w /\
   (forall c, fst (FastGPT.executeFastGPT fc env args (withCaches c w)) =
              fst (FastGPT.executeFastGPT fc env args w)) /\
   (forall key query res1 res2 d1 d2 e1 e2 r1 r2,
      let p := fastgptParamsOf fc key query args in
      FastGPT.resolveKagiApiKey env fc = Some key ->
      readRequiredStringParam args "query" = Return query ->
      upstream env (length (requests w)) (FastGPT.requestOf p) = Responds res1 ->
      upstream env (S (length (requests w))) (FastGPT.requestOf p) = Responds res2 ->
      ok res1 = true -> json res1 = Return d1 ->
      Value.get d1 "error" = Return e1 -> Value.truthy e1 = false ->
      FastGPT.referencesOf d1 = Return r1 ->
      ok res2 = true -> json res2 = Return d2 ->
      Value.get d2 "error" = Return e2 -> Value.truthy e2 = false ->
      FastGPT.referencesOf d2 = Return r2 ->
      let first := FastGPT.executeFastGPT fc env args w in
      let second := FastGPT.executeFastGPT fc env args (snd first) in
      exists pay1 pay2,
        fst first = Return (jsonResult pay1) /\
        fst second = Return (jsonResult pay2) /\
        Value.get pay1 "answer" = Return (answerOf d1) /\
        Value.get pay2 "answer" = Return (answerOf d2) /\
        Value.get pay1 "cached" = Return JUndefined /\
        Value.get pay2 "cached" = Return JUndefined /\
        caches (snd second) = caches w /\
        (answerOf d1 <> answerOf d2 -> pay1 <> pay2))).
Proof.
  split.
  - intros Hoff. split; [|split].
    + apply (summarize_execute_cache_off sc env args w (caches w) Hoff).
    + intros c. apply (summarize_execute_cache_off sc env args w c Hoff).
    + intros key res1 res2 d1 d2 e1 e2 p Hkey Hone.
      apply (summarize_execute_two_calls sc env args w key res1 res2 d1 d2 e1 e2 Hoff Hkey Hone).
  - intros Hoff. split; [|split].
    + apply (fastgpt_execute_cache_off fc env args w (caches w) Hoff).
    + intros c. apply (fastgpt_execute_cache_off fc env args w c Hoff).
    + intros key query res1 res2 d1 d2 e1 e2 r1 r2 p Hkey Hq.
      apply (fastgpt_execute_two_calls fc env args w key query res1 res2 d1 d2 e1 e2 r1 r2
               Hoff Hkey Hq).
Qed.

(* ================================================================== *)
(** ** Properties: upstream failures *)
(* ================================================================== *)

(** The lookup of a call, by what the store holds: with the cache off, and
    with no entry under the key, nothing is read, the clock included; an
    entry under the key is read at the next clock reading. *)
Lemma summarizeLookup_cases `{WebShared} (env : Env) (p : Summarize.Params.t) (w : World) :
  let key := normalizeCacheKey (Summarize.cacheKeyInput p) in
  summarizeLookup env p w =
  if Summarize.Params.cache p then
    match SUMMARIZE_CACHE w !! key with
    | None => (Return None, w)
    | Some _ =>
        (Return (fst (readCache (clock env (ticks w)) (SUMMARIZE_CACHE w) key)),
         {| ticks := S (ticks w); requests := requests w;
            SUMMARIZE_CACHE := snd (readCache (clock env (ticks w)) (SUMMARIZE_CACHE w) key);
            FASTGPT_CACHE := FASTGPT_CACHE w |})
    end
  else (Return None, w).
Proof.
  intros key. unfold summarizeLookup, Summarize.readSummarizeCache. fold key.
  destruct (Summarize.Params.cache p); [|reflexivity].
  unfold_m. destruct (SUMMARIZE_CACHE w !! key); [|reflexivity].
  simpl. destruct (readCache _ _ _). reflexivity.
Qed.

Lemma fastgptLookup_cases `{WebShared} (env : Env) (p : FastGPT.Params.t) (w : World) :
  let key := normalizeCacheKey (FastGPT.cacheKeyInput p) in
  fastgptLookup env p w =
  if FastGPT.Params.cache p then
    match FASTGPT_CACHE w !! key with
    | None => (Return None, w)
    | Some _ =>
        (Return (fst (readCache (clock env (ticks w)) (FASTGPT_CACHE w) key)),
         {| ticks := S (ticks w); requests := requests w;
            SUMMARIZE_CACHE := SUMMARIZE_CACHE w;
            FASTGPT_CACHE := snd (readCache (clock env (ticks w)) (FASTGPT_CACHE w) key) |})
    end
  else (Return None, w).
Proof.
  intros key. unfold fastgptLookup, FastGPT.readFastGPTCache. fold key.
  destruct (FastGPT.Params.cache p); [|reflexivity].
  unfold_m. destruct (FASTGPT_CACHE w !! key); [|reflexivity].
  simpl. destruct (readCache _ _ _). reflexivity.
Qed.

Lemma summarizeLookup_returns `{WebShared} (env : Env) (p : Summarize.Params.t) (w : World) :
  exists hit, fst (summarizeLookup env p w) = Return hit /\
              requests (snd (summarizeLookup env p w)) = requests w /\
              FASTGPT_CACHE (snd (summarizeLookup env p w)) = FASTGPT_CACHE w.
Proof.
  rewrite summarizeLookup_cases. cbv zeta.
  destruct (Summarize.Params.cache p); [|by exists None].
  destruct (SUMMARIZE_CACHE w !! _); [|by exists None].
  eexists. by cbn.
Qed.

Lemma fastgptLookup_returns `{WebShared} (env : Env) (p : FastGPT.Params.t) (w : World) :
  exists hit, fst (fastgptLookup env p w) = Return hit /\
              requests (snd (fastgptLookup env p w)) = requests w /\
              SUMMARIZE_CACHE (snd (fastgptLookup env p w)) = SUMMARIZE_CACHE w.
Proof.
  rewrite fastgptLookup_cases. cbv zeta.
  destruct (FastGPT.Params.cache p); [|by exists None].
  destruct (FASTGPT_CACHE w !! _); [|by exists None].
  eexists. by cbn.
Qed.

(** After a lookup that misses with the cache on, the key holds nothing. *)
Lemma summarizeLookup_miss_absent `{WebShared} (env : Env) (p : Summarize.Params.t)
    (w : World) :
  Summarize.Params.cache p = true ->
  fst (summarizeLookup env p w) = Return None ->
  SUMMARIZE_CACHE (snd (summarizeLookup env p w)) !!
    normalizeCacheKey (Summarize.cacheKeyInput p) = None.
Proof.
  intros Hc. rewrite summarizeLookup_cases. cbv zeta. rewrite Hc.
  destruct (SUMMARIZE_CACHE w !! _) eqn:Hk; cbn [fst snd SUMMARIZE_CACHE].
  - intros Heq. apply readCache_miss_absent. by inversion Heq.
  - by intros _.
Qed.

Lemma fastgptLookup_miss_absent `{WebShared} (env : Env) (p : FastGPT.Params.t)
    (w : World) :
  FastGPT.Params.cache p = true ->
  fst (fastgptLookup env p w) = Return None ->
  FASTGPT_CACHE (snd (fastgptLookup env p w)) !!
    normalizeCacheKey (FastGPT.cacheKeyInput p) = None.
Proof.
  intros Hc. rewrite fastgptLookup_cases. cbv zeta. rewrite Hc.
  destruct (FASTGPT_CACHE w !! _) eqn:Hk; cbn [fst snd FASTGPT_CACHE].
  - intros Heq. apply readCache_miss_absent. by inversion Heq.
  - by intros _.
Qed.

Lemma runSummarize_miss `{WebShared} (env : Env) (p : Summarize.Params.t) (w : World) :
  fst (summarizeLookup env p w) = Return None ->
  Summarize.runSummarize env p w =
  Summarize.callUpstream env p (normalizeCacheKey (Summarize.cacheKeyInput p))
    (snd (summarizeLookup env p w)).
Proof.
  unfold Summarize.runSummarize, summarizeLookup. unfold bind at 1.
  destruct (Summarize.Params.cache p).
  - destruct (Summarize.readSummarizeCache env _ w) as [[hit|e] w']; simpl;
      intros Heq; inversion Heq. reflexivity.
  - reflexivity.
Qed.

Lemma runFastGPT_miss `{WebShared} (env : Env) (p : FastGPT.Params.t) (w : World) :
  fst (fastgptLookup env p w) = Return None ->
  FastGPT.runFastGPT env p w =
  FastGPT.callUpstream env p (normalizeCacheKey (FastGPT.cacheKeyInput p))
    (snd (fastgptLookup env p w)).
Proof.
  unfold FastGPT.runFastGPT, fastgptLookup. unfold bind at 1.
  destruct (FastGPT.Params.cache p).
  - destruct (FastGPT.readFastGPTCache env _ w) as [[hit|e] w']; simpl;
      intros Heq; inversion Heq. reflexivity.
  - reflexivity.
Qed.

(** An upstream call that ends in a rejection or an error verdict throws it
    and writes nothing to the caches. *)
Lemma summarize_upstream_failure `{WebShared} (env : Env) (p : Summarize.Params.t)
    (key : string) (w : World) (e : JsError) :
  (upstream env (length (requests w)) (Summarize.requestOf p) = Rejects e \/
   exists res, upstream env (length (requests w)) (Summarize.requestOf p) = Responds res /\
               summarizeVerdict res = Throw e) ->
  Summarize.callUpstream env p key w = (Throw e, sent (Summarize.requestOf p) w).
Proof.
  rewrite summarize_callUpstream_cases. simpl.
  intros [Hrej | (res & Hres & Hv)].
  - rewrite Hrej. reflexivity.
  - rewrite Hres, Hv. reflexivity.
Qed.

Lemma fastgpt_upstream_failure `{WebShared} (env : Env) (p : FastGPT.Params.t)
    (key : string) (w : World) (e : JsError) :
  (upstream env (length (requests w)) (FastGPT.requestOf p) = Rejects e \/
   exists res, upstream env (length (requests w)) (FastGPT.requestOf p) = Responds res /\
               fastgptVerdict res = Throw e) ->
  FastGPT.callUpstream env p key w = (Throw e, sent (FastGPT.requestOf p) w).
Proof.
  rewrite fastgpt_callUpstream_cases. simpl.
  intros [Hrej | (res & Hres & Hv)].
  - rewrite Hrej. reflexivity.
  - rewrite Hres, Hv. reflexivity.
Qed.

Lemma summarizeVerdict_status `{WebShared} (res : Response) :
  ok res = false ->
  summarizeVerdict res = Throw (Error (Summarize.statusErrorMessage res)).
Proof. intros Hok. unfold summarizeVerdict. rewrite Hok. reflexivity. Qed.

Lemma summarizeVerdict_logical `{WebShared} (res : Response) (data err : Json) (msg : string) :
  ok res = true -> json res = Return data ->
  Value.get data "error" = Return err -> Value.truthy err = true ->
  Value.toString (Value.or (Value.getOpt err "msg") (JStr "Unknown error")) = Return msg ->
  summarizeVerdict res = Throw (Error ("Kagi Summarizer API error: " +:+ msg)).
Proof.
  intros Hok Hj He Ht Hm. unfold summarizeVerdict. rewrite Hok, Hj, He, Ht, Hm. reflexivity.
Qed.

Lemma fastgptVerdict_status `{WebShared} (res : Response) :
  ok res = false ->
  fastgptVerdict res = Throw (Error (FastGPT.statusErrorMessage res)).
Proof. intros Hok. unfold fastgptVerdict. rewrite Hok. reflexivity. Qed.

Lemma fastgptVerdict_logical `{WebShared} (res : Response) (data err : Json) (msg : string) :
  ok res = true -> json res = Return data ->
  Value.get data "error" = Return err -> Value.truthy err = true ->
  Value.toString (Value.or (Value.getOpt err "msg") (JStr "Unknown error")) = Return msg ->
  fastgptVerdict res = Throw (Error ("Kagi FastGPT API error: " +:+ msg)).
Proof.
  intros Hok Hj He Ht Hm. unfold fastgptVerdict. rewrite Hok, Hj, He, Ht, Hm. reflexivity.
Qed.

(** A summarize call that is not served from the cache and whose upstream
    call fails with [e] throws [e]; the caches are as the lookup left them. *)
Lemma summarize_execute_failure `{WebShared} `{Common}
    (config : option Summarize.Config.t) (env : Env) (args : Json) (w : World)
    (key : string) (e : JsError) :
  let p := Summarize.paramsOf config key args in
  Summarize.resolveKagiApiKey env config = Some key ->
  Js.truthyO (readStringParam args "url") <> Js.truthyO (readStringParam args "text") ->
  fst (summarizeLookup env p w) = Return None ->
  (upstream env (length (requests w)) (Summarize.requestOf p) = Rejects e \/
   exists res, upstream env (length (requests w)) (Summarize.requestOf p) = Responds res /\
               summarizeVerdict res = Throw e) ->
  fst (Summarize.executeSummarize config env args w) = Throw e /\
  caches (snd (Summarize.executeSummarize config env args w)) =
  caches (snd (summarizeLookup env p w)).
Proof.
  intros p Hkey Hone Hmiss Hfail.
  rewrite (summarize_execute_runs _ _ _ w _ Hkey Hone). fold p.
  rewrite bind_ret_map. rewrite (runSummarize_miss _ _ _ Hmiss).
  destruct (summarizeLookup_returns env p w) as (hit & _ & Hreq & _).
  rewrite <- Hreq in Hfail.
  rewrite (summarize_upstream_failure _ _ _ _ _ Hfail). split; reflexivity.
Qed.

Lemma fastgpt_execute_failure `{WebShared} `{Common}
    (config : option FastGPT.Config.t) (env : Env) (args : Json) (w : World)
    (key query : string) (e : JsError) :
  let p := fastgptParamsOf config key query args in
  FastGPT.resolveKagiApiKey env config = Some key ->
  readRequiredStringParam args "query" = Return query ->
  fst (fastgptLookup env p w) = Return None ->
  (upstream env (length (requests w)) (FastGPT.requestOf p) = Rejects e \/
   exists res, upstream env (length (requests w)) (FastGPT.requestOf p) = Responds res /\
               fastgptVerdict res = Throw e) ->
  fst (FastGPT.executeFastGPT config env args w) = Throw e /\
  caches (snd (FastGPT.executeFastGPT config env args w)) =
  caches (snd (fastgptLookup env p w)).
Proof.
  intros p Hkey Hq Hmiss Hfail.
  rewrite (fastgpt_execute_runs _ _ _ w _ _ Hkey Hq). fold p.
  rewrite bind_ret_map. rewrite (runFastGPT_miss _ _ _ Hmiss).
  destruct (fastgptLookup_returns env p w) as (hit & _ & Hreq & _).
  rewrite <- Hreq in Hfail.
  rewrite (fastgpt_upstream_failure _ _ _ _ _ Hfail). split; reflexivity.
Qed.

(** C1, as amended.  A tool call that is not served from the cache throws on
    each provider-facing failure instead of returning a result: a rejected
    fetch (the timeout's abort among them) is thrown as it is; a status that
    is not 2xx throws an [Error] whose message carries the status and the
    detail text, or the status line when there is no detail; a 2xx body with
    a truthy [error] field throws an [Error] carrying its message.  In each
    case the caches are as the lookup left them: nothing is written. *)
Theorem upstream_failures_are_thrown `{WebShared} `{Common}
    (sc : option Summarize.Config.t) (fc : option FastGPT.Config.t)
    (env : Env) (args : Json) (w : World) (key query : string) :
  (let p := Summarize.paramsOf sc key args in
   let answer := upstream env (length (requests w)) (Summarize.requestOf p) in
   let throws := fun e =>
     fst (Summarize.executeSummarize sc env args w) = Throw e /\
     caches (snd (Summarize.executeSummarize sc env args w)) =
     caches (snd (summarizeLookup env p w)) in
   Summarize.resolveKagiApiKey env sc = Some key ->
   Js.truthyO (readStringParam args "url") <> Js.truthyO (readStringParam args "text") ->
   fst (summarizeLookup env p w) = Return None ->
   (forall e, answer = Rejects e -> throws e) /\
   (forall res, answer = Responds res -> ok res = false ->
      throws (Error ("Kagi Summarizer API error (" +:+ pretty (status res) +:+ "): " +:+
                     (if Js.truthyS (readResponseText res) then readResponseText res
                      else statusText res)))) /\
   (forall res data err msg,
      answer = Responds res -> ok res = true -> json res = Return data ->
      Value.get data "error" = Return err -> Value.truthy err = true ->
      Value.toString (Value.or (Value.getOpt err "msg") (JStr "Unknown error")) = Return msg ->
      throws (Error ("Kagi Summarizer API error: " +:+ msg)))) /\
  (let p := fastgptParamsOf fc key query args in
   let answer := upstream env (length (requests w)) (FastGPT.requestOf p) in
   let throws := fun e =>
     fst (FastGPT.executeFastGPT fc env args w) = Throw e /\
     caches (snd (FastGPT.executeFastGPT fc env args w)) =
     caches (snd (fastgptLookup env p w)) in
   FastGPT.resolveKagiApiKey env fc = Some key ->
   readRequiredStringParam args "query" = Return query ->
   fst (fastgptLookup env p w) = Return None ->
   (forall e, answer = Rejects e -> throws e) /\
   (forall res, answer = Responds res -> ok res = false ->
      throws (Error ("Kagi FastGPT API error (" +:+ pretty (status res) +:+ "): " +:+
                     (if Js.truthyS (readResponseText res) then readResponseText res
                      else statusText res)))) /\
   (forall res data err msg,
      answer = Responds res -> ok res = true -> json res = Return data ->
      Value.get data "error" = Return err -> Value.truthy err = true ->
      Value.toString (Value.or (Value.getOpt err "msg") (JStr "Unknown error")) = Return msg ->
      throws (Error ("Kagi FastGPT API error: " +:+ msg)))).
Proof.
  split.
  - intros p answer throws Hkey Hone Hmiss. subst throws answer. cbv beta.
    split; [|split].
    + intros e Hrej.
      apply (summarize_execute_failure sc env args w key e Hkey Hone Hmiss). by left.
    + intros res Hres Hok.
      apply (summarize_execute_failure sc env args w key _ Hkey Hone Hmiss).
      right. exists res. split; [exact Hres | by apply summarizeVerdict_status].
    + intros res data err msg Hres Hok Hj He Ht Hm.
      apply (summarize_execute_failure sc env args w key _ Hkey Hone Hmiss).
      right. exists res. split; [exact Hres | by eapply summarizeVerdict_logical].
  - intros p answer throws Hkey Hq Hmiss. subst throws answer. cbv beta.
    split; [|split].
    + intros e Hrej.
      apply (fastgpt_execute_failure fc env args w key query e Hkey Hq Hmiss). by left.
    + intros res Hres Hok.
      apply (fastgpt_execute_failure fc env args w key query _ Hkey Hq Hmiss).
      right. exists res. split; [exact Hres | by apply fastgptVerdict_status].
    + intros res data err msg Hres Hok Hj He Ht Hm.
      apply (fastgpt_execute_failure fc env args w key query _ Hkey Hq Hmiss).
      right. exists res. split; [exact Hres | by eapply fastgptVerdict_logical].
Qed.

(** C1, the claim as stated fails: with the upstream answering 500,
    [execute] of the summarize tool throws; it returns no structured result. *)
Lemma summarize_throws_on_http_500 :
  fst (@Summarize.executeSummarize Sample.webShared Sample.common None
         (Sample.envWith (Some "token") (fun _ => Responds Sample.errorResponse))
         (JObj [("url", JStr "https://example.com/a.pdf")]) Sample.world0) =
  Throw (Error "Kagi Summarizer API error (500): Internal Server Error").
Proof. vm_compute. reflexivity. Qed.

Example fastgpt_throws_on_logical_error :
  fst (@FastGPT.executeFastGPT Sample.webShared Sample.common None
         (Sample.envWith (Some "token") (fun _ => Responds Sample.logicalErrorResponse))
         (JObj [("query", JStr "what is rocq"); ("cache", JBool false)]) Sample.world0) =
  Throw (Error "Kagi FastGPT API error: Insufficient credit").
Proof. vm_compute. reflexivity. Qed.

Example summarize_throws_on_timeout :
  fst (@Summarize.executeSummarize Sample.webShared Sample.common None
         (Sample.envWith (Some "token") (fun _ => Rejects AbortError))
         (JObj [("text", JStr "some long text")]) Sample.world0) =
  Throw AbortError.
Proof. vm_compute. reflexivity. Qed.

(* ================================================================== *)
(** ** Properties: the cache store *)
(* ================================================================== *)



(** A call that misses and is answered upstream: what it returns, the
    request it adds, and what its key holds afterwards. *)
Lemma summarize_miss_answered `{WebShared} (env : Env) (p : Summarize.Params.t) (w : World)
    (res : Response) (data : Json) :
  let key := normalizeCacheKey (Summarize.cacheKeyInput p) in
  let w0 := snd (summarizeLookup env p w) in
  let payload :=
    Summarize.payloadOf p (clock env (S (ticks w0)) - clock env (ticks w0)) data in
  Summarize.Params.cache p = true ->
  fst (summarizeLookup env p w) = Return None ->
  upstream env (length (requests w)) (Summarize.requestOf p) = Responds res ->
  summarizeVerdict res = Return data ->
  fst (Summarize.runSummarize env p w) = Return payload /\
  requests (snd (Summarize.runSummarize env p w)) = requests w ++ [Summarize.requestOf p] /\
  SUMMARIZE_CACHE (snd (Summarize.runSummarize env p w)) !! key =
    if Number.leb (Summarize.Params.cacheTtlMs p) (Finite 0) then None
    else Some {| value := payload;
                 expiresAt := Number.add (Finite (clock env (S (S (ticks w0)))))
                                         (Summarize.Params.cacheTtlMs p) |}.
Proof.
  intros key w0 payload Hc Hmiss Hu Hv.
  pose proof (summarizeLookup_miss_absent env p w Hc Hmiss) as Habsent.
  destruct (summarizeLookup_returns env p w) as (hit & _ & Hreq & _).
  rewrite (runSummarize_miss _ _ _ Hmiss). fold key w0 in Habsent, Hreq |- *.
  rewrite summarize_callUpstream_cases. cbv zeta. rewrite Hreq, Hu, Hv, Hc.
  cbn [fst snd requests sent SUMMARIZE_CACHE]. rewrite Hreq.
  split; [reflexivity|]. split; [reflexivity|].
  unfold writeCache. fold payload.
  destruct (Number.leb (Summarize.Params.cacheTtlMs p) (Finite 0));
    [exact Habsent | by rewrite lookup_insert_eq].
Qed.

Lemma fastgpt_miss_answered `{WebShared} (env : Env) (p : FastGPT.Params.t) (w : World)
    (res : Response) (data references : Json) :
  let key := normalizeCacheKey (FastGPT.cacheKeyInput p) in
  let w0 := snd (fastgptLookup env p w) in
  let payload :=
    FastGPT.payloadOf p (clock env (S (ticks w0)) - clock env (ticks w0)) references data in
  FastGPT.Params.cache p = true ->
  fst (fastgptLookup env p w) = Return None ->
  upstream env (length (requests w)) (FastGPT.requestOf p) = Responds res ->
  fastgptVerdict res = Return (data, references) ->
  fst (FastGPT.runFastGPT env p w) = Return payload /\
  requests (snd (FastGPT.runFastGPT env p w)) = requests w ++ [FastGPT.requestOf p] /\
  FASTGPT_CACHE (snd (FastGPT.runFastGPT env p w)) !! key =
    if Number.leb (FastGPT.Params.cacheTtlMs p) (Finite 0) then None
    else Some {| value := payload;
                 expiresAt := Number.add (Finite (clock env (S (S (ticks w0)))))
                                         (FastGPT.Params.cacheTtlMs p) |}.
Proof.
  intros key w0 payload Hc Hmiss Hu Hv.
  pose proof (fastgptLookup_miss_absent env p w Hc Hmiss) as Habsent.
  destruct (fastgptLookup_returns env p w) as (hit & _ & Hreq & _).
  rewrite (runFastGPT_miss _ _ _ Hmiss). fold key w0 in Habsent, Hreq |- *.
  rewrite fastgpt_callUpstream_cases. cbv zeta. rewrite Hreq, Hu, Hv, Hc.
  cbn [fst snd requests sent FASTGPT_CACHE]. rewrite Hreq.
  split; [reflexivity|]. split; [reflexivity|].
  unfold writeCache. fold payload.
  destruct (Number.leb (FastGPT.Params.cacheTtlMs p) (Finite 0));
    [exact Habsent | by rewrite lookup_insert_eq].
Qed.



(* ================================================================== *)
(** ** Properties: the cache keys *)
(* ================================================================== *)

Lemma append_inj_length (a b x y : string) :
  String.length a = String.length b -> a +:+ x = b +:+ y -> a = b /\ x = y.
Proof.
  revert b. induction a as [|c a IH]; intros [|d b] Hlen Heq; simpl in *;
    try discriminate.
  - auto.
  - inversion Heq; subst. destruct (IH b) as [-> ->]; auto.
Qed.

Lemma length_append (a x : string) :
  String.length (a +:+ x) = (String.length a + String.length x)%nat.
Proof. induction a as [|c a IH]; simpl; [reflexivity | by rewrite IH]. Qed.

Lemma append_cancel_r (a b t : string) : a +:+ t = b +:+ t -> a = b.
Proof.
  intros Heq. apply (append_inj_length a b t t); [|exact Heq].
  apply (f_equal String.length) in Heq. rewrite !length_append in Heq. lia.
Qed.

Lemma prefix_length (n : nat) (s : string) :
  (n <= String.length s)%nat -> String.length (Js.prefix n s) = n.
Proof.
  unfold Js.prefix. revert s. induction n as [|n IH]; intros [|c s] Hle; simpl in *;
    try reflexivity; try lia.
  rewrite IH; [reflexivity | lia].
Qed.

(** The hexadecimal digest has sixty-four digits. *)
Lemma digestHex_length (s : string) : String.length (Sha256.digestHex s) = 64%nat.
Proof. reflexivity. Qed.

Lemma digest_prefix_length (s : string) :
  String.length (Js.prefix 16 (Sha256.digestHex s)) = 16%nat.
Proof. apply prefix_length. rewrite digestHex_length. lia. Qed.

Lemma summarize_sourceKey_text (p : Summarize.Params.t) :
  Js.truthyO (Summarize.Params.url p) = false ->
  Summarize.sourceKey p =
  Js.prefix 16 (Sha256.digestHex (Js.orS (Summarize.Params.text p) "")).
Proof. intros Hu. unfold Summarize.sourceKey. rewrite Hu. reflexivity. Qed.

(** C3, as amended.  The key of a call is [normalizeCacheKey] of a string the
    tool builds.  The summarize tool puts into that string, for the text to
    summarize, the first sixteen hexadecimal digits of its SHA-256 and no
    more: the part has sixteen characters whatever the text, the key and
    the lookup depend on the text through it only, and the strings of two
    calls by text agree only when the prefixes of their digests agree.  A
    URL goes into the string as it is, and so does the query of the FastGPT
    tool, whole: the string grows with the query, the strings of two calls
    with the same cache flag agree only when the queries are equal, and two
    calls look up the same entry whenever the normalizer identifies their
    strings. *)
Theorem cache_key_sources `{WebShared} :
  (forall p, Js.truthyO (Summarize.Params.url p) = false ->
     String.length (Summarize.sourceKey p) = 16%nat) /\
  (forall p1 p2 env w,
     Js.truthyO (Summarize.Params.url p1) = false ->
     Js.truthyO (Summarize.Params.url p2) = false ->
     Js.prefix 16 (Sha256.digestHex (Js.orS (Summarize.Params.text p1) "")) =
     Js.prefix 16 (Sha256.digestHex (Js.orS (Summarize.Params.text p2) "")) ->
     Summarize.Params.engine p1 = Summarize.Params.engine p2 ->
     Summarize.Params.summaryType p1 = Summarize.Params.summaryType p2 ->
     Js.orS (Summarize.Params.targetLanguage p1) "auto" =
     Js.orS (Summarize.Params.targetLanguage p2) "auto" ->
     Summarize.Params.cache p1 = Summarize.Params.cache p2 ->
     normalizeCacheKey (Summarize.cacheKeyInput p1) =
     normalizeCacheKey (Summarize.cacheKeyInput p2) /\
     summarizeLookup env p1 w = summarizeLookup env p2 w) /\
  (forall p1 p2,
     Js.truthyO (Summarize.Params.url p1) = false ->
     Js.truthyO (Summarize.Params.url p2) = false ->
     Summarize.cacheKeyInput p1 = Summarize.cacheKeyInput p2 ->
     Js.prefix 16 (Sha256.digestHex (Js.orS (Summarize.Params.text p1) "")) =
     Js.prefix 16 (Sha256.digestHex (Js.orS (Summarize.Params.text p2) ""))) /\
  (forall p u, Summarize.Params.url p = Some u -> u <> "" -> Summarize.sourceKey p = u) /\
  (forall p, String.length (FastGPT.cacheKeyInput p) =
     (14 + String.length (FastGPT.Params.query p) +
      String.length (Js.ofBool (FastGPT.Params.cache p)))%nat) /\
  (forall p1 p2,
     FastGPT.Params.cache p1 = FastGPT.Params.cache p2 ->
     FastGPT.cacheKeyInput p1 = FastGPT.cacheKeyInput p2 ->
     FastGPT.Params.query p1 = FastGPT.Params.query p2) /\
  (forall p1 p2 env w,
     FastGPT.Params.cache p1 = FastGPT.Params.cache p2 ->
     normalizeCacheKey (FastGPT.cacheKeyInput p1) =
     normalizeCacheKey (FastGPT.cacheKeyInput p2) ->
     fastgptLookup env p1 w = fastgptLookup env p2 w).
Proof.
  split; [|split; [|split; [|split; [|split; [|split]]]]].
  - intros p Hu. rewrite (summarize_sourceKey_text _ Hu). apply digest_prefix_length.
  - intros p1 p2 env w Hu1 Hu2 Hdigest Hengine Htype Hlang Hcache.
    assert (Hinput : Summarize.cacheKeyInput p1 = Summarize.cacheKeyInput p2).
    { unfold Summarize.cacheKeyInput.
      rewrite (summarize_sourceKey_text _ Hu1), (summarize_sourceKey_text _ Hu2).
      by rewrite Hdigest, Hengine, Htype, Hlang, Hcache. }
    split; [by rewrite Hinput|].
    unfold summarizeLookup. by rewrite Hinput, Hcache.
  - intros p1 p2 Hu1 Hu2. unfold Summarize.cacheKeyInput.
    rewrite (summarize_sourceKey_text _ Hu1), (summarize_sourceKey_text _ Hu2).
    intros Heq. apply String.app_inj in Heq.
    apply append_inj_length in Heq; [tauto|].
    by rewrite !digest_prefix_length.
  - intros p u Hu Hne. unfold Summarize.sourceKey. rewrite Hu. simpl.
    apply truthyS_true in Hne. rewrite Hne. reflexivity.
  - intros p. unfold FastGPT.cacheKeyInput. rewrite !length_append.
    change (String.length "kagi-fastgpt:") with 13%nat.
    change (String.length ":") with 1%nat. lia.
  - intros p1 p2 Hc. unfold FastGPT.cacheKeyInput. rewrite Hc. intros Heq.
    apply String.app_inj in Heq. by apply append_cancel_r in Heq.
  - intros p1 p2 env w Hc Hkey. unfold fastgptLookup. by rewrite Hkey, Hc.
Qed.

(** C3, the claim as stated fails: the key of a FastGPT call holds the query
    as it is, at its full length, and no digest of it. *)
Lemma fastgpt_key_holds_query_verbatim :
  FastGPT.cacheKeyInput
    {| FastGPT.Params.query := "When was the first proof assistant written, and by whom?";
       FastGPT.Params.apiKey := "token"; FastGPT.Params.cache := true;
       FastGPT.Params.timeoutSeconds := 30; FastGPT.Params.cacheTtlMs := Finite 900000 |} =
  "kagi-fastgpt:When was the first proof assistant written, and by whom?:true".
Proof. reflexivity. Qed.

(** With the sample normalizer, which trims and lower-cases, the result of
    that call is stored under a key that holds the whole query. *)
Example fastgpt_result_is_stored_under_the_query :
  is_Some
    (FASTGPT_CACHE
       (snd (@FastGPT.runFastGPT Sample.webShared Inputs.answering
               (ask "When was the first proof assistant written, and by whom?")
               Sample.world0))
     !! "kagi-fastgpt:when was the first proof assistant written, and by whom?:true").
Proof. eexists. vm_compute. reflexivity. Qed.

Example summarize_key_of_text :
  Summarize.cacheKeyInput
    {| Summarize.Params.url := None; Summarize.Params.text := Some "abc";
       Summarize.Params.engine := "cecil"; Summarize.Params.summaryType := "summary";
       Summarize.Params.targetLanguage := None; Summarize.Params.apiKey := "token";
       Summarize.Params.cache := true; Summarize.Params.timeoutSeconds := 60;
       Summarize.Params.cacheTtlMs := Finite 900000 |} =
  "kagi-summarize:ba7816bf8f01cfea:cecil:summary:auto:true".
Proof. vm_compute. reflexivity. Qed.

(* ================================================================== *)
(** ** Properties: the Postmark webhook *)
(* ================================================================== *)

Lemma toString_scalar (v : Json) : scalar v = true -> exists s, Value.toString v = Return s.
Proof. destruct v; simpl; try discriminate; eauto. Qed.

Lemma or_scalar (a b : Json) : scalar a = true -> scalar b = true -> scalar (Value.or a b) = true.
Proof. unfold Value.or. destruct (Value.truthy a); auto. Qed.

Lemma textBodyOf_string (email : Json) :
  stringOrAbsent (Value.getOpt email "StrippedTextReply") = true ->
  stringOrAbsent (Value.getOpt email "TextBody") = true ->
  exists s, Postmark.textBodyOf email = JStr s.
Proof.
  unfold Postmark.textBodyOf.
  destruct (Value.getOpt email "StrippedTextReply") as [| |?|?|s| |]; try discriminate;
    destruct (Value.getOpt email "TextBody") as [| |?|?|t| |]; try discriminate;
    intros _ _; unfold Value.or; simpl;
    try (destruct s; simpl); try (destruct t; simpl); eauto.
Qed.

(** The stripped reply is preferred, then the full text body. *)
Lemma textBodyOf_prefers_reply (email : Json) (reply : string) :
  Value.getOpt email "StrippedTextReply" = JStr reply -> reply <> "" ->
  Postmark.textBodyOf email = JStr reply.
Proof.
  intros Hr Hne. unfold Postmark.textBodyOf, Value.or. rewrite Hr. simpl.
  apply truthyS_true in Hne. rewrite Hne. simpl. rewrite Hne. reflexivity.
Qed.

Lemma excerpt_short (s : string) :
  (String.length s <= 1000)%nat -> Postmark.excerpt s = Js.prefix 1000 s +:+ "".
Proof.
  intros Hle. unfold Postmark.excerpt.
  destruct (Nat.ltb_spec 1000 (String.length s)); [lia | reflexivity].
Qed.

Lemma excerpt_long (s : string) :
  (1000 < String.length s)%nat ->
  Postmark.excerpt s = Js.prefix 1000 s +:+ "..." /\
  String.length (Postmark.excerpt s) = 1003%nat.
Proof.
  intros Hlt. unfold Postmark.excerpt.
  destruct (Nat.ltb_spec 1000 (String.length s)); [|lia].
  split; [reflexivity|]. rewrite length_append, prefix_length; [reflexivity | lia].
Qed.

Lemma formatMessage_shaped (email : Json) :
  postmarkShaped email = true -> exists message, Postmark.formatMessage email = Return message.
Proof.
  unfold postmarkShaped. destruct email as [| |?|?|?|?|fields]; try discriminate.
  intros Hshape. repeat (apply andb_prop in Hshape as [Hshape ?]).
  unfold Postmark.formatMessage.
  change (Value.get (JObj fields) "Subject")
    with (Return (Value.getOpt (JObj fields) "Subject")).
  destruct (toString_scalar _ Hshape) as [subject ->].
  destruct (toString_scalar (Value.getOpt (JObj fields) "From")) as [from ->]; [assumption|].
  destruct (toString_scalar
              (Value.or (Value.getOpt (Value.getOpt (JObj fields) "FromFull") "Name")
                        (Value.getOpt (JObj fields) "From"))) as [sender ->];
    [by apply or_scalar|].
  destruct (textBodyOf_string (JObj fields)) as [textBody ->]; [assumption..|].
  eauto.
Qed.

Section Handler.
Context `{JsRuntime}.
Variables (req : Postmark.IncomingMessage) (st : Postmark.HandlerState).

Lemma handler_other_path (pathname : string) :
  URL_pathname (default "/" (Postmark.url req)) = Some pathname ->
  pathname <> "/webhooks/postmark" ->
  Postmark.handler req st = (Return false, st).
Proof.
  intros Hp Hne. unfold Postmark.handler. rewrite Hp.
  destruct (String.eqb_spec pathname "/webhooks/postmark"); [contradiction | reflexivity].
Qed.

Lemma handler_wrong_method :
  URL_pathname (default "/" (Postmark.url req)) = Some "/webhooks/postmark" ->
  Postmark.method req <> Some "POST" ->
  Postmark.handler req st =
  (Return true, responded 405 (JObj [("error", JStr "Method not allowed")]) st).
Proof.
  intros Hp Hm. unfold Postmark.handler. rewrite Hp. simpl.
  rewrite bool_decide_eq_false_2 by exact Hm. reflexivity.
Qed.

(** A POST to the path: the answer follows what reading the body and
    building the message give. *)
Lemma handler_post :
  URL_pathname (default "/" (Postmark.url req)) = Some "/webhooks/postmark" ->
  Postmark.method req = Some "POST" ->
  Postmark.handler req st =
  (Return true,
   match Postmark.readJsonBody req with
   | Return email =>
       match Postmark.formatMessage email with
       | Return _ =>
           responded 200 (JObj [("ok", JBool true);
                                ("messageId", Value.getOpt email "MessageID")]) st
       | Throw _ => responded 400 (JObj [("error", JStr "Invalid payload")]) st
       end
   | Throw _ => responded 400 (JObj [("error", JStr "Invalid payload")]) st
   end).
Proof.
  intros Hp Hm. unfold Postmark.handler. rewrite Hp. simpl.
  rewrite bool_decide_eq_true_2 by exact Hm. simpl.
  unfold tryCatch, bind, lift, responded.
  destruct (Postmark.readJsonBody req) as [email|e]; [|reflexivity].
  destruct (Postmark.formatMessage email) as [message|e]; reflexivity.
Qed.

(** Whatever the request, nothing is handed to the messaging sink. *)
Lemma handler_sends_nothing :
  Postmark.sentToTelegram (snd (Postmark.handler req st)) = Postmark.sentToTelegram st.
Proof.
  unfold Postmark.handler.
  destruct (URL_pathname _) as [pathname|]; [|reflexivity].
  destruct (negb (String.eqb pathname "/webhooks/postmark")); [reflexivity|].
  destruct (negb (bool_decide _)); [reflexivity|].
  unfold tryCatch, bind, lift.
  destruct (Postmark.readJsonBody req) as [email|e]; [|reflexivity].
  destruct (Postmark.formatMessage email) as [message|e]; reflexivity.
Qed.

End Handler.

(** C7, as amended.  A request whose path is not [/webhooks/postmark] is not
    claimed and the response is left untouched.  On that path the request is
    always claimed: a method other than POST is answered 405
    [{error: "Method not allowed"}]; a POST whose body is JSON from which the
    message can be built (every email of the expected shape is) is answered
    200 [{ok: true, messageId}] with the payload's [MessageID]; a POST whose
    body is not valid JSON, whose stream fails, or from whose payload the
    message cannot be built is answered 400 [{error: "Invalid payload"}]. *)
Theorem postmark_handler_responses `{JsRuntime}
    (req : Postmark.IncomingMessage) (st : Postmark.HandlerState) :
  (forall pathname,
     URL_pathname (default "/" (Postmark.url req)) = Some pathname ->
     pathname <> "/webhooks/postmark" ->
     Postmark.handler req st = (Return false, st)) /\
  (URL_pathname (default "/" (Postmark.url req)) = Some "/webhooks/postmark" ->
   fst (Postmark.handler req st) = Return true /\
   (Postmark.method req <> Some "POST" ->
    snd (Postmark.handler req st) =
    responded 405 (JObj [("error", JStr "Method not allowed")]) st) /\
   (Postmark.method req = Some "POST" ->
    (forall email message,
       Postmark.streamError req = None ->
       JSON_parse (bodyText req) = Some email ->
       Postmark.formatMessage email = Return message ->
       snd (Postmark.handler req st) =
       responded 200 (JObj [("ok", JBool true);
                            ("messageId", Value.getOpt email "MessageID")]) st) /\
    (forall email,
       postmarkShaped email = true ->
       exists message, Postmark.formatMessage email = Return message) /\
    (Postmark.streamError req = None ->
     JSON_parse (bodyText req) = None ->
     snd (Postmark.handler req st) =
     responded 400 (JObj [("error", JStr "Invalid payload")]) st) /\
    (forall e,
       Postmark.streamError req = Some e ->
       snd (Postmark.handler req st) =
       responded 400 (JObj [("error", JStr "Invalid payload")]) st) /\
    (forall email e,
       Postmark.streamError req = None ->
       JSON_parse (bodyText req) = Some email ->
       Postmark.formatMessage email = Throw e ->
       snd (Postmark.handler req st) =
       responded 400 (JObj [("error", JStr "Invalid payload")]) st))).
Proof.
  split; [intros pathname; apply handler_other_path|].
  intros Hp. split; [|split].
  - destruct (decide (Postmark.method req = Some "POST")) as [Hm|Hm].
    + by rewrite (handler_post req st Hp Hm).
    + by rewrite (handler_wrong_method req st Hp Hm).
  - intros Hm. by rewrite (handler_wrong_method req st Hp Hm).
  - intros Hm. rewrite (handler_post req st Hp Hm). unfold Postmark.readJsonBody.
    fold (bodyText req). cbn [snd].
    split; [|split; [|split; [|split]]].
    + intros email message -> -> ->. reflexivity.
    + apply formatMessage_shaped.
    + intros -> ->. reflexivity.
    + intros e ->. reflexivity.
    + intros email e -> -> ->. reflexivity.
Qed.

(** C7, the claim as stated fails: the body [null] is valid JSON, and a POST
    of it is answered 400, since reading [email.Subject] throws. *)
Lemma postmark_json_null_is_answered_400 :
  @JSON_parse Sample.runtime "null" = Some JNull /\
  @Postmark.handler Sample.runtime
    {| Postmark.url := Some "/webhooks/postmark"; Postmark.method := Some "POST";
       Postmark.chunks := [Sample.bytes "nu"; Sample.bytes "ll"];
       Postmark.streamError := None |}
    {| Postmark.res := {| Postmark.statusCode := 200; Postmark.headers := [];
                          Postmark.ended := None |};
       Postmark.sentToTelegram := [] |} =
  (Return true,
   {| Postmark.res :=
        {| Postmark.statusCode := 400;
           Postmark.headers := [("Content-Type", "application/json; charset=utf-8")];
           Postmark.ended := Some (JObj [("error", JStr "Invalid payload")]) |};
      Postmark.sentToTelegram := [] |}).
Proof. split; reflexivity. Qed.

(** C8.  The handler builds the message and hands nothing to the messaging
    sink, whatever the request; the hook transform returns a dump of the raw
    payload, whatever the payload. *)
Theorem postmark_message_is_not_forwarded `{JsRuntime}
    (req : Postmark.IncomingMessage) (st : Postmark.HandlerState)
    (stringify2 : Json -> string) (payload : Json) :
  Postmark.sentToTelegram (snd (Postmark.handler req st)) = Postmark.sentToTelegram st /\
  Postmark.transform stringify2 payload =
  JObj [("message",
         JStr ("🔍 **DEBUG: Raw Postmark Payload**" +:+ Js.LF +:+ Js.LF +:+
               "```json" +:+ Js.LF +:+ stringify2 payload +:+ Js.LF +:+ "```"))].
Proof. split; [apply handler_sends_nothing | reflexivity]. Qed.

(** The sample email is answered 200 with its message id, its message is the
    formatted one, and the sink stays empty. *)
Example postmark_sample_email :
  let req := {| Postmark.url := Some "/webhooks/postmark"; Postmark.method := Some "POST";
                Postmark.chunks := [Sample.bytes Sample.emailText];
                Postmark.streamError := None |} in
  let st := {| Postmark.res := {| Postmark.statusCode := 200; Postmark.headers := [];
                                  Postmark.ended := None |};
               Postmark.sentToTelegram := [] |} in
  @Postmark.handler Sample.runtime req st =
  (Return true,
   {| Postmark.res :=
        {| Postmark.statusCode := 200;
           Postmark.headers := [("Content-Type", "application/json; charset=utf-8")];
           Postmark.ended :=
             Some (JObj [("ok", JBool true);
                         ("messageId", JStr "b7bc2f4a-e38e-4336-af7d-e6c392c2f817")]) |};
      Postmark.sentToTelegram := [] |}) /\
  Postmark.formatMessage Sample.email =
  Return (Js.join Js.LF ["📧 **New Email**"; ""; "**From:** Ann"; "**Subject:** Hello"; "";
                         "Hi there"]).
Proof. split; reflexivity. Qed.

(* ================================================================== *)
(** ** The theorems at sample inputs *)
(* ================================================================== *)

(** C9 at sample inputs: a configuration that disables the summarizer, though
    it holds a key and the caller is sandboxed; a FastGPT section with a
    blank key, no key in the environment and no sandbox; and a section with
    a key, from which a tool is built. *)
Lemma create_tool_none_iff_witness :
  @Summarize.createKagiSummarizeTool Sample.webShared Sample.common Inputs.answering
    (Inputs.summarizerOptions (Some Inputs.disabled) (Some true)) = None /\
  @FastGPT.createKagiFastGPTTool Sample.webShared Sample.common Witness.keyless
    (Inputs.fastgptOptions (Inputs.fastgpt (Some "   ") None None) None) = None /\
  @Summarize.createKagiSummarizeTool Sample.webShared Sample.common Witness.keyless
    (Inputs.summarizerOptions (Inputs.summarizer (Some " cfg-key ") None None) None) <> None.
Proof.
  split; [|split].
  - apply (proj1 (@create_tool_none_iff Sample.webShared Sample.common Inputs.answering
                    (Inputs.summarizerOptions (Some Inputs.disabled) (Some true)) None)).
    left. exists Inputs.disabled. split; [|reflexivity].
    unfold summarizerSection, Inputs.summarizerOptions. eexists _, _, _, _.
    repeat split; reflexivity.
  - apply (proj2 (@create_tool_none_iff Sample.webShared Sample.common Witness.keyless None
                    (Inputs.fastgptOptions (Inputs.fastgpt (Some "   ") None None) None))).
    right. split; [|split; [reflexivity | discriminate]].
    intros section (o & c & t & w & Ho & Hc & Ht & Hw & Hs).
    inversion Ho; subst o. simpl in Hc. inversion Hc; subst c. simpl in Ht.
    inversion Ht; subst t. simpl in Hw. inversion Hw; subst w. simpl in Hs.
    inversion Hs; subst section. reflexivity.
  - intros Hnone.
    apply (proj1 (@create_tool_none_iff Sample.webShared Sample.common Witness.keyless
                    (Inputs.summarizerOptions (Inputs.summarizer (Some " cfg-key ") None None)
                                              None) None)) in Hnone.
    destruct Hnone as [(section & Hsec & Hoff) | (Hblank & _)].
    + destruct Hsec as (o & c & t & w & Ho & Hc & Ht & Hw & Hs).
      inversion Ho; subst o. simpl in Hc. inversion Hc; subst c. simpl in Ht.
      inversion Ht; subst t. simpl in Hw. inversion Hw; subst w. simpl in Hs.
      inversion Hs; subst section. discriminate.
    + assert (Hkey : Js.trim " cfg-key " = "").
      { apply (Hblank {| Summarize.Config.enabled := None;
                         Summarize.Config.apiKey := Some " cfg-key ";
                         Summarize.Config.timeoutSeconds := None;
                         Summarize.Config.cacheTtlMinutes := None;
                         Summarize.Config.cache := None; Summarize.Config.engine := None;
                         Summarize.Config.summaryType := None;
                         Summarize.Config.targetLanguage := None |}).
        unfold summarizerSection, Inputs.summarizerOptions. eexists _, _, _, _.
        repeat split; reflexivity. }
      discriminate.
Defined.

(** C10 at a sample input: both tools, built sandboxed with no key anywhere. *)
Lemma sandboxed_call_reports_missing_key_witness :
  (exists tool,
     @Summarize.createKagiSummarizeTool Sample.webShared Sample.common Witness.keyless
       Witness.sandboxedSummarize = Some tool /\
     execute tool Witness.keyless Witness.oddEnums Sample.world0 =
     (Return Summarize.missingKeyResult, Sample.world0)) /\
  (exists tool,
     @FastGPT.createKagiFastGPTTool Sample.webShared Sample.common Witness.keyless
       Witness.sandboxedFastGPT = Some tool /\
     execute tool Witness.keyless Witness.byQuery Sample.world0 =
     (Return FastGPT.missingKeyResult, Sample.world0)).
Proof.
  split.
  - apply (proj1 (@sandboxed_call_reports_missing_key Sample.webShared Sample.common
                    Witness.keyless Witness.keyless Witness.sandboxedSummarize
                    Witness.sandboxedFastGPT Witness.oddEnums Sample.world0)).
    + reflexivity.
    + discriminate.
    + split; reflexivity.
    + split; reflexivity.
  - apply (proj1 (proj2 (@sandboxed_call_reports_missing_key Sample.webShared Sample.common
                    Witness.keyless Witness.keyless Witness.sandboxedSummarize
                    Witness.sandboxedFastGPT Witness.byQuery Sample.world0))).
    + reflexivity.
    + discriminate.
    + split; reflexivity.
    + split; reflexivity.
Defined.

(** C5 at sample inputs: no source at all, and both sources at once. *)
Lemma summarize_input_exclusivity_witness :
  @Summarize.executeSummarize Sample.webShared Sample.common None Witness.twoAnswers
    (JObj [("engine", JStr "cecil")]) Sample.world0 =
  (Return Summarize.missingInputResult, Sample.world0) /\
  @Summarize.executeSummarize Sample.webShared Sample.common None Witness.twoAnswers
    (JObj [("url", JStr "https://example.com"); ("text", JStr "abc")]) Sample.world0 =
  (Return Summarize.conflictingInputResult, Sample.world0).
Proof.
  split.
  - apply (proj1 (@summarize_input_exclusivity Sample.webShared Sample.common None
                    Witness.twoAnswers (JObj [("engine", JStr "cecil")]) Sample.world0
                    "token" eq_refl)); reflexivity.
  - apply (proj1 (proj2 (@summarize_input_exclusivity Sample.webShared Sample.common None
                    Witness.twoAnswers
                    (JObj [("url", JStr "https://example.com"); ("text", JStr "abc")])
                    Sample.world0 "token" eq_refl))); reflexivity.
Defined.

(** C6 at sample inputs: three unknown enumerated values against a
    configuration with defaults of its own, and against no configuration. *)
Lemma summarize_enum_fallback_witness :
  let p := @Summarize.paramsOf Sample.webShared Sample.common Witness.agnesByDefault
             "token" Witness.oddEnums in
  let q := @Summarize.paramsOf Sample.webShared Sample.common None
             "token" Witness.oddEnums in
  (Summarize.Params.engine p = "agnes" /\
   Summarize.Params.summaryType p = "takeaway" /\
   Summarize.Params.targetLanguage p = Some "JA") /\
  (Summarize.Params.engine q = "cecil" /\
   Summarize.Params.summaryType q = "summary" /\
   Summarize.Params.targetLanguage q = None).
Proof.
  intros p q. split.
  - destruct (@summarize_enum_fallback Sample.webShared Sample.common Witness.agnesByDefault
                Witness.twoAnswers Witness.oddEnums Sample.world0 "token")
      as (_ & Hengine & Htype & Hlang).
    + reflexivity.
    + discriminate.
    + split; [|split].
      * destruct Hengine as (_ & _ & Hconfigured & _).
        -- intros e He. vm_compute in He. inversion He. reflexivity.
        -- apply (Hconfigured "agnes" eq_refl). right. left. reflexivity.
      * destruct Htype as (_ & _ & Hconfigured & _).
        -- intros t Ht. vm_compute in Ht. inversion Ht. reflexivity.
        -- apply (Hconfigured "takeaway" eq_refl). right. left. reflexivity.
      * destruct Hlang as (_ & _ & Hconfigured & _).
        -- intros l Hl. vm_compute in Hl. inversion Hl. reflexivity.
        -- apply (Hconfigured "ja" eq_refl). apply includes_In. reflexivity.
  - destruct (@summarize_enum_fallback Sample.webShared Sample.common None
                Witness.twoAnswers Witness.oddEnums Sample.world0 "token")
      as (_ & Hengine & Htype & Hlang).
    + reflexivity.
    + discriminate.
    + split; [|split].
      * destruct Hengine as (_ & _ & _ & Hbuiltin).
        -- intros e He. vm_compute in He. inversion He. reflexivity.
        -- apply Hbuiltin. intros e He. discriminate.
      * destruct Htype as (_ & _ & _ & Hbuiltin).
        -- intros t Ht. vm_compute in Ht. inversion Ht. reflexivity.
        -- apply Hbuiltin. intros t Ht. discriminate.
      * destruct Hlang as (_ & _ & _ & Hbuiltin).
        -- intros l Hl. vm_compute in Hl. inversion Hl. reflexivity.
        -- apply Hbuiltin. intros raw Hraw. discriminate.
Defined.


(** C4 at a sample input: two summarize calls in a row with [cache: false]
    against an upstream that answers them differently. *)
Lemma cache_disabled_bypasses_store_witness :
  let first := @Summarize.executeSummarize Sample.webShared Sample.common None
                 Witness.twoAnswers Witness.byText Sample.world0 in
  let second := @Summarize.executeSummarize Sample.webShared Sample.common None
                  Witness.twoAnswers Witness.byText (snd first) in
  caches (snd first) = caches Sample.world0 /\
  exists pay1 pay2,
    fst first = Return pay1 /\ fst second = Return pay2 /\
    Value.get pay1 "summary" = Return (JStr "first answer") /\
    Value.get pay2 "summary" = Return (JStr "second answer") /\
    caches (snd second) = caches Sample.world0 /\ pay1 <> pay2.
Proof.
  intros first second.
  destruct (proj1 (@cache_disabled_bypasses_store Sample.webShared Sample.common None None
                     Witness.twoAnswers Witness.byText Sample.world0) eq_refl)
    as (Hframe & _ & Htwo).
  split; [exact Hframe|].
  destruct (Htwo "token" (Sample.okResponse "first answer")
                 (Sample.okResponse "second answer") _ _ JUndefined JUndefined
                 eq_refl ltac:(discriminate) eq_refl eq_refl
                 eq_refl eq_refl eq_refl eq_refl eq_refl eq_refl eq_refl eq_refl)
    as (pay1 & pay2 & H1 & H2 & Hs1 & Hs2 & _ & _ & Hc & Hdiff).
  exists pay1, pay2. repeat split; try assumption.
  apply Hdiff. discriminate.
Defined.

(** C1 at sample inputs: a 500 answer to the summarize tool, a timeout of the
    FastGPT tool. *)
Lemma upstream_failures_are_thrown_witness :
  fst (@Summarize.executeSummarize Sample.webShared Sample.common None Witness.failing
         Witness.byText Sample.world0) =
    Throw (Error "Kagi Summarizer API error (500): Internal Server Error") /\
  fst (@FastGPT.executeFastGPT Sample.webShared Sample.common None Witness.keylessUpstream
         Witness.byQuery Sample.world0) = Throw AbortError.
Proof.
  split.
  - destruct (proj1 (@upstream_failures_are_thrown Sample.webShared Sample.common None None
                       Witness.failing Witness.byText Sample.world0 "token" "")
                    eq_refl ltac:(discriminate) eq_refl) as (_ & Hstatus & _).
    exact (proj1 (Hstatus Sample.errorResponse eq_refl eq_refl)).
  - destruct (proj2 (@upstream_failures_are_thrown Sample.webShared Sample.common None None
                       Witness.keylessUpstream Witness.byQuery Sample.world0 "token"
                       "what is rocq")
                    eq_refl eq_refl eq_refl) as (Hreject & _).
    exact (proj1 (Hreject AbortError eq_refl)).
Defined.

(** Two texts of a hundred and twenty-one characters that share the first
    hundred and twenty have digests that part within sixteen digits. *)
Lemma long_texts_digests_differ :
  Js.prefix 16 (Sha256.digestHex (times 12 "0123456789" +:+ "A")) <>
  Js.prefix 16 (Sha256.digestHex (times 12 "0123456789" +:+ "B")).
Proof. vm_compute. discriminate. Qed.

(** C3 at sample inputs: the length of the digest part, two long texts with
    a long common prefix, two queries, and two spellings of a query that
    the sample normalizer identifies. *)
Lemma cache_key_sources_witness :
  String.length (Summarize.sourceKey (summarizeText "abc")) = 16%nat /\
  Summarize.cacheKeyInput (summarizeText (times 12 "0123456789" +:+ "A")) <>
  Summarize.cacheKeyInput (summarizeText (times 12 "0123456789" +:+ "B")) /\
  FastGPT.cacheKeyInput (ask "what is rocq") <> FastGPT.cacheKeyInput (ask "what is coq") /\
  FastGPT.cacheKeyInput (ask "What is Rocq") <> FastGPT.cacheKeyInput (ask "what is rocq") /\
  @fastgptLookup Sample.webShared Inputs.answering (ask "What is Rocq")
    (Inputs.holding (Inputs.stored 1700000000100)) =
  @fastgptLookup Sample.webShared Inputs.answering (ask "what is rocq")
    (Inputs.holding (Inputs.stored 1700000000100)).
Proof.
  destruct (@cache_key_sources Sample.webShared)
    as (Htext & _ & Hshare & _ & _ & Hquery & Hfold).
  split; [|split; [|split; [|split]]].
  - exact (Htext (summarizeText "abc") eq_refl).
  - intros Heq. apply long_texts_digests_differ.
    exact (Hshare (summarizeText (times 12 "0123456789" +:+ "A"))
                  (summarizeText (times 12 "0123456789" +:+ "B")) eq_refl eq_refl Heq).
  - intros Heq.
    apply (Hquery (ask "what is rocq") (ask "what is coq") eq_refl) in Heq. discriminate.
  - intros Heq.
    apply (Hquery (ask "What is Rocq") (ask "what is rocq") eq_refl) in Heq. discriminate.
  - apply Hfold; reflexivity.
Defined.

(** C7 at sample inputs: another path, a GET, the sample email, a body that
    is no JSON. *)
Lemma postmark_handler_responses_witness :
  @Postmark.handler Sample.runtime
    {| Postmark.url := Some "/health"; Postmark.method := Some "GET";
       Postmark.chunks := []; Postmark.streamError := None |} Witness.freshResponse =
    (Return false, Witness.freshResponse) /\
  snd (@Postmark.handler Sample.runtime
         {| Postmark.url := Some "/webhooks/postmark"; Postmark.method := Some "GET";
            Postmark.chunks := []; Postmark.streamError := None |} Witness.freshResponse) =
    responded 405 (JObj [("error", JStr "Method not allowed")]) Witness.freshResponse /\
  snd (@Postmark.handler Sample.runtime (Witness.post [Sample.emailText])
         Witness.freshResponse) =
    responded 200 (JObj [("ok", JBool true);
                         ("messageId", JStr "b7bc2f4a-e38e-4336-af7d-e6c392c2f817")])
              Witness.freshResponse /\
  snd (@Postmark.handler Sample.runtime (Witness.post ["not json"]) Witness.freshResponse) =
    responded 400 (JObj [("error", JStr "Invalid payload")]) Witness.freshResponse.
Proof.
  split; [|split; [|split]].
  - apply (proj1 (@postmark_handler_responses Sample.runtime
                    {| Postmark.url := Some "/health"; Postmark.method := Some "GET";
                       Postmark.chunks := []; Postmark.streamError := None |}
                    Witness.freshResponse) "/health"); [reflexivity | discriminate].
  - apply (proj2 (@postmark_handler_responses Sample.runtime
                    {| Postmark.url := Some "/webhooks/postmark";
                       Postmark.method := Some "GET";
                       Postmark.chunks := []; Postmark.streamError := None |}
                    Witness.freshResponse) eq_refl). discriminate.
  - destruct (proj2 (@postmark_handler_responses Sample.runtime
                       (Witness.post [Sample.emailText]) Witness.freshResponse) eq_refl)
      as (_ & _ & Hpost).
    destruct (Hpost eq_refl) as (Hok & Hshaped & _).
    destruct (Hshaped Sample.email eq_refl) as [message Hmessage].
    exact (Hok Sample.email message eq_refl eq_refl Hmessage).
  - destruct (proj2 (@postmark_handler_responses Sample.runtime
                       (Witness.post ["not json"]) Witness.freshResponse) eq_refl)
      as (_ & _ & Hpost).
    destruct (Hpost eq_refl) as (_ & _ & Hinvalid & _).
    exact (Hinvalid eq_refl eq_refl).
Defined.


(* ================================================================== *)
(** ** Further properties: configuration *)
(* ================================================================== *)

Lemma trimStart_head (s : string) :
  Js.trimStart s = "" \/
  exists c r, Js.trimStart s = String c r /\ Js.isSpace c = false.
Proof.
  induction s as [|c s IH]; simpl; [by left|].
  destruct (Js.isSpace c) eqn:Hc; [exact IH|]. right. eauto.
Qed.

Lemma trimEnd_cons (c : ascii) (r : string) :
  Js.isSpace c = false -> Js.trimEnd (String c r) = String c (Js.trimEnd r).
Proof. intros Hc. simpl. rewrite Hc. destruct (Js.trimEnd r); reflexivity. Qed.

Lemma trimEnd_idempotent (s : string) : Js.trimEnd (Js.trimEnd s) = Js.trimEnd s.
Proof.
  induction s as [|c s IH]; simpl; [reflexivity|].
  destruct (Js.trimEnd s) as [|d r] eqn:Hs.
  - destruct (Js.isSpace c) eqn:Hc; simpl; [reflexivity | by rewrite Hc].
  - change (Js.trimEnd (String c (String d r))) with
      (match Js.trimEnd (String d r) with
       | "" => if Js.isSpace c then "" else String c ""
       | r' => String c r'
       end).
    rewrite IH. reflexivity.
Qed.

(** Trimming twice is trimming once. *)
Lemma trim_idempotent (s : string) : Js.trim (Js.trim s) = Js.trim s.
Proof.
  unfold Js.trim. destruct (trimStart_head s) as [-> | (c & r & -> & Hc)];
    [reflexivity|].
  rewrite (trimEnd_cons _ _ Hc). simpl. rewrite Hc.
  rewrite <- (trimEnd_cons _ _ Hc). apply trimEnd_idempotent.
Qed.

Lemma summarize_key_cases (env : Env) (c : option Summarize.Config.t) :
  Summarize.resolveKagiApiKey env c =
  if Js.truthyS (Js.trim (default "" (c ≫= Summarize.Config.apiKey)))
  then Some (Js.trim (default "" (c ≫= Summarize.Config.apiKey)))
  else if Js.truthyS (Js.trim (default "" (KAGI_API_KEY env)))
       then Some (Js.trim (default "" (KAGI_API_KEY env)))
       else None.
Proof.
  unfold Summarize.resolveKagiApiKey.
  destruct (c ≫= Summarize.Config.apiKey) as [k|]; simpl; [|reflexivity].
  destruct (Js.truthyS (Js.trim k)); reflexivity.
Qed.

Lemma fastgpt_key_cases (env : Env) (c : option FastGPT.Config.t) :
  FastGPT.resolveKagiApiKey env c =
  if Js.truthyS (Js.trim (default "" (c ≫= FastGPT.Config.apiKey)))
  then Some (Js.trim (default "" (c ≫= FastGPT.Config.apiKey)))
  else if Js.truthyS (Js.trim (default "" (KAGI_API_KEY env)))
       then Some (Js.trim (default "" (KAGI_API_KEY env)))
       else None.
Proof.
  unfold FastGPT.resolveKagiApiKey.
  destruct (c ≫= FastGPT.Config.apiKey) as [k|]; simpl; [|reflexivity].
  destruct (Js.truthyS (Js.trim k)); reflexivity.
Qed.

(** X1.  The credential either tool resolves is never empty and carries no
    white space around it; a configured key that is not blank wins over the
    environment variable, which is used only when the configured key is
    blank or absent; and both tools resolve the same key from the same
    configured key and environment. *)
Theorem credential_resolution (env : Env) (sc : option Summarize.Config.t)
    (fc : option FastGPT.Config.t) :
  (forall k, Summarize.resolveKagiApiKey env sc = Some k -> k <> "" /\ Js.trim k = k) /\
  (forall k, FastGPT.resolveKagiApiKey env fc = Some k -> k <> "" /\ Js.trim k = k) /\
  (forall k, sc ≫= Summarize.Config.apiKey = Some k -> Js.trim k <> "" ->
     Summarize.resolveKagiApiKey env sc = Some (Js.trim k)) /\
  (Js.trim (default "" (sc ≫= Summarize.Config.apiKey)) = "" ->
   forall v, KAGI_API_KEY env = Some v -> Js.trim v <> "" ->
     Summarize.resolveKagiApiKey env sc = Some (Js.trim v)) /\
  (sc ≫= Summarize.Config.apiKey = fc ≫= FastGPT.Config.apiKey ->
   Summarize.resolveKagiApiKey env sc = FastGPT.resolveKagiApiKey env fc).
Proof.
  split; [|split; [|split; [|split]]].
  - intros k. rewrite summarize_key_cases.
    destruct (Js.truthyS (Js.trim (default "" (sc ≫= Summarize.Config.apiKey)))) eqn:Hc;
      [|destruct (Js.truthyS (Js.trim (default "" (KAGI_API_KEY env)))) eqn:He];
      intros Heq; inversion Heq; subst.
    + split; [by apply truthyS_true | apply trim_idempotent].
    + split; [by apply truthyS_true | apply trim_idempotent].
  - intros k. rewrite fastgpt_key_cases.
    destruct (Js.truthyS (Js.trim (default "" (fc ≫= FastGPT.Config.apiKey)))) eqn:Hc;
      [|destruct (Js.truthyS (Js.trim (default "" (KAGI_API_KEY env)))) eqn:He];
      intros Heq; inversion Heq; subst.
    + split; [by apply truthyS_true | apply trim_idempotent].
    + split; [by apply truthyS_true | apply trim_idempotent].
  - intros k Hk Hne. rewrite summarize_key_cases, Hk. simpl.
    apply truthyS_true in Hne. by rewrite Hne.
  - intros Hblank v Hv Hne. rewrite summarize_key_cases, Hblank, Hv. simpl.
    apply truthyS_true in Hne. by rewrite Hne.
  - intros Hsame. by rewrite summarize_key_cases, fastgpt_key_cases, Hsame.
Qed.

(** X2.  The timeout either tool gives to a request is positive whatever the
    configuration holds: a configured number of seconds is used when it is
    finite and positive, and the default (60 seconds for the summarizer, 30
    for FastGPT) replaces anything else, NaN, an infinity, zero and negative
    numbers included; the delay of the request is a thousand times it. *)
Theorem timeouts_are_positive `{WebShared} `{Common}
    (sc : option Summarize.Config.t) (fc : option FastGPT.Config.t)
    (key query : string) (args : Json) :
  0 < Summarize.resolveTimeoutSeconds sc /\
  0 < FastGPT.resolveTimeoutSeconds fc /\
  timeoutMs (Summarize.requestOf (Summarize.paramsOf sc key args)) =
    1000 * Summarize.resolveTimeoutSeconds sc /\
  timeoutMs (FastGPT.requestOf (fastgptParamsOf fc key query args)) =
    1000 * FastGPT.resolveTimeoutSeconds fc /\
  (forall v, sc ≫= Summarize.Config.timeoutSeconds = Some (Finite v) -> 0 < v ->
     Summarize.resolveTimeoutSeconds sc = v) /\
  (forall v, fc ≫= FastGPT.Config.timeoutSeconds = Some (Finite v) -> 0 < v ->
     FastGPT.resolveTimeoutSeconds fc = v) /\
  ((forall v, sc ≫= Summarize.Config.timeoutSeconds = Some (Finite v) -> v <= 0) ->
   Summarize.resolveTimeoutSeconds sc = 60) /\
  ((forall v, fc ≫= FastGPT.Config.timeoutSeconds = Some (Finite v) -> v <= 0) ->
   FastGPT.resolveTimeoutSeconds fc = 30).
Proof.
  unfold Summarize.resolveTimeoutSeconds, FastGPT.resolveTimeoutSeconds,
    Summarize.DEFAULT_TIMEOUT_SECONDS, FastGPT.DEFAULT_TIMEOUT_SECONDS.
  cbn [timeoutMs Summarize.requestOf FastGPT.requestOf Summarize.paramsOf fastgptParamsOf
       Summarize.Params.timeoutSeconds FastGPT.Params.timeoutSeconds].
  unfold Summarize.resolveTimeoutSeconds, FastGPT.resolveTimeoutSeconds,
    Summarize.DEFAULT_TIMEOUT_SECONDS, FastGPT.DEFAULT_TIMEOUT_SECONDS.
  destruct (sc ≫= Summarize.Config.timeoutSeconds) as [[s| |?]|];
    destruct (fc ≫= FastGPT.Config.timeoutSeconds) as [[f| |?]|]; simpl;
    repeat match goal with
           | |- context [0 <? ?x] => destruct (Z.ltb_spec 0 x)
           end;
    repeat split; try lia; try discriminate;
    try (intros v Hv; inversion Hv; subst; lia);
    try (intros Hall; first [ specialize (Hall _ eq_refl); lia | reflexivity ]).
Qed.

Lemma ofZ_nonneg_cases (z : Z) :
  0 <= z ->
  Number.ofZ z = Infinity false \/ exists r, 0 <= r /\ Number.ofZ z = Finite r.
Proof.
  intros Hz. unfold Number.ofZ.
  pose proof (round53_nonneg (Z.abs z) (Z.abs_nonneg z)) as Hr.
  destruct (Z.leb_spec Number.huge (Number.round53 (Z.abs z))).
  - left. destruct (Z.ltb_spec z 0); [lia | reflexivity].
  - right. eexists. split; [|reflexivity]. nia.
Qed.

(** [minutes * 60 * 1000] for a number of minutes that is not negative: the
    product is not negative, and it is exact below 2^53 milliseconds. *)
Lemma minutes_to_ms (m : Z) :
  0 <= m ->
  Number.leb (Finite 0) (Number.mul (Number.mul (Finite m) (Finite 60)) (Finite 1000)) = true /\
  (m * 60000 < Number.exact ->
   Number.mul (Number.mul (Finite m) (Finite 60)) (Finite 1000) = Finite (m * 60000)).
Proof.
  intros Hm. split.
  - cbn [Number.mul]. destruct (ofZ_nonneg_cases (m * 60)) as [-> | (r & Hr & ->)]; [lia | |].
    + reflexivity.
    + cbn [Number.mul]. apply ofZ_nonneg. lia.
  - unfold Number.exact. intros Hexact. cbn [Number.mul].
    rewrite (ofZ_exact (m * 60)) by (unfold Number.exact; lia).
    cbn [Number.mul]. rewrite (ofZ_exact (m * 60 * 1000)) by (unfold Number.exact; lia).
    f_equal. lia.
Qed.

(** X3.  With a default that is not negative, the time-to-live either tool
    gives to the cache is never negative and never NaN: a configured number
    of minutes is used when it is finite and not negative, as the product
    [minutes * 60 * 1000] computed in double precision, which is the exact
    number of milliseconds below 2^53 (zero minutes give a zero
    time-to-live); the default replaces anything else. *)
Theorem cache_ttl_is_not_negative `{WebShared}
    (sc : option Summarize.Config.t) (fc : option FastGPT.Config.t) :
  0 <= DEFAULT_CACHE_TTL_MINUTES ->
  Number.leb (Finite 0) (Summarize.resolveCacheTtlMs sc) = true /\
  Number.leb (Finite 0) (FastGPT.resolveCacheTtlMs fc) = true /\
  (forall m, sc ≫= Summarize.Config.cacheTtlMinutes = Some (Finite m) -> 0 <= m ->
     Summarize.resolveCacheTtlMs sc =
       Number.mul (Number.mul (Finite m) (Finite 60)) (Finite 1000) /\
     (m * 60000 < Number.exact -> Summarize.resolveCacheTtlMs sc = Finite (m * 60000))) /\
  (forall m, fc ≫= FastGPT.Config.cacheTtlMinutes = Some (Finite m) -> 0 <= m ->
     FastGPT.resolveCacheTtlMs fc =
       Number.mul (Number.mul (Finite m) (Finite 60)) (Finite 1000) /\
     (m * 60000 < Number.exact -> FastGPT.resolveCacheTtlMs fc = Finite (m * 60000))) /\
  ((forall m, sc ≫= Summarize.Config.cacheTtlMinutes = Some (Finite m) -> m < 0) ->
   Summarize.resolveCacheTtlMs sc =
     Number.mul (Number.mul (Finite DEFAULT_CACHE_TTL_MINUTES) (Finite 60)) (Finite 1000) /\
   (DEFAULT_CACHE_TTL_MINUTES * 60000 < Number.exact ->
    Summarize.resolveCacheTtlMs sc = Finite (DEFAULT_CACHE_TTL_MINUTES * 60000))) /\
  ((forall m, fc ≫= FastGPT.Config.cacheTtlMinutes = Some (Finite m) -> m < 0) ->
   FastGPT.resolveCacheTtlMs fc =
     Number.mul (Number.mul (Finite DEFAULT_CACHE_TTL_MINUTES) (Finite 60)) (Finite 1000) /\
   (DEFAULT_CACHE_TTL_MINUTES * 60000 < Number.exact ->
    FastGPT.resolveCacheTtlMs fc = Finite (DEFAULT_CACHE_TTL_MINUTES * 60000))).
Proof.
  intros Hdefault.
  destruct (minutes_to_ms _ Hdefault) as [Hdn Hde].
  assert (Hs : forall c : option number,
    let ttl := match finite c with
               | Some minutes =>
                   if 0 <=? minutes
                   then Number.mul (Number.mul (Finite minutes) (Finite 60)) (Finite 1000)
                   else Number.mul (Number.mul (Finite DEFAULT_CACHE_TTL_MINUTES) (Finite 60))
                                   (Finite 1000)
               | None => Number.mul (Number.mul (Finite DEFAULT_CACHE_TTL_MINUTES) (Finite 60))
                                    (Finite 1000)
               end in
    Number.leb (Finite 0) ttl = true /\
    (forall m, c = Some (Finite m) -> 0 <= m ->
       ttl = Number.mul (Number.mul (Finite m) (Finite 60)) (Finite 1000) /\
       (m * 60000 < Number.exact -> ttl = Finite (m * 60000))) /\
    ((forall m, c = Some (Finite m) -> m < 0) ->
     ttl = Number.mul (Number.mul (Finite DEFAULT_CACHE_TTL_MINUTES) (Finite 60))
                      (Finite 1000) /\
     (DEFAULT_CACHE_TTL_MINUTES * 60000 < Number.exact ->
      ttl = Finite (DEFAULT_CACHE_TTL_MINUTES * 60000)))).
  { intros [[m| |?]|]; cbn [finite]; cbv zeta;
      try (split; [exact Hdn|]; split; [intros ? ?; discriminate | by intros _]).
    destruct (Z.leb_spec 0 m) as [Hm|Hm].
    - destruct (minutes_to_ms _ Hm) as [Hn He]. split; [exact Hn|]. split.
      + intros m' Heq _. inversion Heq; subst. by split.
      + intros Hall. specialize (Hall m eq_refl). lia.
    - split; [exact Hdn|]. split.
      + intros m' Heq Hm'. inversion Heq; subst. lia.
      + by intros _. }
  destruct (Hs (sc ≫= Summarize.Config.cacheTtlMinutes)) as (Hsn & Hsu & Hsd).
  destruct (Hs (fc ≫= FastGPT.Config.cacheTtlMinutes)) as (Hfn & Hfu & Hfd).
  split; [exact Hsn|]. split; [exact Hfn|]. split; [exact Hsu|]. split; [exact Hfu|].
  split; [exact Hsd | exact Hfd].
Qed.

(* ================================================================== *)
(** ** Further properties: the enumerated parameters *)
(* ================================================================== *)

Lemma validateEngine_in (raw : option string) (e : string) :
  Summarize.validateEngine raw = Some e -> In e Summarize.SUMMARIZER_ENGINES.
Proof.
  unfold Summarize.validateEngine. destruct raw as [r|]; [|discriminate].
  destruct (negb (Js.truthyS r)); [discriminate|].
  destruct (Js.includes _ _) eqn:Hin; [|discriminate].
  intros Heq. inversion Heq; subst. by apply includes_In.
Qed.

Lemma validateSummaryType_in (raw : option string) (t : string) :
  Summarize.validateSummaryType raw = Some t -> In t Summarize.SUMMARY_TYPES.
Proof.
  unfold Summarize.validateSummaryType. destruct raw as [r|]; [|discriminate].
  destruct (negb (Js.truthyS r)); [discriminate|].
  destruct (Js.includes _ _) eqn:Hin; [|discriminate].
  intros Heq. inversion Heq; subst. by apply includes_In.
Qed.

Lemma validateTargetLanguage_in (raw : option string) (l : string) :
  Summarize.validateTargetLanguage raw = Some l -> In l Summarize.TARGET_LANGUAGES.
Proof.
  unfold Summarize.validateTargetLanguage. destruct raw as [r|]; [|discriminate].
  destruct (negb (Js.truthyS r)); [discriminate|].
  destruct (Js.includes _ _) eqn:Hin.
  - intros Heq. inversion Heq; subst. by apply includes_In.
  - destruct (_ || _); [|discriminate].
    intros Heq. inversion Heq; subst. apply includes_In. reflexivity.
Qed.

Lemma resolveDefaultSummaryType_in (config : option Summarize.Config.t) :
  In (Summarize.resolveDefaultSummaryType config) Summarize.SUMMARY_TYPES.
Proof.
  unfold Summarize.resolveDefaultSummaryType.
  destruct (config ≫= Summarize.Config.summaryType) as [t|]; [|simpl; auto].
  destruct (Js.truthyS t && Js.includes Summarize.SUMMARY_TYPES t) eqn:Hb;
    [|simpl; auto].
  apply andb_prop in Hb as [_ Hin]. by apply includes_In.
Qed.

Lemma resolveDefaultTargetLanguage_in (config : option Summarize.Config.t) (l : string) :
  Summarize.resolveDefaultTargetLanguage config = Some l ->
  In l Summarize.TARGET_LANGUAGES.
Proof.
  unfold Summarize.resolveDefaultTargetLanguage.
  destruct (config ≫= Summarize.Config.targetLanguage) as [raw|]; [|discriminate].
  destruct (Js.truthyS _ && Js.includes _ _) eqn:Hb; [|discriminate].
  apply andb_prop in Hb as [_ Hin].
  intros Heq. inversion Heq; subst. by apply includes_In.
Qed.

Lemma run_parameters_valid_parts `{WebShared} `{Common}
    (config : option Summarize.Config.t) (key : string) (args : Json) :
  In (Summarize.Params.engine (Summarize.paramsOf config key args))
     Summarize.SUMMARIZER_ENGINES /\
  In (Summarize.Params.summaryType (Summarize.paramsOf config key args))
     Summarize.SUMMARY_TYPES /\
  (forall l, Summarize.Params.targetLanguage (Summarize.paramsOf config key args) = Some l ->
             In l Summarize.TARGET_LANGUAGES).
Proof.
  cbn [Summarize.paramsOf Summarize.Params.engine
    Summarize.Params.summaryType Summarize.Params.targetLanguage].
  split; [|split].
  - destruct (Summarize.validateEngine _) as [e|] eqn:He; simpl.
    + by eapply validateEngine_in.
    + apply resolveDefaultEngine_spec.
  - destruct (Summarize.validateSummaryType _) as [t|] eqn:Ht; simpl.
    + by eapply validateSummaryType_in.
    + apply resolveDefaultSummaryType_in.
  - intros l. destruct (Summarize.validateTargetLanguage _) as [v|] eqn:Hv.
    + intros Heq. inversion Heq; subst. by eapply validateTargetLanguage_in.
    + apply resolveDefaultTargetLanguage_in.
Qed.

(** X4.  Whatever the arguments and the configuration hold, the parameters
    [execute] hands to [runSummarize] are valid: the engine is one of the
    three engine names, the summary type one of the two types, and the
    target language, when there is one, one of the thirty language codes. *)
Theorem run_parameters_are_valid `{WebShared} `{Common}
    (config : option Summarize.Config.t) (key : string) (args : Json) :
  let p := Summarize.paramsOf config key args in
  In (Summarize.Params.engine p) Summarize.SUMMARIZER_ENGINES /\
  In (Summarize.Params.summaryType p) Summarize.SUMMARY_TYPES /\
  (forall l, Summarize.Params.targetLanguage p = Some l ->
             In l Summarize.TARGET_LANGUAGES).
Proof. intros p. apply run_parameters_valid_parts. Qed.

Lemma validateEngine_normal (a : string) :
  Summarize.validateEngine (Some a) =
  if Js.includes Summarize.SUMMARIZER_ENGINES (Js.toLowerCase (Js.trim a))
  then Some (Js.toLowerCase (Js.trim a)) else None.
Proof.
  unfold Summarize.validateEngine. destruct a; [reflexivity|]. reflexivity.
Qed.

Lemma validateSummaryType_normal (a : string) :
  Summarize.validateSummaryType (Some a) =
  if Js.includes Summarize.SUMMARY_TYPES (Js.toLowerCase (Js.trim a))
  then Some (Js.toLowerCase (Js.trim a)) else None.
Proof.
  unfold Summarize.validateSummaryType. destruct a; [reflexivity|]. reflexivity.
Qed.

Lemma validateTargetLanguage_normal (a : string) :
  Summarize.validateTargetLanguage (Some a) =
  let n := Js.toUpperCase (Js.trim a) in
  if Js.includes Summarize.TARGET_LANGUAGES n then Some n
  else if String.eqb n "ZHHANT" then Some "ZH-HANT" else None.
Proof.
  unfold Summarize.validateTargetLanguage. destruct a; [reflexivity|].
  cbv zeta. cbn [Js.truthyS negb].
  destruct (Js.includes _ _) eqn:Hin; [reflexivity|].
  destruct (String.eqb_spec (Js.toUpperCase (Js.trim (String a a0))) "ZH-HANT") as [Heq|Hne];
    [|reflexivity].
  rewrite Heq in Hin. vm_compute in Hin. discriminate.
Qed.

(** X5.  The validators read an argument through its normal form only: two
    engine or summary-type arguments with the same trimmed lower-case form,
    and two language arguments with the same trimmed upper-case form, are
    validated alike.  What a validator accepts it returns in normal form,
    and validating that again changes nothing.  The language validator also
    accepts the spelling ZHHANT, which it turns into ZH-HANT. *)
Theorem validation_reads_the_normal_form (a b : string) :
  (Js.toLowerCase (Js.trim a) = Js.toLowerCase (Js.trim b) ->
   Summarize.validateEngine (Some a) = Summarize.validateEngine (Some b) /\
   Summarize.validateSummaryType (Some a) = Summarize.validateSummaryType (Some b)) /\
  (Js.toUpperCase (Js.trim a) = Js.toUpperCase (Js.trim b) ->
   Summarize.validateTargetLanguage (Some a) = Summarize.validateTargetLanguage (Some b)) /\
  (forall e, Summarize.validateEngine (Some a) = Some e ->
     Summarize.validateEngine (Some e) = Some e) /\
  (forall t, Summarize.validateSummaryType (Some a) = Some t ->
     Summarize.validateSummaryType (Some t) = Some t) /\
  (forall l, Summarize.validateTargetLanguage (Some a) = Some l ->
     Summarize.validateTargetLanguage (Some l) = Some l) /\
  (Js.toUpperCase (Js.trim a) = "ZHHANT" ->
   Summarize.validateTargetLanguage (Some a) = Some "ZH-HANT").
Proof.
  split; [|split; [|split; [|split; [|split]]]].
  - intros Hn. rewrite !validateEngine_normal, !validateSummaryType_normal, Hn. auto.
  - intros Hn. rewrite !validateTargetLanguage_normal. cbv zeta. by rewrite Hn.
  - intros e He. apply validateEngine_in in He. simpl in He.
    destruct He as [<-|[<-|[<-|[]]]]; reflexivity.
  - intros t Ht. apply validateSummaryType_in in Ht. simpl in Ht.
    destruct Ht as [<-|[<-|[]]]; reflexivity.
  - intros l Hl. apply validateTargetLanguage_in in Hl.
    unfold Summarize.TARGET_LANGUAGES in Hl.
    repeat (destruct Hl as [<-|Hl]; [vm_compute; reflexivity|]). destruct Hl.
  - intros Hz. rewrite validateTargetLanguage_normal. cbv zeta. rewrite Hz. reflexivity.
Qed.

(* ================================================================== *)
(** ** Further properties: calls served from the cache *)
(* ================================================================== *)

Lemma lookup_setField_eq (k : string) (x : Json) (fields : list (string * Json)) :
  Value.lookup k (Value.setField k x fields) = Some x.
Proof.
  induction fields as [|[k' v] rest IH]; simpl.
  - by rewrite String.eqb_refl.
  - destruct (String.eqb k k') eqn:Hk; simpl; rewrite Hk; [reflexivity | exact IH].
Qed.

Lemma lookup_setField_ne (k j : string) (x : Json) (fields : list (string * Json)) :
  j <> k -> Value.lookup j (Value.setField k x fields) = Value.lookup j fields.
Proof.
  intros Hne. induction fields as [|[k' v] rest IH]; simpl.
  - destruct (String.eqb_spec j k); [contradiction | reflexivity].
  - destruct (String.eqb_spec k k') as [->|Hk]; simpl.
    + destruct (String.eqb_spec j k'); [contradiction | reflexivity].
    + destruct (String.eqb j k'); [reflexivity | exact IH].
Qed.

(** [runSummarize] and [runFastGPT], by what the lookup gives. *)
Lemma runSummarize_cases `{WebShared} (env : Env) (p : Summarize.Params.t) (w : World) :
  Summarize.runSummarize env p w =
  match fst (summarizeLookup env p w) with
  | Return (Some entry) =>
      (Return (Value.spreadSet (value entry) "cached" (JBool true)),
       snd (summarizeLookup env p w))
  | _ => Summarize.callUpstream env p (normalizeCacheKey (Summarize.cacheKeyInput p))
           (snd (summarizeLookup env p w))
  end.
Proof.
  destruct (summarizeLookup_returns env p w) as (hit & Hhit & _).
  rewrite Hhit. destruct hit as [entry|].
  - revert Hhit. unfold Summarize.runSummarize, summarizeLookup. unfold bind at 1.
    destruct (Summarize.Params.cache p); [|discriminate].
    destruct (Summarize.readSummarizeCache env _ w) as [[hit|e] w']; simpl;
      intros Heq; inversion Heq. reflexivity.
  - by apply runSummarize_miss.
Qed.

Lemma runFastGPT_cases `{WebShared} (env : Env) (p : FastGPT.Params.t) (w : World) :
  FastGPT.runFastGPT env p w =
  match fst (fastgptLookup env p w) with
  | Return (Some entry) =>
      (Return (Value.spreadSet (value entry) "cached" (JBool true)),
       snd (fastgptLookup env p w))
  | _ => FastGPT.callUpstream env p (normalizeCacheKey (FastGPT.cacheKeyInput p))
           (snd (fastgptLookup env p w))
  end.
Proof.
  destruct (fastgptLookup_returns env p w) as (hit & Hhit & _).
  rewrite Hhit. destruct hit as [entry|].
  - revert Hhit. unfold FastGPT.runFastGPT, fastgptLookup. unfold bind at 1.
    destruct (FastGPT.Params.cache p); [|discriminate].
    destruct (FastGPT.readFastGPTCache env _ w) as [[hit|e] w']; simpl;
      intros Heq; inversion Heq. reflexivity.
  - by apply runFastGPT_miss.
Qed.

Lemma runSummarize_hit `{WebShared} (env : Env) (p : Summarize.Params.t) (w : World)
    (e : CacheEntry) :
  Summarize.Params.cache p = true ->
  SUMMARIZE_CACHE w !! normalizeCacheKey (Summarize.cacheKeyInput p) = Some e ->
  Number.gtb (Finite (clock env (ticks w))) (expiresAt e) = false ->
  Summarize.runSummarize env p w =
  (Return (Value.spreadSet (value e) "cached" (JBool true)),
   {| ticks := S (ticks w); requests := requests w;
      SUMMARIZE_CACHE := SUMMARIZE_CACHE w; FASTGPT_CACHE := FASTGPT_CACHE w |}).
Proof.
  intros Hc Hk Hlive. rewrite runSummarize_cases, summarizeLookup_cases. cbv zeta.
  rewrite Hc, Hk, (readCache_live_entry _ _ _ _ Hk Hlive). reflexivity.
Qed.

Lemma runFastGPT_hit `{WebShared} (env : Env) (p : FastGPT.Params.t) (w : World)
    (e : CacheEntry) :
  FastGPT.Params.cache p = true ->
  FASTGPT_CACHE w !! normalizeCacheKey (FastGPT.cacheKeyInput p) = Some e ->
  Number.gtb (Finite (clock env (ticks w))) (expiresAt e) = false ->
  FastGPT.runFastGPT env p w =
  (Return (Value.spreadSet (value e) "cached" (JBool true)),
   {| ticks := S (ticks w); requests := requests w;
      SUMMARIZE_CACHE := SUMMARIZE_CACHE w; FASTGPT_CACHE := FASTGPT_CACHE w |}).
Proof.
  intros Hc Hk Hlive. rewrite runFastGPT_cases, fastgptLookup_cases. cbv zeta.
  rewrite Hc, Hk, (readCache_live_entry _ _ _ _ Hk Hlive). reflexivity.
Qed.

(** X6.  A call with the cache on whose key holds an entry that has not
    expired is served from the store: it returns the stored record with
    [cached: true] added, every other property as stored, it sends no
    request, and it leaves both caches as they were.  This holds of both
    tools. *)
Theorem cache_hit_is_served_locally `{WebShared} (env : Env)
    (ps : Summarize.Params.t) (pf : FastGPT.Params.t) (w : World) (e : CacheEntry) :
  (Summarize.Params.cache ps = true ->
   SUMMARIZE_CACHE w !! normalizeCacheKey (Summarize.cacheKeyInput ps) = Some e ->
   Number.gtb (Finite (clock env (ticks w))) (expiresAt e) = false ->
   fst (Summarize.runSummarize env ps w) =
     Return (Value.spreadSet (value e) "cached" (JBool true)) /\
   requests (snd (Summarize.runSummarize env ps w)) = requests w /\
   caches (snd (Summarize.runSummarize env ps w)) = caches w) /\
  (FastGPT.Params.cache pf = true ->
   FASTGPT_CACHE w !! normalizeCacheKey (FastGPT.cacheKeyInput pf) = Some e ->
   Number.gtb (Finite (clock env (ticks w))) (expiresAt e) = false ->
   fst (FastGPT.runFastGPT env pf w) =
     Return (Value.spreadSet (value e) "cached" (JBool true)) /\
   requests (snd (FastGPT.runFastGPT env pf w)) = requests w /\
   caches (snd (FastGPT.runFastGPT env pf w)) = caches w) /\
  Value.get (Value.spreadSet (value e) "cached" (JBool true)) "cached" =
    Return (JBool true) /\
  (forall fields k, value e = JObj fields -> k <> "cached" ->
     Value.get (Value.spreadSet (value e) "cached" (JBool true)) k = Value.get (value e) k).
Proof.
  split; [|split; [|split]].
  - intros Hc Hk Hlive. by rewrite (runSummarize_hit _ _ _ _ Hc Hk Hlive).
  - intros Hc Hk Hlive. by rewrite (runFastGPT_hit _ _ _ _ Hc Hk Hlive).
  - unfold Value.spreadSet. destruct (value e); simpl; try reflexivity.
    by rewrite lookup_setField_eq.
  - intros fields k -> Hne. simpl. by rewrite lookup_setField_ne.
Qed.

(** A first call with the cache on that misses and is answered upstream,
    then the same call again, some clock readings later, before the entry
    expires. *)
Lemma summarize_answered_then_hit `{WebShared} (env : Env) (p : Summarize.Params.t)
    (w : World) (res : Response) (data : Json) (n : nat) :
  let key := normalizeCacheKey (Summarize.cacheKeyInput p) in
  let w0 := snd (summarizeLookup env p w) in
  let payload :=
    Summarize.payloadOf p (clock env (S (ticks w0)) - clock env (ticks w0)) data in
  let expiry :=
    Number.add (Finite (clock env (S (S (ticks w0))))) (Summarize.Params.cacheTtlMs p) in
  let first := Summarize.runSummarize env p w in
  let second := Summarize.runSummarize env p (later n (snd first)) in
  Summarize.Params.cache p = true ->
  Number.leb (Summarize.Params.cacheTtlMs p) (Finite 0) = false ->
  fst (summarizeLookup env p w) = Return None ->
  upstream env (length (requests w)) (Summarize.requestOf p) = Responds res ->
  summarizeVerdict res = Return data ->
  fst first = Return payload /\
  SUMMARIZE_CACHE (snd first) !! key = Some {| value := payload; expiresAt := expiry |} /\
  (Number.gtb (Finite (clock env (ticks (later n (snd first))))) expiry = false ->
   fst second = Return (Value.spreadSet payload "cached" (JBool true)) /\
   requests (snd second) = requests w ++ [Summarize.requestOf p]).
Proof.
  intros key w0 payload expiry first second Hc Hpos Hmiss Hu Hv.
  destruct (summarize_miss_answered env p w res data Hc Hmiss Hu Hv)
    as (Hfirst & Hreq & Hkey).
  fold key w0 payload first in Hfirst, Hreq, Hkey. rewrite Hpos in Hkey. fold expiry in Hkey.
  split; [exact Hfirst|]. split; [exact Hkey|].
  intros Hlive. subst second.
  rewrite (runSummarize_hit env p (later n (snd first))
             {| value := payload; expiresAt := expiry |} Hc Hkey Hlive).
  split; [reflexivity | exact Hreq].
Qed.

Lemma fastgpt_answered_then_hit `{WebShared} (env : Env) (p : FastGPT.Params.t)
    (w : World) (res : Response) (data references : Json) (n : nat) :
  let key := normalizeCacheKey (FastGPT.cacheKeyInput p) in
  let w0 := snd (fastgptLookup env p w) in
  let payload :=
    FastGPT.payloadOf p (clock env (S (ticks w0)) - clock env (ticks w0)) references data in
  let expiry :=
    Number.add (Finite (clock env (S (S (ticks w0))))) (FastGPT.Params.cacheTtlMs p) in
  let first := FastGPT.runFastGPT env p w in
  let second := FastGPT.runFastGPT env p (later n (snd first)) in
  FastGPT.Params.cache p = true ->
  Number.leb (FastGPT.Params.cacheTtlMs p) (Finite 0) = false ->
  fst (fastgptLookup env p w) = Return None ->
  upstream env (length (requests w)) (FastGPT.requestOf p) = Responds res ->
  fastgptVerdict res = Return (data, references) ->
  fst first = Return payload /\
  FASTGPT_CACHE (snd first) !! key = Some {| value := payload; expiresAt := expiry |} /\
  (Number.gtb (Finite (clock env (ticks (later n (snd first))))) expiry = false ->
   fst second = Return (Value.spreadSet payload "cached" (JBool true)) /\
   requests (snd second) = requests w ++ [FastGPT.requestOf p]).
Proof.
  intros key w0 payload expiry first second Hc Hpos Hmiss Hu Hv.
  destruct (fastgpt_miss_answered env p w res data references Hc Hmiss Hu Hv)
    as (Hfirst & Hreq & Hkey).
  fold key w0 payload first in Hfirst, Hreq, Hkey. rewrite Hpos in Hkey. fold expiry in Hkey.
  split; [exact Hfirst|]. split; [exact Hkey|].
  intros Hlive. subst second.
  rewrite (runFastGPT_hit env p (later n (snd first))
             {| value := payload; expiresAt := expiry |} Hc Hkey Hlive).
  split; [reflexivity | exact Hreq].
Qed.

(** X7.  The cache round trip of a tool, for a time-to-live above zero: when
    a call with the cache on finds no live entry under its key and the
    upstream answers it, the result is stored under that key, expiring at
    the clock reading of the write plus the time-to-live; and the same call
    made again, any number of clock readings later, while the clock is not
    past that expiry, returns that very result with [cached: true] added and
    sends no second request.  This holds of both tools. *)
Theorem cached_result_is_returned_again `{WebShared} (env : Env)
    (ps : Summarize.Params.t) (pf : FastGPT.Params.t) (w : World)
    (res : Response) (data err references : Json) (n : nat) :
  ok res = true -> json res = Return data ->
  Value.get data "error" = Return err -> Value.truthy err = false ->
  (Summarize.Params.cache ps = true ->
   Number.leb (Summarize.Params.cacheTtlMs ps) (Finite 0) = false ->
   fst (summarizeLookup env ps w) = Return None ->
   upstream env (length (requests w)) (Summarize.requestOf ps) = Responds res ->
   let w0 := snd (summarizeLookup env ps w) in
   let payload :=
     Summarize.payloadOf ps (clock env (S (ticks w0)) - clock env (ticks w0)) data in
   let expiry :=
     Number.add (Finite (clock env (S (S (ticks w0))))) (Summarize.Params.cacheTtlMs ps) in
   let first := Summarize.runSummarize env ps w in
   let second := Summarize.runSummarize env ps (later n (snd first)) in
   fst first = Return payload /\
   SUMMARIZE_CACHE (snd first) !! normalizeCacheKey (Summarize.cacheKeyInput ps) =
     Some {| value := payload; expiresAt := expiry |} /\
   (Number.gtb (Finite (clock env (ticks (later n (snd first))))) expiry = false ->
    fst second = Return (Value.spreadSet payload "cached" (JBool true)) /\
    requests (snd second) = requests w ++ [Summarize.requestOf ps])) /\
  (FastGPT.Params.cache pf = true ->
   Number.leb (FastGPT.Params.cacheTtlMs pf) (Finite 0) = false ->
   fst (fastgptLookup env pf w) = Return None ->
   upstream env (length (requests w)) (FastGPT.requestOf pf) = Responds res ->
   FastGPT.referencesOf data = Return references ->
   let w0 := snd (fastgptLookup env pf w) in
   let payload :=
     FastGPT.payloadOf pf (clock env (S (ticks w0)) - clock env (ticks w0)) references data in
   let expiry :=
     Number.add (Finite (clock env (S (S (ticks w0))))) (FastGPT.Params.cacheTtlMs pf) in
   let first := FastGPT.runFastGPT env pf w in
   let second := FastGPT.runFastGPT env pf (later n (snd first)) in
   fst first = Return payload /\
   FASTGPT_CACHE (snd first) !! normalizeCacheKey (FastGPT.cacheKeyInput pf) =
     Some {| value := payload; expiresAt := expiry |} /\
   (Number.gtb (Finite (clock env (ticks (later n (snd first))))) expiry = false ->
    fst second = Return (Value.spreadSet payload "cached" (JBool true)) /\
    requests (snd second) = requests w ++ [FastGPT.requestOf pf])).
Proof.
  intros Hok Hj He Hf. split.
  - intros Hc Hpos Hmiss Hu.
    pose proof (summarizeVerdict_success _ _ _ Hok Hj He Hf) as Hv.
    exact (summarize_answered_then_hit env ps w res data n Hc Hpos Hmiss Hu Hv).
  - intros Hc Hpos Hmiss Hu Hrefs.
    pose proof (fastgptVerdict_success _ _ _ _ Hok Hj He Hf Hrefs) as Hv.
    exact (fastgpt_answered_then_hit env pf w res data references n Hc Hpos Hmiss Hu Hv).
Qed.






(* ================================================================== *)
(** ** Further properties: what a call does to the world *)
(* ================================================================== *)

(** A run of the summarize tool: the other tool's cache is left alone, and
    at most one request is added to those sent. *)
Lemma summarize_run_effects `{WebShared} (env : Env) (p : Summarize.Params.t) (w : World) :
  FASTGPT_CACHE (snd (Summarize.runSummarize env p w)) = FASTGPT_CACHE w /\
  (requests (snd (Summarize.runSummarize env p w)) = requests w \/
   requests (snd (Summarize.runSummarize env p w)) = requests w ++ [Summarize.requestOf p]).
Proof.
  rewrite runSummarize_cases.
  destruct (summarizeLookup_returns env p w) as (hit & Hhit & Hreq & Hfg).
  rewrite Hhit. destruct hit as [entry|]; cbn [snd]; [by auto|].
  rewrite summarize_callUpstream_cases. cbv zeta.
  destruct (upstream env _ _) as [res|e];
    [destruct (summarizeVerdict res); [destruct (Summarize.Params.cache p)|]|];
    cbn [snd sent requests FASTGPT_CACHE]; rewrite ?Hreq, ?Hfg; auto.
Qed.

Lemma fastgpt_run_effects `{WebShared} (env : Env) (p : FastGPT.Params.t) (w : World) :
  SUMMARIZE_CACHE (snd (FastGPT.runFastGPT env p w)) = SUMMARIZE_CACHE w /\
  (requests (snd (FastGPT.runFastGPT env p w)) = requests w \/
   requests (snd (FastGPT.runFastGPT env p w)) = requests w ++ [FastGPT.requestOf p]).
Proof.
  rewrite runFastGPT_cases.
  destruct (fastgptLookup_returns env p w) as (hit & Hhit & Hreq & Hsm).
  rewrite Hhit. destruct hit as [entry|]; cbn [snd]; [by auto|].
  rewrite fastgpt_callUpstream_cases. cbv zeta.
  destruct (upstream env _ _) as [res|e];
    [destruct (fastgptVerdict res) as [[data references]|e];
       [destruct (FastGPT.Params.cache p)|]|];
    cbn [snd sent requests SUMMARIZE_CACHE]; rewrite ?Hreq, ?Hsm; auto.
Qed.

(** [execute] of the summarize tool: what it does to the world. *)
Lemma summarize_execute_effects `{WebShared} `{Common}
    (config : option Summarize.Config.t) (env : Env) (args : Json) (w : World) :
  FASTGPT_CACHE (snd (Summarize.executeSummarize config env args w)) = FASTGPT_CACHE w /\
  (requests (snd (Summarize.executeSummarize config env args w)) = requests w \/
   exists key,
     Summarize.resolveKagiApiKey env config = Some key /\
     Js.truthyO (readStringParam args "url") <> Js.truthyO (readStringParam args "text") /\
     requests (snd (Summarize.executeSummarize config env args w)) =
     requests w ++ [Summarize.requestOf (Summarize.paramsOf config key args)]).
Proof.
  destruct (Summarize.resolveKagiApiKey env config) as [key|] eqn:Hkey.
  - destruct (bool_decide (Js.truthyO (readStringParam args "url") =
                           Js.truthyO (readStringParam args "text"))) eqn:Hone.
    + apply bool_decide_eq_true in Hone. unfold Summarize.executeSummarize.
      rewrite Hkey, <- Hone. destruct (Js.truthyO (readStringParam args "url")); by auto.
    + apply bool_decide_eq_false in Hone.
      rewrite (summarize_execute_runs _ _ _ w _ Hkey Hone), bind_ret_map. cbn [snd].
      destruct (summarize_run_effects env (Summarize.paramsOf config key args) w)
        as [Hfg [Hsame | Hone_more]]; split; auto.
      right. exists key. auto.
  - unfold Summarize.executeSummarize. rewrite Hkey. by auto.
Qed.

(** [execute] of the FastGPT tool: what it does to the world. *)
Lemma fastgpt_execute_effects `{WebShared} `{Common}
    (config : option FastGPT.Config.t) (env : Env) (args : Json) (w : World) :
  SUMMARIZE_CACHE (snd (FastGPT.executeFastGPT config env args w)) = SUMMARIZE_CACHE w /\
  (requests (snd (FastGPT.executeFastGPT config env args w)) = requests w \/
   exists key query,
     FastGPT.resolveKagiApiKey env config = Some key /\
     readRequiredStringParam args "query" = Return query /\
     requests (snd (FastGPT.executeFastGPT config env args w)) =
     requests w ++ [FastGPT.requestOf (fastgptParamsOf config key query args)]).
Proof.
  destruct (FastGPT.resolveKagiApiKey env config) as [key|] eqn:Hkey.
  - destruct (readRequiredStringParam args "query") as [query|e] eqn:Hq.
    + rewrite (fastgpt_execute_runs _ _ _ w _ _ Hkey Hq), bind_ret_map. cbn [snd].
      destruct (fastgpt_run_effects env (fastgptParamsOf config key query args) w)
        as [Hsm [Hsame | Hone_more]]; split; auto.
      right. exists key, query. auto.
    + unfold FastGPT.executeFastGPT. rewrite Hkey, Hq. by auto.
  - unfold FastGPT.executeFastGPT. rewrite Hkey. by auto.
Qed.

(** X8.  The two tools never share a store: whatever its arguments and
    however it ends, a call of the summarize tool leaves the FastGPT cache
    as it was, and a call of the FastGPT tool leaves the summarize cache as
    it was. *)
Theorem stores_are_not_shared `{WebShared} `{Common}
    (sc : option Summarize.Config.t) (fc : option FastGPT.Config.t)
    (env : Env) (args : Json) (w : World) :
  FASTGPT_CACHE (snd (Summarize.executeSummarize sc env args w)) = FASTGPT_CACHE w /\
  SUMMARIZE_CACHE (snd (FastGPT.executeFastGPT fc env args w)) = SUMMARIZE_CACHE w.
Proof.
  split.
  - apply summarize_execute_effects.
  - apply fastgpt_execute_effects.
Qed.

(** X9.  A tool call sends at most one request, and keeps the requests sent
    before it: either none is added, or exactly one, built from the
    resolved credential and the validated parameters, and then only when
    the credential resolved and the input was accepted.  A FastGPT call
    whose required query cannot be read throws the reader's error and
    changes nothing. *)
Theorem at_most_one_request `{WebShared} `{Common}
    (sc : option Summarize.Config.t) (fc : option FastGPT.Config.t)
    (env : Env) (args : Json) (w : World) :
  (requests (snd (Summarize.executeSummarize sc env args w)) = requests w \/
   exists key,
     Summarize.resolveKagiApiKey env sc = Some key /\
     Js.truthyO (readStringParam args "url") <> Js.truthyO (readStringParam args "text") /\
     requests (snd (Summarize.executeSummarize sc env args w)) =
     requests w ++ [Summarize.requestOf (Summarize.paramsOf sc key args)]) /\
  (requests (snd (FastGPT.executeFastGPT fc env args w)) = requests w \/
   exists key query,
     FastGPT.resolveKagiApiKey env fc = Some key /\
     readRequiredStringParam args "query" = Return query /\
     requests (snd (FastGPT.executeFastGPT fc env args w)) =
     requests w ++ [FastGPT.requestOf (fastgptParamsOf fc key query args)]) /\
  (forall key e,
     FastGPT.resolveKagiApiKey env fc = Some key ->
     readRequiredStringParam args "query" = Throw e ->
     FastGPT.executeFastGPT fc env args w = (Throw e, w)).
Proof.
  split; [|split].
  - apply summarize_execute_effects.
  - apply fastgpt_execute_effects.
  - intros key e Hkey Hq. unfold FastGPT.executeFastGPT. rewrite Hkey, Hq. reflexivity.
Qed.

(** X10.  The request of the summarize tool goes to the summarize endpoint
    with the key as a [Bot] token; its body always holds the engine, the
    summary type and the cache flag, never both a [url] and a [text] (a URL
    wins over a text), and a [target_language] only when one is set. *)
Theorem summarize_request_contents (p : Summarize.Params.t) :
  let body := requestBody (Summarize.requestOf p) in
  endpoint (Summarize.requestOf p) = "https://kagi.com/api/v0/summarize" /\
  authorization (Summarize.requestOf p) = "Bot " +:+ Summarize.Params.apiKey p /\
  Value.get body "engine" = Return (JStr (Summarize.Params.engine p)) /\
  Value.get body "summary_type" = Return (JStr (Summarize.Params.summaryType p)) /\
  Value.get body "cache" = Return (JBool (Summarize.Params.cache p)) /\
  (Value.get body "url" = Return JUndefined \/ Value.get body "text" = Return JUndefined) /\
  (forall u, Summarize.Params.url p = Some u -> u <> "" ->
     Value.get body "url" = Return (JStr u)) /\
  (forall t, Js.truthyO (Summarize.Params.url p) = false ->
     Summarize.Params.text p = Some t -> t <> "" ->
     Value.get body "text" = Return (JStr t)) /\
  (Js.truthyO (Summarize.Params.targetLanguage p) = false ->
   Value.get body "target_language" = Return JUndefined) /\
  (forall l, Summarize.Params.targetLanguage p = Some l -> l <> "" ->
     Value.get body "target_language" = Return (JStr l)).
Proof.
  cbv zeta. unfold Summarize.requestOf, Summarize.requestBodyOf.
  cbn [endpoint authorization requestBody].
  destruct (Summarize.Params.url p) as [[|uc u]|];
    destruct (Summarize.Params.text p) as [[|tc t]|];
    destruct (Summarize.Params.targetLanguage p) as [[|lc l]|];
    cbn; repeat split; auto;
    try (intros ? Heq; inversion Heq; subst; congruence);
    try (intros ? ? Heq; inversion Heq; subst; congruence);
    try (intros; discriminate).
Qed.

(* ================================================================== *)
(** ** Further properties: the references of a FastGPT answer *)
(* ================================================================== *)

Lemma mapOutcome_length {A B} (f : A -> Outcome B) (l : list A) (l' : list B) :
  FastGPT.mapOutcome f l = Return l' -> length l' = length l.
Proof.
  revert l'. induction l as [|x l IH]; simpl; intros l' Heq.
  - by inversion Heq.
  - destruct (f x) as [y|e]; [|discriminate].
    destruct (FastGPT.mapOutcome f l) as [ys|e]; [|discriminate].
    inversion Heq; subst. simpl. by rewrite (IH ys).
Qed.

Lemma referenceOf_value (ref : Json) :
  Value.nullish ref = false ->
  FastGPT.referenceOf ref =
  Return (JObj [ ("title", Value.coalesce (Value.getOpt ref "title") (JStr ""));
                 ("url", Value.coalesce (Value.getOpt ref "url") (JStr ""));
                 ("snippet", Value.coalesce (Value.getOpt ref "snippet") (JStr "")) ]).
Proof. destruct ref; simpl; try discriminate; reflexivity. Qed.

Lemma referenceOf_null (ref : Json) :
  Value.nullish ref = true -> FastGPT.referenceOf ref = Throw TypeError.
Proof. destruct ref; simpl; try discriminate; reflexivity. Qed.

Lemma coalesce_not_nullish (v : Json) : Value.nullish (Value.coalesce v (JStr "")) = false.
Proof. destruct v; reflexivity. Qed.

Lemma mapOutcome_references (refs : list Json) :
  Forall (fun r => Value.nullish r = false) refs ->
  exists rs,
    FastGPT.mapOutcome FastGPT.referenceOf refs = Return rs /\
    Forall2 (fun ref r => FastGPT.referenceOf ref = Return r) refs rs.
Proof.
  induction 1 as [|ref refs Href _ IH]; simpl.
  - exists []. split; [reflexivity | constructor].
  - destruct IH as (rs & -> & Hall).
    rewrite (referenceOf_value _ Href). eexists. split; [reflexivity|].
    constructor; [by apply referenceOf_value | exact Hall].
Qed.

Lemma mapOutcome_null (refs : list Json) :
  Exists (fun r => Value.nullish r = true) refs ->
  FastGPT.mapOutcome FastGPT.referenceOf refs = Throw TypeError.
Proof.
  induction refs as [|ref refs IH]; intros Hex; [by inversion Hex|]. simpl.
  destruct (Value.nullish ref) eqn:Hn.
  - by rewrite (referenceOf_null _ Hn).
  - rewrite (referenceOf_value _ Hn).
    rewrite IH; [reflexivity|]. inversion Hex; subst; [congruence | assumption].
Qed.

(** X11.  The references of a FastGPT result: no references in the answer
    (absent or [null]) give an empty list; an array of references gives a
    list of the same length, each entry holding exactly a [title], a [url]
    and a [snippet], taken from the upstream entry and replaced by the
    empty string where it has none; an array with a [null] entry, and a
    value that is neither absent nor an array, throw a TypeError. *)
Theorem references_are_normalized (data : Json) :
  let raw := Value.getOpt (Value.getOpt data "data") "references" in
  (Value.nullish raw = true -> FastGPT.referencesOf data = Return (JArr [])) /\
  (forall refs, raw = JArr refs ->
     Forall (fun r => Value.nullish r = false) refs ->
     exists rs,
       FastGPT.referencesOf data = Return (JArr rs) /\
       length rs = length refs /\
       Forall2 (fun ref r =>
                  r = JObj (map (fun k => (k, Value.coalesce (Value.getOpt ref k) (JStr "")))
                                referenceKeys) /\
                  forall k, In k referenceKeys ->
                    exists v, Value.get r k = Return v /\ Value.nullish v = false)
               refs rs) /\
  (forall refs, raw = JArr refs ->
     Exists (fun r => Value.nullish r = true) refs ->
     FastGPT.referencesOf data = Throw TypeError) /\
  (Value.nullish raw = false -> (forall refs, raw <> JArr refs) ->
   FastGPT.referencesOf data = Throw TypeError).
Proof.
  intros raw. unfold FastGPT.referencesOf. fold raw.
  split; [|split; [|split]].
  - destruct raw; simpl; try discriminate; reflexivity.
  - intros refs -> Hall. simpl.
    destruct (mapOutcome_references refs Hall) as (rs & Hmap & Hrel).
    rewrite Hmap. exists rs. split; [reflexivity|].
    split; [by eapply mapOutcome_length|].
    eapply Forall2_impl; [exact Hrel|].
    intros ref r Hr. simpl in Hr.
    assert (Hn : Value.nullish ref = false).
    { destruct (Value.nullish ref) eqn:Hn; [|reflexivity].
      rewrite (referenceOf_null _ Hn) in Hr. discriminate. }
    rewrite (referenceOf_value _ Hn) in Hr. inversion Hr; subst. clear Hr.
    split; [reflexivity|].
    intros k [<-|[<-|[<-|[]]]]; eexists; (split; [reflexivity|]);
      apply coalesce_not_nullish.
  - intros refs -> Hex. simpl. by rewrite (mapOutcome_null _ Hex).
  - intros Hn Hnot. destruct raw; simpl in *; try discriminate; try reflexivity.
    exfalso. by eapply Hnot.
Qed.

(* ================================================================== *)
(** ** Further properties: the message and the handler *)
(* ================================================================== *)

Lemma append_empty_r (s : string) : s +:+ "" = s.
Proof.
  induction s as [|c s IH]; [reflexivity|].
  change (String c (s +:+ "") = String c s). by rewrite IH.
Qed.

Lemma append_assoc (a b c : string) : (a +:+ b) +:+ c = a +:+ (b +:+ c).
Proof.
  induction a as [|x a IH]; [reflexivity|].
  change (String x ((a +:+ b) +:+ c) = String x (a +:+ (b +:+ c))). by rewrite IH.
Qed.

Lemma prefix_all (n : nat) (s : string) :
  (String.length s <= n)%nat -> Js.prefix n s = s.
Proof.
  unfold Js.prefix. revert n. induction s as [|c s IH]; intros [|n] Hle; simpl in *;
    try reflexivity; try lia.
  rewrite IH; [reflexivity | lia].
Qed.

Lemma prefix_is_prefix (n : nat) (s : string) : exists rest, s = Js.prefix n s +:+ rest.
Proof.
  unfold Js.prefix. revert n. induction s as [|c s IH]; intros [|n]; simpl.
  - by exists "".
  - by exists "".
  - by exists (String c s).
  - destruct (IH n) as [rest Hrest]. exists rest.
    change (String c s = String c (substring 0 n s +:+ rest)). by rewrite <- Hrest.
Qed.

Lemma prefix_length_le (n : nat) (s : string) : (String.length (Js.prefix n s) <= n)%nat.
Proof.
  unfold Js.prefix. revert n. induction s as [|c s IH]; intros [|n]; simpl; try lia.
  specialize (IH n). lia.
Qed.

(** X12.  The excerpt of a text body is bounded: it is the text itself when
    that has at most a thousand characters, and otherwise its first
    thousand characters followed by three dots, a thousand and three
    characters in all; in both cases it starts the way the text does. *)
Theorem excerpt_is_bounded (textBody : string) :
  (String.length (Postmark.excerpt textBody) <= 1003)%nat /\
  ((String.length textBody <= 1000)%nat -> Postmark.excerpt textBody = textBody) /\
  ((1000 < String.length textBody)%nat ->
   Postmark.excerpt textBody = Js.prefix 1000 textBody +:+ "..." /\
   String.length (Postmark.excerpt textBody) = 1003%nat) /\
  (exists rest, textBody = Js.prefix 1000 textBody +:+ rest).
Proof.
  split; [|split; [|split]].
  - unfold Postmark.excerpt. rewrite length_append.
    pose proof (prefix_length_le 1000 textBody).
    destruct (1000 <? String.length textBody)%nat; simpl; lia.
  - intros Hle. rewrite (excerpt_short _ Hle), append_empty_r. by apply prefix_all.
  - intros Hlt. by apply excerpt_long.
  - apply prefix_is_prefix.
Qed.

Lemma or_text (a b : Json) :
  stringOrAbsent a = true -> stringOrAbsent b = true ->
  Value.toString (Value.or a b) =
  Value.toString (if Js.truthyS (textOf a) then a else b).
Proof.
  unfold Value.or. destruct a as [| |?|?|s| |]; try discriminate; intros _ _;
    try reflexivity.
Qed.

Lemma textBodyOf_text (email : Json) :
  stringOrAbsent (Value.getOpt email "StrippedTextReply") = true ->
  stringOrAbsent (Value.getOpt email "TextBody") = true ->
  Postmark.textBodyOf email =
  JStr (firstNonEmpty (textOf (Value.getOpt email "StrippedTextReply"))
                      (textOf (Value.getOpt email "TextBody"))).
Proof.
  unfold Postmark.textBodyOf, firstNonEmpty, Value.or.
  destruct (Value.getOpt email "StrippedTextReply") as [| |?|?|s| |]; try discriminate;
    destruct (Value.getOpt email "TextBody") as [| |?|?|t| |]; try discriminate;
    intros _ _; simpl; try reflexivity;
    try (destruct s; reflexivity); try (destruct t; reflexivity).
  destruct s; simpl; [destruct t|]; reflexivity.
Qed.

(** X13.  The message built from an email whose subject and sender are
    strings, and whose sender name and text bodies are strings where they
    are present: six lines, the sender line showing the sender's name when
    it is not empty and the address otherwise, the last line the excerpt of
    the stripped reply when that is not empty and of the full text body
    otherwise. *)
Theorem message_of_email (email : Json) (subject from : string) :
  Value.get email "Subject" = Return (JStr subject) ->
  Value.getOpt email "From" = JStr from ->
  stringOrAbsent (Value.getOpt (Value.getOpt email "FromFull") "Name") = true ->
  stringOrAbsent (Value.getOpt email "StrippedTextReply") = true ->
  stringOrAbsent (Value.getOpt email "TextBody") = true ->
  Postmark.formatMessage email =
  Return (Js.join Js.LF
    [ "📧 **New Email**";
      "";
      "**From:** " +:+
        firstNonEmpty (textOf (Value.getOpt (Value.getOpt email "FromFull") "Name")) from;
      "**Subject:** " +:+ subject;
      "";
      Postmark.excerpt
        (firstNonEmpty (textOf (Value.getOpt email "StrippedTextReply"))
                       (textOf (Value.getOpt email "TextBody"))) ]).
Proof.
  intros Hs Hf Hname Hreply Htext. unfold Postmark.formatMessage.
  rewrite Hs, Hf. cbn [Value.toString].
  rewrite (textBodyOf_text _ Hreply Htext).
  assert (Hsender :
    Value.toString (Value.or (Value.getOpt (Value.getOpt email "FromFull") "Name")
                             (JStr from)) =
    Return (firstNonEmpty (textOf (Value.getOpt (Value.getOpt email "FromFull") "Name"))
                          from)).
  { unfold Value.or, firstNonEmpty.
    destruct (Value.getOpt (Value.getOpt email "FromFull") "Name") as [| |?|?|n| |];
      try discriminate; try reflexivity.
    simpl. destruct (Js.truthyS n); reflexivity. }
  rewrite Hsender. reflexivity.
Qed.

Lemma setHeader_in (name v : string) (hs : list (string * string)) :
  In (name, v) (Postmark.setHeader name v hs).
Proof.
  induction hs as [|[n x] hs IH]; simpl; [by left|].
  destruct (String.eqb_spec n name) as [->|Hne]; [by left | by right].
Qed.

Lemma responded_written (status : Z) (body : Json) (st : Postmark.HandlerState) :
  Postmark.statusCode (Postmark.res (responded status body st)) = status /\
  Postmark.ended (Postmark.res (responded status body st)) = Some body /\
  In ("Content-Type", "application/json; charset=utf-8")
     (Postmark.headers (Postmark.res (responded status body st))).
Proof. unfold responded. simpl. repeat split. apply setHeader_in. Qed.

(** X15.  What the handler leaves behind, for every request and every
    response object.  When it throws, the request URL could not be parsed
    and the response is untouched; when it returns false the response is
    untouched; when it returns true the response has been written exactly
    once by [sendJson]: its status is 200, 400 or 405, its body is set, and
    its Content-Type is JSON.  It never throws once the URL is parsed. *)
Theorem handler_outcome_and_response `{JsRuntime} (req : Postmark.IncomingMessage)
    (st : Postmark.HandlerState) :
  match fst (Postmark.handler req st) with
  | Throw e =>
      e = TypeError /\ URL_pathname (default "/" (Postmark.url req)) = None /\
      snd (Postmark.handler req st) = st
  | Return false =>
      snd (Postmark.handler req st) = st /\
      exists pathname, URL_pathname (default "/" (Postmark.url req)) = Some pathname /\
                       pathname <> "/webhooks/postmark"
  | Return true =>
      URL_pathname (default "/" (Postmark.url req)) = Some "/webhooks/postmark" /\
      exists status body,
        snd (Postmark.handler req st) = responded status body st /\
        (status = 200 \/ status = 400 \/ status = 405) /\
        (status = 405 <-> Postmark.method req <> Some "POST") /\
        Postmark.statusCode (Postmark.res (snd (Postmark.handler req st))) = status /\
        Postmark.ended (Postmark.res (snd (Postmark.handler req st))) = Some body /\
        In ("Content-Type", "application/json; charset=utf-8")
           (Postmark.headers (Postmark.res (snd (Postmark.handler req st))))
  end.
Proof.
  destruct (URL_pathname (default "/" (Postmark.url req))) as [pathname|] eqn:Hp.
  - destruct (String.eqb_spec pathname "/webhooks/postmark") as [->|Hne].
    + destruct (decide (Postmark.method req = Some "POST")) as [Hm|Hm].
      * rewrite (handler_post req st Hp Hm). cbn [fst snd]. split; [reflexivity|].
        destruct (Postmark.readJsonBody req) as [email|e];
          [destruct (Postmark.formatMessage email) as [message|e]|];
          eexists _, _; (split; [reflexivity|]);
          (split; [by auto|]); (split; [split; [discriminate | by intros ?]|]);
          apply responded_written.
      * rewrite (handler_wrong_method req st Hp Hm). cbn [fst snd].
        split; [reflexivity|]. eexists _, _. split; [reflexivity|].
        split; [by auto|]. split; [by split|]. apply responded_written.
    + rewrite (handler_other_path req st pathname Hp Hne). cbn [fst snd].
      split; [reflexivity|]. by exists pathname.
  - unfold Postmark.handler. rewrite Hp. by cbn.
Qed.

(* ================================================================== *)
(** ** Further properties: the fingerprint of a text *)
(* ================================================================== *)

Lemma hexDigit_hex (d : Z) : 0 <= d < 16 -> isHexLower (Sha256.hexDigit d) = true.
Proof.
  intros Hd.
  assert (Hcases : d = 0 \/ d = 1 \/ d = 2 \/ d = 3 \/ d = 4 \/ d = 5 \/ d = 6 \/ d = 7 \/
                   d = 8 \/ d = 9 \/ d = 10 \/ d = 11 \/ d = 12 \/ d = 13 \/ d = 14 \/
                   d = 15) by lia.
  repeat (destruct Hcases as [->|Hcases]; [reflexivity|]). subst. reflexivity.
Qed.

Lemma nib_hex (k x : Z) : isHexLower (Sha256.nib k x) = true.
Proof.
  unfold Sha256.nib. apply hexDigit_hex.
  change 15 with (Z.ones 4). rewrite Z.land_ones by lia.
  apply Z.mod_pos_bound. reflexivity.
Qed.

Lemma hexWord_hex (x : Z) (tail : string) :
  allChars isHexLower (Sha256.hexWord x tail) = allChars isHexLower tail.
Proof. unfold Sha256.hexWord. cbn [allChars]. by rewrite !nib_hex. Qed.

Lemma digestHex_hex (s : string) : allChars isHexLower (Sha256.digestHex s) = true.
Proof. unfold Sha256.digestHex, Sha256.hexState. by rewrite !hexWord_hex. Qed.

Lemma allChars_prefix (f : ascii -> bool) (n : nat) (s : string) :
  allChars f s = true -> allChars f (Js.prefix n s) = true.
Proof.
  unfold Js.prefix. revert n. induction s as [|c s IH]; intros [|n]; simpl; auto.
  intros Hall. apply andb_prop in Hall as [Hc Hs]. rewrite Hc. by apply IH.
Qed.

Lemma allChars_excludes (f : ascii -> bool) (c : ascii) (s : string) :
  allChars f s = true -> f c = false -> String.index 0 (String c "") s = None.
Proof.
  intros Hall Hc. induction s as [|d s IH]; [reflexivity|].
  simpl in Hall. apply andb_prop in Hall as [Hd Hs]. specialize (IH Hs).
  simpl. destruct (ascii_dec c d) as [->|Hne]; [congruence|].
  by rewrite IH.
Qed.

(** X16.  The fingerprint that stands for a text in the key of a summarize
    call is sixteen characters long, each a digit or a lower-case letter
    from a to f: it holds no colon, the separator of the parts of the key,
    whatever the text is, and equal texts have equal fingerprints. *)
Theorem text_fingerprint_is_hexadecimal (p : Summarize.Params.t) :
  Js.truthyO (Summarize.Params.url p) = false ->
  String.length (Summarize.sourceKey p) = 16%nat /\
  allChars isHexLower (Summarize.sourceKey p) = true /\
  String.index 0 ":" (Summarize.sourceKey p) = None /\
  (forall q, Js.truthyO (Summarize.Params.url q) = false ->
     Js.orS (Summarize.Params.text p) "" = Js.orS (Summarize.Params.text q) "" ->
     Summarize.sourceKey p = Summarize.sourceKey q).
Proof.
  intros Hu. rewrite (summarize_sourceKey_text _ Hu).
  assert (Hhex : allChars isHexLower
            (Js.prefix 16 (Sha256.digestHex (Js.orS (Summarize.Params.text p) ""))) = true)
    by (apply allChars_prefix, digestHex_hex).
  split; [apply digest_prefix_length|]. split; [exact Hhex|]. split.
  - by apply (allChars_excludes isHexLower).
  - intros q Hq Heq. by rewrite (summarize_sourceKey_text _ Hq), Heq.
Qed.

(* ================================================================== *)
(** ** Further properties: what a key says of its call *)
(* ================================================================== *)

Lemma noColon_append_colon (a y : string) : noColon (a +:+ ":" +:+ y) = false.
Proof.
  induction a as [|c a IH]; [reflexivity|].
  change (negb (Ascii.eqb c ":"%char) && noColon (a +:+ ":" +:+ y) = false).
  rewrite IH. apply andb_false_r.
Qed.

(** A text is cut at its last colon in one way only. *)
Lemma split_at_last_colon (a b x y : string) :
  noColon x = true -> noColon y = true ->
  a +:+ ":" +:+ x = b +:+ ":" +:+ y -> a = b /\ x = y.
Proof.
  intros Hx Hy. revert b. induction a as [|c a IH]; intros [|d b] Heq.
  - inversion Heq. auto.
  - change (String ":" x = String d (b +:+ ":" +:+ y)) in Heq. inversion Heq; subst.
    rewrite noColon_append_colon in Hx. discriminate.
  - change (String c (a +:+ ":" +:+ x) = String ":" y) in Heq. inversion Heq; subst.
    rewrite noColon_append_colon in Hy. discriminate.
  - change (String c (a +:+ ":" +:+ x) = String d (b +:+ ":" +:+ y)) in Heq.
    inversion Heq; subst. destruct (IH b) as [-> ->]; auto.
Qed.

Lemma noColon_ofBool (b : bool) : noColon (Js.ofBool b) = true.
Proof. destruct b; reflexivity. Qed.

Lemma noColon_of_list (xs : list string) (s : string) :
  forallb noColon xs = true -> In s xs -> noColon s = true.
Proof. intros Hall Hin. by apply (proj1 (forallb_forall _ _) Hall). Qed.

Lemma ofBool_inj (a b : bool) : Js.ofBool a = Js.ofBool b -> a = b.
Proof. destruct a, b; simpl; congruence. Qed.

(** The key input of a summarize call, grouped from the left. *)
Lemma summarize_key_grouped (p : Summarize.Params.t) :
  Summarize.cacheKeyInput p =
  (((("kagi-summarize:" +:+ Summarize.sourceKey p) +:+ ":" +:+ Summarize.Params.engine p)
     +:+ ":" +:+ Summarize.Params.summaryType p)
     +:+ ":" +:+ Js.orS (Summarize.Params.targetLanguage p) "auto")
     +:+ ":" +:+ Js.ofBool (Summarize.Params.cache p).
Proof. unfold Summarize.cacheKeyInput. by rewrite !append_assoc. Qed.

Lemma language_part (l : option string) :
  (forall x, l = Some x -> In x Summarize.TARGET_LANGUAGES) ->
  noColon (Js.orS l "auto") = true /\
  (forall l', (forall x, l' = Some x -> In x Summarize.TARGET_LANGUAGES) ->
     Js.orS l "auto" = Js.orS l' "auto" -> l = l').
Proof.
  intros Hl.
  assert (Hnorm : forall o, (forall x, o = Some x -> In x Summarize.TARGET_LANGUAGES) ->
            (o = None /\ Js.orS o "auto" = "auto") \/
            (exists x, o = Some x /\ In x Summarize.TARGET_LANGUAGES /\ Js.orS o "auto" = x)).
  { intros [x|] Ho; [right | by left]. exists x. split; [reflexivity|].
    pose proof (Ho x eq_refl) as Hin. split; [exact Hin|].
    unfold Js.orS. destruct x; [|reflexivity].
    unfold Summarize.TARGET_LANGUAGES in Hin.
    repeat (destruct Hin as [Hin|Hin]; [discriminate|]). destruct Hin. }
  assert (Hauto : ~ In "auto" Summarize.TARGET_LANGUAGES).
  { unfold Summarize.TARGET_LANGUAGES. intros Hin.
    repeat (destruct Hin as [Hin|Hin]; [discriminate|]). destruct Hin. }
  split.
  - destruct (Hnorm l Hl) as [[_ ->] | (x & _ & Hin & ->)]; [reflexivity|].
    by apply (noColon_of_list Summarize.TARGET_LANGUAGES).
  - intros l' Hl' Heq.
    destruct (Hnorm l Hl) as [[-> Ha] | (x & -> & Hin & Hx)];
      destruct (Hnorm l' Hl') as [[-> Ha'] | (x' & -> & Hin' & Hx')];
      rewrite ?Ha, ?Ha', ?Hx, ?Hx' in Heq; subst; try reflexivity; contradiction.
Qed.

(** X17.  A key says which call it belongs to.  Two summarize calls, each
    with the parameters [execute] builds from its arguments, have the same
    key input only when they agree on the source part, the engine, the
    summary type, the target language and the cache flag; two FastGPT calls
    have the same key input only when they agree on the query and the cache
    flag. *)
Theorem key_determines_the_call `{WebShared} `{Common}
    (c1 c2 : option Summarize.Config.t) (k1 k2 : string) (args1 args2 : Json)
    (q1 q2 : FastGPT.Params.t) :
  let p1 := Summarize.paramsOf c1 k1 args1 in
  let p2 := Summarize.paramsOf c2 k2 args2 in
  (Summarize.cacheKeyInput p1 = Summarize.cacheKeyInput p2 ->
   Summarize.sourceKey p1 = Summarize.sourceKey p2 /\
   Summarize.Params.engine p1 = Summarize.Params.engine p2 /\
   Summarize.Params.summaryType p1 = Summarize.Params.summaryType p2 /\
   Summarize.Params.targetLanguage p1 = Summarize.Params.targetLanguage p2 /\
   Summarize.Params.cache p1 = Summarize.Params.cache p2) /\
  (FastGPT.cacheKeyInput q1 = FastGPT.cacheKeyInput q2 ->
   FastGPT.Params.query q1 = FastGPT.Params.query q2 /\
   FastGPT.Params.cache q1 = FastGPT.Params.cache q2).
Proof.
  intros p1 p2. split.
  - destruct (run_parameters_valid_parts c1 k1 args1) as (He1 & Ht1 & Hl1).
    destruct (run_parameters_valid_parts c2 k2 args2) as (He2 & Ht2 & Hl2).
    fold p1 in He1, Ht1, Hl1. fold p2 in He2, Ht2, Hl2.
    destruct (language_part _ Hl1) as [Hn1 Hinj].
    destruct (language_part _ Hl2) as [Hn2 _].
    rewrite !summarize_key_grouped. intros Heq.
    apply split_at_last_colon in Heq as [Heq Hflag]; [|apply noColon_ofBool..].
    apply split_at_last_colon in Heq as [Heq Hlang]; [|assumption..].
    apply split_at_last_colon in Heq as [Heq Htype];
      [|by apply (noColon_of_list Summarize.SUMMARY_TYPES)..].
    apply split_at_last_colon in Heq as [Heq Hengine];
      [|by apply (noColon_of_list Summarize.SUMMARIZER_ENGINES)..].
    apply String.app_inj in Heq.
    repeat split; auto. by apply ofBool_inj.
  - unfold FastGPT.cacheKeyInput. intros Heq. apply String.app_inj in Heq.
    apply split_at_last_colon in Heq as [Hq Hflag]; [|apply noColon_ofBool..].
    split; [exact Hq | by apply ofBool_inj].
Qed.

(* ================================================================== *)
(** ** Further properties: a constructed tool *)
(* ================================================================== *)

Lemma summarize_tool_name `{WebShared} `{Common} (env0 : Env)
    (so : option Summarize.Options) (tool : AnyAgentTool) :
  Summarize.createKagiSummarizeTool env0 so = Some tool -> name tool = "kagi_summarize".
Proof.
  unfold Summarize.createKagiSummarizeTool.
  repeat match goal with |- context [if ?b then _ else _] => destruct b end;
    intros Heq; inversion Heq; reflexivity.
Qed.

Lemma fastgpt_tool_name `{WebShared} `{Common} (env0 : Env)
    (fo : option FastGPT.Options) (tool : AnyAgentTool) :
  FastGPT.createKagiFastGPTTool env0 fo = Some tool -> name tool = "kagi_fastgpt".
Proof.
  unfold FastGPT.createKagiFastGPTTool.
  repeat match goal with |- context [if ?b then _ else _] => destruct b end;
    intros Heq; inversion Heq; reflexivity.
Qed.

(** X18.  A constructed tool keeps the configuration and no credential:
    whether it was built sandboxed or not, and whatever the environment held
    when it was built, a call made while no credential is resolvable returns
    the [missing_kagi_api_key] result and changes nothing, and a call made
    while one is resolvable never returns it for lack of a key at
    construction.  The tools are named [kagi_summarize] and [kagi_fastgpt]. *)
Theorem tool_resolves_the_key_at_each_call `{WebShared} `{Common}
    (env0 env : Env) (so : option Summarize.Options) (fo : option FastGPT.Options)
    (args : Json) (w : World) :
  let sc := Summarize.resolveSummarizerConfig (so ≫= Summarize.config) in
  let fc := FastGPT.resolveFastGPTConfig (fo ≫= FastGPT.config) in
  (forall tool, Summarize.createKagiSummarizeTool env0 so = Some tool ->
     name tool = "kagi_summarize" /\
     (credentialless (sc ≫= Summarize.Config.apiKey) env ->
      execute tool env args w = (Return (jsonResult Summarize.missingKeyResult), w)) /\
     (forall key, Summarize.resolveKagiApiKey env sc = Some key ->
      Js.truthyO (readStringParam args "url") <> Js.truthyO (readStringParam args "text") ->
      execute tool env args w =
      (result <- Summarize.runSummarize env (Summarize.paramsOf sc key args) ;;
       ret (jsonResult result)) w)) /\
  (forall tool, FastGPT.createKagiFastGPTTool env0 fo = Some tool ->
     name tool = "kagi_fastgpt" /\
     (credentialless (fc ≫= FastGPT.Config.apiKey) env ->
      execute tool env args w = (Return (jsonResult FastGPT.missingKeyResult), w)) /\
     (forall key query, FastGPT.resolveKagiApiKey env fc = Some key ->
      readRequiredStringParam args "query" = Return query ->
      execute tool env args w =
      (result <- FastGPT.runFastGPT env (fastgptParamsOf fc key query args) ;;
       ret (jsonResult result)) w)).
Proof.
  intros sc fc. split.
  - intros tool Hcreate. split; [by eapply summarize_tool_name|].
    rewrite (summarize_tool_execute _ _ _ Hcreate). fold sc. split.
    + intros Hc. apply summarize_key_none in Hc.
      unfold Summarize.executeSummarize. by rewrite Hc.
    + intros key Hkey Hone. by apply summarize_execute_runs.
  - intros tool Hcreate. split; [by eapply fastgpt_tool_name|].
    rewrite (fastgpt_tool_execute _ _ _ Hcreate). fold fc. split.
    + intros Hc. apply fastgpt_key_none in Hc.
      unfold FastGPT.executeFastGPT. by rewrite Hc.
    + intros key query Hkey Hq. by apply fastgpt_execute_runs.
Qed.

(* ================================================================== *)
(** ** The further properties at sample inputs *)
(* ================================================================== *)

(** X1 at sample inputs: a padded configured key beside a key in the
    environment, and a blank configured key. *)
Lemma credential_resolution_witness :
  Summarize.resolveKagiApiKey Inputs.answering
    (Inputs.summarizer (Some " cfg-key ") None None) = Some "cfg-key" /\
  Summarize.resolveKagiApiKey Inputs.answering
    (Inputs.summarizer (Some "   ") None None) = Some "env-key" /\
  Summarize.resolveKagiApiKey Inputs.answering
    (Inputs.summarizer (Some " cfg-key ") None None) =
  FastGPT.resolveKagiApiKey Inputs.answering (Inputs.fastgpt (Some " cfg-key ") None None) /\
  "cfg-key" <> "" /\ Js.trim "cfg-key" = "cfg-key".
Proof.
  split; [|split; [|split]].
  - destruct (credential_resolution Inputs.answering
                (Inputs.summarizer (Some " cfg-key ") None None) None)
      as (_ & _ & Hconfigured & _).
    apply (Hconfigured " cfg-key " eq_refl). discriminate.
  - destruct (credential_resolution Inputs.answering
                (Inputs.summarizer (Some "   ") None None) None)
      as (_ & _ & _ & Henv & _).
    apply (Henv eq_refl "  env-key " eq_refl). discriminate.
  - destruct (credential_resolution Inputs.answering
                (Inputs.summarizer (Some " cfg-key ") None None)
                (Inputs.fastgpt (Some " cfg-key ") None None))
      as (_ & _ & _ & _ & Hsame).
    apply Hsame. reflexivity.
  - destruct (credential_resolution Inputs.answering
                (Inputs.summarizer (Some " cfg-key ") None None) None)
      as (Hkey & _).
    apply (Hkey "cfg-key"). reflexivity.
Defined.

(** X2 at sample inputs: a configured timeout that is used, and configured
    values that are not. *)
Lemma timeouts_are_positive_witness :
  Summarize.resolveTimeoutSeconds (Inputs.summarizer None (Some (Finite 5)) None) = 5 /\
  FastGPT.resolveTimeoutSeconds (Inputs.fastgpt None (Some (Finite 7)) None) = 7 /\
  Summarize.resolveTimeoutSeconds (Inputs.summarizer None (Some (Finite 0)) None) = 60 /\
  FastGPT.resolveTimeoutSeconds (Inputs.fastgpt None (Some NaN) None) = 30.
Proof.
  split; [|split; [|split]].
  - destruct (@timeouts_are_positive Sample.webShared Sample.common
                (Inputs.summarizer None (Some (Finite 5)) None) None "k" "q" JNull)
      as (_ & _ & _ & _ & Hused & _).
    apply Hused; [reflexivity | lia].
  - destruct (@timeouts_are_positive Sample.webShared Sample.common
                None (Inputs.fastgpt None (Some (Finite 7)) None) "k" "q" JNull)
      as (_ & _ & _ & _ & _ & Hused & _).
    apply Hused; [reflexivity | lia].
  - destruct (@timeouts_are_positive Sample.webShared Sample.common
                (Inputs.summarizer None (Some (Finite 0)) None) None "k" "q" JNull)
      as (_ & _ & _ & _ & _ & _ & Hdefault & _).
    apply Hdefault. intros v Hv. inversion Hv. lia.
  - destruct (@timeouts_are_positive Sample.webShared Sample.common
                None (Inputs.fastgpt None (Some NaN) None) "k" "q" JNull)
      as (_ & _ & _ & _ & _ & _ & _ & Hdefault).
    apply Hdefault. intros v Hv. inversion Hv.
Defined.

(** X3 at sample inputs: zero minutes, thirty minutes, a negative number,
    and a number of minutes whose milliseconds are beyond 2^53. *)
Lemma cache_ttl_is_not_negative_witness :
  @Summarize.resolveCacheTtlMs Sample.webShared
    (Inputs.summarizer None None (Some (Finite 0))) = Finite 0 /\
  @Summarize.resolveCacheTtlMs Sample.webShared
    (Inputs.summarizer None None (Some (Finite 30))) = Finite 1800000 /\
  @FastGPT.resolveCacheTtlMs Sample.webShared
    (Inputs.fastgpt None None (Some (Finite (-1)))) = Finite 900000 /\
  @Summarize.resolveCacheTtlMs Sample.webShared
    (Inputs.summarizer None None (Some (Finite 9007199254740991))) =
    Finite 540431955284459454464.
Proof.
  split; [|split; [|split]].
  - destruct (@cache_ttl_is_not_negative Sample.webShared
                (Inputs.summarizer None None (Some (Finite 0))) None)
      as (_ & _ & Hused & _); [simpl; lia|].
    apply (Hused 0); [reflexivity | lia | reflexivity].
  - destruct (@cache_ttl_is_not_negative Sample.webShared
                (Inputs.summarizer None None (Some (Finite 30))) None)
      as (_ & _ & Hused & _); [simpl; lia|].
    apply (Hused 30); [reflexivity | lia | reflexivity].
  - destruct (@cache_ttl_is_not_negative Sample.webShared
                None (Inputs.fastgpt None None (Some (Finite (-1)))))
      as (_ & _ & _ & _ & _ & Hdefault); [simpl; lia|].
    apply Hdefault; [|reflexivity]. intros m Hm. inversion Hm. lia.
  - destruct (@cache_ttl_is_not_negative Sample.webShared
                (Inputs.summarizer None None (Some (Finite 9007199254740991))) None)
      as (_ & _ & Hused & _); [simpl; lia|].
    exact (proj1 (Hused 9007199254740991 eq_refl ltac:(lia))).
Defined.

(** X5 at sample inputs: two spellings of an engine and of a language, and
    the alias. *)
Lemma validation_reads_the_normal_form_witness :
  Summarize.validateEngine (Some "  Agnes ") = Summarize.validateEngine (Some "AGNES") /\
  Summarize.validateTargetLanguage (Some "ja ") = Summarize.validateTargetLanguage (Some "JA") /\
  Summarize.validateEngine (Some "agnes") = Some "agnes" /\
  Summarize.validateTargetLanguage (Some " zhhant") = Some "ZH-HANT".
Proof.
  split; [|split; [|split]].
  - destruct (validation_reads_the_normal_form "  Agnes " "AGNES") as (Hlower & _).
    apply Hlower. reflexivity.
  - destruct (validation_reads_the_normal_form "ja " "JA") as (_ & Hupper & _).
    apply Hupper. reflexivity.
  - destruct (validation_reads_the_normal_form "  Agnes " "AGNES") as (_ & _ & Hagain & _).
    apply Hagain. reflexivity.
  - destruct (validation_reads_the_normal_form " zhhant" "") as (_ & _ & _ & _ & _ & Halias).
    apply Halias. reflexivity.
Defined.

(** X6 at a sample input: a stored result that is still live. *)
Lemma cache_hit_is_served_locally_witness :
  let w := Inputs.holding (Inputs.stored 1700000000100) in
  fst (@Summarize.runSummarize Sample.webShared Inputs.answering Inputs.cachedText w) =
    Return (JObj [("provider", JStr "kagi-summarizer"); ("summary", JStr "kept");
                  ("cached", JBool true)]) /\
  requests (snd (@Summarize.runSummarize Sample.webShared Inputs.answering
                   Inputs.cachedText w)) = [] /\
  fst (@FastGPT.runFastGPT Sample.webShared Inputs.answering Inputs.cachedQuery w) =
    Return (JObj [("provider", JStr "kagi-summarizer"); ("summary", JStr "kept");
                  ("cached", JBool true)]).
Proof.
  intros w.
  destruct (@cache_hit_is_served_locally Sample.webShared Inputs.answering
              Inputs.cachedText Inputs.cachedQuery w (Inputs.stored 1700000000100))
    as (Hs & Hf & _).
  destruct Hs as (Hres & Hreq & _); [reflexivity | apply lookup_singleton_eq | reflexivity|].
  destruct Hf as (Hres' & _); [reflexivity | apply lookup_singleton_eq | reflexivity|].
  split; [exact Hres|]. split; [exact Hreq | exact Hres'].
Defined.

(** X7 at a sample input: a call against an empty store, and the same call
    two clock readings later. *)
Lemma cached_result_is_returned_again_witness :
  let first := @Summarize.runSummarize Sample.webShared Inputs.answering
                 Inputs.cachedText Sample.world0 in
  let second := @Summarize.runSummarize Sample.webShared Inputs.answering
                  Inputs.cachedText (later 2 (snd first)) in
  let payload :=
    Summarize.payloadOf Inputs.cachedText 5
      (JObj [("data", JObj [("output", JStr "a summary"); ("tokens", JNum 12)])]) in
  fst first = Return payload /\
  SUMMARIZE_CACHE (snd first) !!
    @normalizeCacheKey Sample.webShared (Summarize.cacheKeyInput Inputs.cachedText) =
    Some {| value := payload; expiresAt := Finite 1700000900010 |} /\
  fst second = Return (Value.spreadSet payload "cached" (JBool true)) /\
  requests (snd second) = [Summarize.requestOf Inputs.cachedText].
Proof.
  intros first second payload.
  destruct (@cached_result_is_returned_again Sample.webShared Inputs.answering
              Inputs.cachedText Inputs.cachedQuery Sample.world0
              (Sample.okResponse "a summary") _ JUndefined (JArr []) 2%nat
              eq_refl eq_refl eq_refl eq_refl) as (Hs & _).
  destruct Hs as (Hfirst & Hstored & Hagain);
    [reflexivity | reflexivity | reflexivity | reflexivity|].
  destruct Hagain as (Hsecond & Hreq); [reflexivity|].
  split; [exact Hfirst|]. split; [exact Hstored|]. split; [exact Hsecond | exact Hreq].
Defined.

(** X9 at a sample input: a FastGPT call with no query. *)
Lemma at_most_one_request_witness :
  @FastGPT.executeFastGPT Sample.webShared Sample.common None Inputs.answering
    (JObj [("cache", JBool false)]) Sample.world0 =
  (Throw (Error "query required"), Sample.world0).
Proof.
  destruct (@at_most_one_request Sample.webShared Sample.common None None Inputs.answering
              (JObj [("cache", JBool false)]) Sample.world0) as (_ & _ & Hthrows).
  apply (Hthrows "env-key"); reflexivity.
Defined.

(** X10 at sample inputs: a call by URL with a language, a call by text. *)
Lemma summarize_request_contents_witness :
  Value.get (Summarize.requestBodyOf
               {| Summarize.Params.url := Some "https://example.com/a.pdf";
                  Summarize.Params.text := Some "ignored";
                  Summarize.Params.engine := "cecil";
                  Summarize.Params.summaryType := "summary";
                  Summarize.Params.targetLanguage := Some "JA";
                  Summarize.Params.apiKey := "token"; Summarize.Params.cache := true;
                  Summarize.Params.timeoutSeconds := 60;
                  Summarize.Params.cacheTtlMs := Finite 0 |}) "url" =
    Return (JStr "https://example.com/a.pdf") /\
  Value.get (Summarize.requestBodyOf Inputs.cachedText) "text" = Return (JStr "abc") /\
  Value.get (Summarize.requestBodyOf Inputs.cachedText) "target_language" =
    Return JUndefined.
Proof.
  split; [|split].
  - destruct (summarize_request_contents
                {| Summarize.Params.url := Some "https://example.com/a.pdf";
                   Summarize.Params.text := Some "ignored";
                   Summarize.Params.engine := "cecil";
                   Summarize.Params.summaryType := "summary";
                   Summarize.Params.targetLanguage := Some "JA";
                   Summarize.Params.apiKey := "token"; Summarize.Params.cache := true;
                   Summarize.Params.timeoutSeconds := 60;
                   Summarize.Params.cacheTtlMs := Finite 0 |})
      as (_ & _ & _ & _ & _ & _ & Hurl & _).
    apply Hurl; [reflexivity | discriminate].
  - destruct (summarize_request_contents Inputs.cachedText)
      as (_ & _ & _ & _ & _ & _ & _ & Htext & _).
    apply Htext; [reflexivity | reflexivity | discriminate].
  - destruct (summarize_request_contents Inputs.cachedText)
      as (_ & _ & _ & _ & _ & _ & _ & _ & Hnone & _).
    apply Hnone. reflexivity.
Defined.

(** X11 at a sample input: an answer with two references. *)
Lemma references_are_normalized_witness :
  exists rs,
    FastGPT.referencesOf Inputs.withReferences = Return (JArr rs) /\ length rs = 2%nat.
Proof.
  destruct (references_are_normalized Inputs.withReferences) as (_ & Harray & _).
  destruct (Harray _ eq_refl) as (rs & Hrs & Hlen & _).
  - repeat constructor.
  - exists rs. split; [exact Hrs | exact Hlen].
Defined.

(** X12 at sample inputs: a short text, and one of a thousand and ten
    characters. *)
Lemma excerpt_is_bounded_witness :
  Postmark.excerpt "Hi there" = "Hi there" /\
  String.length (Postmark.excerpt (times 101 "0123456789")) = 1003%nat.
Proof.
  split.
  - destruct (excerpt_is_bounded "Hi there") as (_ & Hshort & _).
    apply Hshort. simpl. lia.
  - destruct (excerpt_is_bounded (times 101 "0123456789")) as (_ & _ & Hlong & _).
    apply Hlong. vm_compute. lia.
Defined.

(** X13 at a sample input: the sample email. *)
Lemma message_of_email_witness :
  Postmark.formatMessage Sample.email =
  Return (Js.join Js.LF ["📧 **New Email**"; ""; "**From:** Ann"; "**Subject:** Hello"; "";
                         Postmark.excerpt "Hi there"]).
Proof.
  apply (message_of_email Sample.email "Hello" "ann@example.com"); reflexivity.
Defined.

(** X16 at a sample input: the fingerprint of a call by text. *)
Lemma text_fingerprint_is_hexadecimal_witness :
  String.length (Summarize.sourceKey Inputs.cachedText) = 16%nat /\
  String.index 0 ":" (Summarize.sourceKey Inputs.cachedText) = None.
Proof.
  destruct (text_fingerprint_is_hexadecimal Inputs.cachedText eq_refl)
    as (Hlen & _ & Hcolon & _).
  split; [exact Hlen | exact Hcolon].
Defined.

(** X17 at sample inputs: two calls that differ in the engine, and two
    FastGPT calls that differ in the cache flag. *)
Lemma key_determines_the_call_witness :
  Summarize.cacheKeyInput
    (@Summarize.paramsOf Sample.webShared Sample.common None "k"
       (JObj [("text", JStr "abc"); ("engine", JStr "agnes")])) <>
  Summarize.cacheKeyInput
    (@Summarize.paramsOf Sample.webShared Sample.common None "k"
       (JObj [("text", JStr "abc"); ("engine", JStr "muriel")])) /\
  FastGPT.cacheKeyInput Inputs.cachedQuery <>
  FastGPT.cacheKeyInput
    {| FastGPT.Params.query := "what is rocq"; FastGPT.Params.apiKey := "token";
       FastGPT.Params.cache := false; FastGPT.Params.timeoutSeconds := 30;
       FastGPT.Params.cacheTtlMs := Finite 900000 |}.
Proof.
  split.
  - intros Heq.
    apply (proj1 (@key_determines_the_call Sample.webShared Sample.common None None "k" "k"
                    (JObj [("text", JStr "abc"); ("engine", JStr "agnes")])
                    (JObj [("text", JStr "abc"); ("engine", JStr "muriel")])
                    Inputs.cachedQuery Inputs.cachedQuery)) in Heq.
    destruct Heq as (_ & Hengine & _). vm_compute in Hengine. discriminate.
  - intros Heq.
    apply (proj2 (@key_determines_the_call Sample.webShared Sample.common None None "k" "k"
                    JNull JNull Inputs.cachedQuery
                    {| FastGPT.Params.query := "what is rocq";
                       FastGPT.Params.apiKey := "token";
                       FastGPT.Params.cache := false;
                       FastGPT.Params.timeoutSeconds := 30;
                       FastGPT.Params.cacheTtlMs := Finite 900000 |})) in Heq.
    destruct Heq as (_ & Hflag). discriminate.
Defined.

(** X18 at a sample input: a tool built with a key in the environment and
    called after the key is gone. *)
Lemma tool_resolves_the_key_at_each_call_witness :
  exists tool,
    @Summarize.createKagiSummarizeTool Sample.webShared Sample.common Inputs.answering
      None = Some tool /\
    execute tool Witness.keyless Witness.byText Sample.world0 =
    (Return Summarize.missingKeyResult, Sample.world0).
Proof.
  eexists. split; [reflexivity|].
  apply (proj1 (@tool_resolves_the_key_at_each_call Sample.webShared Sample.common
                  Inputs.answering Witness.keyless None None Witness.byText Sample.world0)
               _ eq_refl).
  split; reflexivity.
Defined.

